(** * Working Calendar: task store and statistics routes

    A shallow embedding of the server side of the repository: the task
    model ([Task.js]), the task routes ([tasks.js]) and the statistics
    routes ([stats.js]), together with the parts of express-validator,
    validator.js, mongoose and the JavaScript [Date] object that these
    routes call.

    The browser front end ([app.js]) is embedded as well: its task list,
    its month grid and its listeners.

    Strings are byte strings holding UTF-8 text, which is how MongoDB
    stores and compares them.  Numbers are binary64 values; those of a
    request body and of the store are held as the integers they denote
    (the routes accept only integral progress, priority, year and month
    values), and the statistics routes round their quotients as binary64
    arithmetic does. *)

From Stdlib Require Import ZArith QArith Qround Qabs String Ascii List DecimalString Lia Bool.
From stdpp Require Import gmap strings list sorting.

Local Open Scope string_scope.
Local Open Scope list_scope.
Local Open Scope Z_scope.

(** ** Strings *)

Module Str.

Definition bytes (s : string) : list N := map N_of_ascii (list_ascii_of_string s).
Definition of_bytes (l : list N) : string := string_of_list_ascii (map ascii_of_N l).

(** [String.prototype.trim] removes WhiteSpace and LineTerminator code
    points from both ends.  The tests below recognise their UTF-8
    encodings: one, two and three bytes long. *)
Definition ws1 (a : N) : bool :=
  ((9 <=? a) && (a <=? 13))%N || (a =? 32)%N.

(* U+00A0 *)
Definition ws2 (a b : N) : bool := ((a =? 194) && (b =? 160))%N.

(* U+1680, U+2000..U+200A, U+2028, U+2029, U+202F, U+205F, U+3000, U+FEFF *)
Definition ws3 (a b c : N) : bool :=
  (((a =? 225) && (b =? 154) && (c =? 128))
   || ((a =? 226) && (b =? 128)
         && (((128 <=? c) && (c <=? 138)) || (c =? 168) || (c =? 169) || (c =? 175)))
   || ((a =? 226) && (b =? 129) && (c =? 159))
   || ((a =? 227) && (b =? 128) && (c =? 128))
   || ((a =? 239) && (b =? 187) && (c =? 191)))%N.

Fixpoint strip (m1 : N -> bool) (m2 : N -> N -> bool) (m3 : N -> N -> N -> bool)
    (l : list N) : list N :=
  match l with
  | [] => []
  | a :: r1 =>
      if m1 a then strip m1 m2 m3 r1 else
      match r1 with
      | [] => l
      | b :: r2 =>
          if m2 a b then strip m1 m2 m3 r2 else
          match r2 with
          | [] => l
          | c :: r3 => if m3 a b c then strip m1 m2 m3 r3 else l
          end
      end
  end.

Definition trimStart (l : list N) : list N := strip ws1 ws2 ws3 l.
Definition trimEnd (l : list N) : list N :=
  rev (strip ws1 (fun a b => ws2 b a) (fun a b c => ws3 c b a) (rev l)).

Definition trim (s : string) : string := of_bytes (trimEnd (trimStart (bytes s))).

(** Decimal digits and the integer pattern of validator.js,
    [/^[-+]?[0-9]+$/] (leading zeroes are allowed by default). *)
Definition is_digit (a : N) : bool := ((48 <=? a) && (a <=? 57))%N.

Fixpoint digits_value (acc : Z) (l : list N) : Z :=
  match l with
  | [] => acc
  | a :: r => digits_value (10 * acc + (Z.of_N a - 48)) r
  end.

Definition parse_digits (l : list N) : option Z :=
  match l with
  | [] => None
  | _ => if forallb is_digit l then Some (digits_value 0 l) else None
  end.

Definition parse_int (s : string) : option Z :=
  match bytes s with
  | 45%N :: r => Z.opp <$> parse_digits r
  | 43%N :: r => parse_digits r
  | l => parse_digits l
  end.

(** Hexadecimal digits, for [isMongoId] and the ObjectId cast. *)
Definition hex_value (a : N) : option Z :=
  if is_digit a then Some (Z.of_N a - 48)
  else if ((97 <=? a) && (a <=? 102))%N then Some (Z.of_N a - 87)
  else if ((65 <=? a) && (a <=? 70))%N then Some (Z.of_N a - 55)
  else None.

Fixpoint parse_hex (acc : Z) (l : list N) : option Z :=
  match l with
  | [] => Some acc
  | a :: r => match hex_value a with
              | Some d => parse_hex (16 * acc + d) r
              | None => None
              end
  end.

(** [Number.prototype.toString] on an integer below 10^21 in magnitude. *)
Definition of_Z (n : Z) : string := NilZero.string_of_int (Z.to_int n).

(** [String.prototype.padStart(2, '0')]. *)
Definition padStart2 (s : string) : string :=
  match String.length s with
  | O => "00"
  | S O => String "0" s
  | _ => s
  end.

Definition starts_with_dollar (s : string) : bool :=
  match s with
  | String "$" _ => true
  | _ => false
  end.

Definition has_dot (s : string) : bool := existsb (N.eqb 46) (bytes s).

End Str.

(** ** JSON values and request data *)

(** The members of a parsed JSON body.  A member is a scalar or a plain
    object of scalars (the shape of an update operator such as [$set]).
    Arrays and deeper nesting are not modelled: what is proved of a body
    is proved of bodies without them.  [JNum n] is a number whose value
    is the integer [n].  An absent member ([undefined]) is a failed lookup
    in the body. *)
Inductive scalar :=
| JNull
| JBool (b : bool)
| JNum (n : Z)
| JStr (s : string).

Inductive jsval :=
| JScalar (v : scalar)
| JObject (o : gmap string scalar).

Coercion JScalar : scalar >-> jsval.

(** [req.body] *)
Abbreviation Body := (gmap string jsval).

(** ** express-validator *)

Module Validator.

(** One entry of [errors.array()]. *)
Record FieldError := { path : string; msg : string }.

Definition isString (v : option jsval) : bool :=
  match v with
  | Some (JScalar (JStr _)) => true
  | _ => false
  end.

(** The library's string conversion, applied before the validator.js
    checks. *)
Definition toString (v : option jsval) : string :=
  match v with
  | None | Some (JScalar JNull) => ""
  | Some (JScalar (JBool true)) => "true"
  | Some (JScalar (JBool false)) => "false"
  | Some (JScalar (JNum n)) => Str.of_Z n
  | Some (JScalar (JStr s)) => s
  | Some (JObject _) => "[object Object]"
  end.

(** [notEmpty()]: the converted string has at least one character.
    Whitespace counts: validator.js ignores it only on request. *)
Definition notEmpty (v : option jsval) : bool :=
  negb (String.length (toString v) =? 0)%nat.

(** The integer a value denotes when its string form matches the integer
    pattern.  An integral number prints as its decimal digits, which
    always match. *)
Definition int_value (v : option jsval) : option Z :=
  match v with
  | Some (JScalar (JNum n)) => Some n
  | Some (JScalar (JStr s)) => Str.parse_int s
  | _ => None
  end.

(** [isInt({ min, max })] *)
Definition isInt (min max : Z) (v : option jsval) : bool :=
  match int_value v with
  | Some z => (min <=? z) && (z <=? max)
  | None => false
  end.

(** [isInt({ min })] *)
Definition isIntMin (min : Z) (v : option jsval) : bool :=
  match int_value v with
  | Some z => min <=? z
  | None => false
  end.

(** One or more hexadecimal digits. *)
Definition hex_digits (l : list N) : bool :=
  negb (length l =? 0)%nat
  && forallb (fun a => bool_decide (is_Some (Str.hex_value a))) l.

(** validator.js [isHexadecimal], [/^(0x|0h)?[0-9A-F]+$/i]: hexadecimal
    digits, after [0x] or [0h] in either case if the string has such a
    prefix. *)
Definition isHexadecimal (s : string) : bool :=
  let l := Str.bytes s in
  hex_digits l
  || match l with
     | z :: p :: r =>
         ((z =? 48) && ((p =? 120) || (p =? 88) || (p =? 104) || (p =? 72)))%N
         && hex_digits r
     | _ => false
     end.

(** [isMongoId()]: a hexadecimal string of length 24.  The prefix counts
    towards the length, so [0x] and twenty-two digits pass. *)
Definition isMongoId (s : string) : bool :=
  isHexadecimal s && (String.length s =? 24)%nat.

Definition check (p : string) (ok : bool) (m : string) : list FieldError :=
  if ok then [] else [{| path := p; msg := m |}].

(** [optional()]: the chain is skipped for an [undefined] field only. *)
Definition optional (v : option jsval) (errs : list FieldError) : list FieldError :=
  match v with
  | None => []
  | Some _ => errs
  end.

(** A query-string parameter given once is a string.  A parameter given
    several times or with brackets reaches the route as an array or an
    object; such requests are not modelled. *)
Definition qparam (q : option string) : option jsval :=
  (fun s => JScalar (JStr s)) <$> q.

End Validator.

Import Validator.

(** ** The task model ([Task.js]) *)

(** A stored task document.  [_id] and [userId] are ObjectIds, held as the
    number their twenty-four hexadecimal digits denote; the two timestamps
    are milliseconds since the epoch. *)
Record Task := {
  _id : Z;
  userId : Z;
  date : string;
  title : string;
  progress : Z;
  category : string;
  priority : Z;
  createTime : Z;
  updateTime : Z;
}.

(** The collection in its natural (insertion) order, and the source of
    fresh ObjectIds. *)
Record DB := {
  docs : list Task;
  next_oid : Z;
}.

Definition empty_db : DB := {| docs := []; next_oid := 0 |}.

(** The result of a mongoose call.  [Fail] is a rejected promise
    (a CastError, a ValidationError or a server error).  [Outside] marks a
    value whose treatment by mongoose leaves what [Task] can hold
    (a stored [null], a fractional number, a parsed date string) or is not
    pinned down here; the model says nothing about such a call. *)
Inductive outcome (A : Type) :=
| Ok (a : A)
| Fail
| Outside.
Arguments Ok {A} a.
Arguments Fail {A}.
Arguments Outside {A}.

Definition obind {A B} (c : outcome A) (f : A -> outcome B) : outcome B :=
  match c with
  | Ok a => f a
  | Fail => Fail
  | Outside => Outside
  end.

Definition omap {A B} (f : A -> B) (c : outcome A) : outcome B :=
  obind c (fun a => Ok (f a)).

Notation "'try' x ':=' c 'in' k" := (obind c (fun x => k))
  (at level 10, x name, c at level 100, k at level 200).

Module Schema.

(** mongoose's casts to the schema types. *)
Definition castString (v : scalar) : outcome string :=
  match v with
  | JStr s => Ok s
  | JNum n => if Z.abs n <? 10 ^ 21 then Ok (Str.of_Z n) else Outside
  | JBool true => Ok "true"
  | JBool false => Ok "false"
  | JNull => Outside
  end.

Definition castNumber (v : scalar) : outcome Z :=
  match v with
  | JNum n => Ok n
  | JBool b => Ok (if b then 1 else 0)
  | JStr s =>
      match Str.parse_int s with
      | Some z => if Z.abs z <=? 2 ^ 53 then Ok z else Outside
      | None => Outside
      end
  | JNull => Outside
  end.

Definition castDate (v : scalar) : outcome Z :=
  match v with
  | JNum n => if Z.abs n <=? 8640000000000000 then Ok n else Fail
  | JBool _ => Fail
  | JStr _ => Outside
  | JNull => Outside
  end.

(** The strings the ObjectId constructor reads as hexadecimal: twenty-four
    hexadecimal digits, with no prefix. *)
Definition hex24 (s : string) : bool :=
  (String.length s =? 24)%nat
  && forallb (fun a => bool_decide (is_Some (Str.hex_value a))) (Str.bytes s).

Definition castObjectId (v : scalar) : outcome Z :=
  match v with
  | JStr s =>
      if hex24 s then
        match Str.parse_hex 0 (Str.bytes s) with
        | Some z => Ok z
        | None => Fail
        end
      else if (String.length s =? 12)%nat then Outside
      else Fail
  | _ => Outside
  end.

(** A plain object where a scalar path is expected is a CastError. *)
Definition at_scalar {A} (cast : scalar -> outcome A) (v : jsval) : outcome A :=
  match v with
  | JScalar s => cast s
  | JObject _ => Fail
  end.

(** [required: true] on a String path rejects the empty string. *)
Definition required (s : string) : bool := negb (String.length s =? 0)%nat.

Definition in_range (lo hi v : Z) : bool := (lo <=? v) && (v <=? hi).

(** [Task.create(obj)]: build the document (casts, the [trim] setters,
    the [Date.now] defaults), validate it ([required], [min], [max]),
    run the [pre('save')] hook and insert.  [t_new] and [t_save] are the
    clock readings at construction and in the hook. *)
Definition create (st : DB) (user : Z) (date title : option jsval)
    (progress category priority : jsval) (t_new t_save : Z) : outcome Task :=
  match date, title with
  | Some date, Some title =>
      try d := at_scalar castString date in
      try t := omap Str.trim (at_scalar castString title) in
      try p := at_scalar castNumber progress in
      try c := omap Str.trim (at_scalar castString category) in
      try pr := at_scalar castNumber priority in
      if required d && required t && in_range 0 100 p && in_range 1 3 pr then
        Ok {| _id := next_oid st; userId := user; date := d; title := t;
              progress := p; category := c; priority := pr;
              createTime := t_new; updateTime := t_save |}
      else Fail
  | _, _ => Fail
  end.

Definition insert (t : Task) (st : DB) : DB :=
  {| docs := docs st ++ [t]; next_oid := next_oid st + 1 |}.

(** The filter [{ _id: id, userId: user }]. *)
Definition by_id_and_owner (oid user : Z) (t : Task) : bool :=
  (_id t =? oid) && (userId t =? user).

(** The typed form of an update document: the paths it sets. *)
Record Update := {
  set_id : option Z;
  set_userId : option Z;
  set_date : option string;
  set_title : option string;
  set_progress : option Z;
  set_category : option string;
  set_priority : option Z;
  set_createTime : option Z;
}.

Definition plain_key (k : string) : bool :=
  negb (Str.starts_with_dollar k) && negb (Str.has_dot k).

Definition is_object (v : jsval) : bool :=
  match v with
  | JObject _ => true
  | JScalar _ => false
  end.

(** The operand of [$set], empty when the operator is absent. *)
Definition set_operand (upd : Body) : gmap string scalar :=
  match upd !! "$set" with
  | Some (JObject o) => o
  | _ => ∅
  end.

(** The shapes of update document that are modelled: plain top-level
    paths (mongoose wraps them into [$set]) and a [$set] operator,
    naming no path twice. *)
Definition shape_ok (upd : Body) : bool :=
  forallb (fun kv => if String.eqb (fst kv) "$set" then is_object (snd kv)
                     else plain_key (fst kv))
          (map_to_list upd)
  && forallb (fun kv => plain_key (fst kv)
                        && bool_decide (upd !! fst kv = None))
             (map_to_list (set_operand upd)).

(** The value an update document assigns to a path. *)
Definition assigned (upd : Body) (k : string) : outcome (option scalar) :=
  match upd !! k with
  | Some (JScalar v) => Ok (Some v)
  | Some (JObject _) => Outside
  | None => Ok (set_operand upd !! k)
  end.

Definition cast_path {A} (cast : scalar -> outcome A) (upd : Body) (k : string)
    : outcome (option A) :=
  try a := assigned upd k in
  match a with
  | Some v => omap Some (cast v)
  | None => Ok None
  end.

(** mongoose's cast of an update document against the schema.  Paths the
    schema does not declare are dropped (strict mode); setters run, so
    [title] and [category] are trimmed; validators do not run.  A body
    member [updateTime] is never cast: the [pre('findOneAndUpdate')]
    hook has replaced it. *)
Definition castUpdate (upd : Body) : outcome Update :=
  if negb (shape_ok upd) then Outside else
  try i := cast_path castObjectId upd "_id" in
  try u := cast_path castObjectId upd "userId" in
  try d := cast_path castString upd "date" in
  try t := cast_path (fun v => omap Str.trim (castString v)) upd "title" in
  try p := cast_path castNumber upd "progress" in
  try c := cast_path (fun v => omap Str.trim (castString v)) upd "category" in
  try pr := cast_path castNumber upd "priority" in
  try ct := cast_path castDate upd "createTime" in
  Ok {| set_id := i; set_userId := u; set_date := d; set_title := t;
        set_progress := p; set_category := c; set_priority := pr;
        set_createTime := ct |}.

(** The matched document after the update; [now] is the time the hook
    sets. *)
Definition apply_update (u : Update) (now : Z) (t : Task) : Task :=
  {| _id := _id t;
     userId := default (userId t) (set_userId u);
     date := default (date t) (set_date u);
     title := default (title t) (set_title u);
     progress := default (progress t) (set_progress u);
     category := default (category t) (set_category u);
     priority := default (priority t) (set_priority u);
     createTime := default (createTime t) (set_createTime u);
     updateTime := now |}.

(** Replace, or remove, the first document that matches. *)
Fixpoint replace_first (P : Task -> bool) (t' : Task) (l : list Task) : list Task :=
  match l with
  | [] => []
  | t :: r => if P t then t' :: r else t :: replace_first P t' r
  end.

Fixpoint remove_first (P : Task -> bool) (l : list Task) : list Task :=
  match l with
  | [] => []
  | t :: r => if P t then r else t :: remove_first P r
  end.

(** [Task.findOneAndUpdate({ _id: id, userId: user }, upd, { new: true })].
    The result is the updated document, or [None] when nothing matches.
    MongoDB refuses an update that would give [_id] another value. *)
Definition findOneAndUpdate (st : DB) (id : string) (user : Z) (upd : Body) (now : Z)
    : outcome (option Task * DB) :=
  try oid := castObjectId (JStr id) in
  try u := castUpdate upd in
  match List.find (by_id_and_owner oid user) (docs st) with
  | None => Ok (None, st)
  | Some t =>
      try same_id :=
        match set_id u with
        | Some i => if i =? _id t then Ok tt else Fail
        | None => Ok tt
        end in
      let t' := apply_update u now t in
      Ok (Some t', {| docs := replace_first (by_id_and_owner oid user) t' (docs st);
                      next_oid := next_oid st |})
  end.

(** [Task.findOneAndDelete({ _id: id, userId: user })] *)
Definition findOneAndDelete (st : DB) (id : string) (user : Z)
    : outcome (option Task * DB) :=
  try oid := castObjectId (JStr id) in
  match List.find (by_id_and_owner oid user) (docs st) with
  | None => Ok (None, st)
  | Some t =>
      Ok (Some t, {| docs := remove_first (by_id_and_owner oid user) (docs st);
                     next_oid := next_oid st |})
  end.

(** The order [{ date: 1, createTime: 1 }]. *)
Definition sort_leb (a b : Task) : bool :=
  if String.eqb (date a) (date b) then createTime a <=? createTime b
  else String.leb (date a) (date b).

Definition sort_le (a b : Task) : Prop := Is_true (sort_leb a b).

#[global] Instance sort_le_dec : RelDecision sort_le :=
  fun a b => Is_true_dec (sort_leb a b).

(** [.sort({ date: 1, createTime: 1 })].  MongoDB leaves the order of
    documents with equal keys open; the merge sort here fixes one. *)
Definition sorted (l : list Task) : list Task := merge_sort sort_le l.

End Schema.

(** ** Responses *)

(** One entry of a per-day rollup.  An average is [None] when the number
    JavaScript computes is not finite (a division by zero). *)
Record DayStat := {
  ds_date : string;
  ds_count : Z;
  ds_average : option Z;
}.

Inductive response :=
| TaskList (tasks : list Task)                  (* 200 { tasks } *)
| Created (task : Task)                         (* 201 { task } *)
| Updated (task : Task)                         (* 200 { task } *)
| Deleted                                       (* 200 { message } *)
| MonthlyStats (total : Z) (averageProgress : option Z) (daily : list DayStat)
| DailyCompletion (dailyCompletion : list DayStat)
| BadRequest (errors : list FieldError)         (* 400 { message, errors } *)
| NotFound                                      (* 404 { message } *)
| ServerError (message : string)                (* 500 { message, details } *)
| OutOfScope.                                   (* the call is [Outside] *)

(** ** The task routes ([tasks.js]) *)

(** Every route sits behind the auth middleware and reads the caller from
    [req.user.id], the id string the token carries.  The middleware is not
    among the sources; its result is taken here as a parameter of each
    route.  A filter or a document hands the string to mongoose, which
    casts it to the ObjectId it spells: that ObjectId is the parameter
    [user] of the task routes and of the monthly route.  A route returns
    its response and, when it writes, the store after the call. *)
Module Tasks.
Import Schema.

(** [GET /api/tasks?date=].  An empty [date] is falsy and adds no filter. *)
Definition get_tasks (st : DB) (user : Z) (qdate : option string) : response :=
  match optional (qparam qdate) (check "date" (isString (qparam qdate)) "date 应为字符串") with
  | [] =>
      let flt t :=
        (userId t =? user)
        && match qdate with
           | Some d => if (String.length d =? 0)%nat then true else String.eqb (date t) d
           | None => true
           end in
      TaskList (sorted (List.filter flt (docs st)))
  | errs => BadRequest errs
  end.

(** [GET /api/tasks/range?start=&end=] *)
Definition get_range (st : DB) (user : Z) (qstart qend : option string) : response :=
  match check "start" (isString (qparam qstart)) "start 必填"
        ++ check "end" (isString (qparam qend)) "end 必填" with
  | [] =>
      let lo := default "" qstart in
      let hi := default "" qend in
      let flt t :=
        (userId t =? user) && String.leb lo (date t) && String.leb (date t) hi in
      TaskList (sorted (List.filter flt (docs st)))
  | errs => BadRequest errs
  end.

Definition validate_post (body : Body) : list FieldError :=
  check "date" (isString (body !! "date")) "date 必填"
  ++ check "title" (isString (body !! "title")) "Invalid value"
  ++ check "title" (notEmpty (body !! "title")) "title 必填"
  ++ optional (body !! "progress")
       (check "progress" (isInt 0 100 (body !! "progress")) "progress 应为 0-100")
  ++ optional (body !! "category")
       (check "category" (isString (body !! "category")) "Invalid value")
  ++ optional (body !! "priority")
       (check "priority" (isInt 1 3 (body !! "priority")) "Invalid value").

(** [POST /api/tasks] *)
Definition post_task (st : DB) (user : Z) (body : Body) (t_new t_save : Z)
    : response * DB :=
  match validate_post body with
  | [] =>
      let date := body !! "date" in
      let title := body !! "title" in
      let progress := default (JScalar (JNum 0)) (body !! "progress") in
      let category := default (JScalar (JStr "general")) (body !! "category") in
      let priority := default (JScalar (JNum 1)) (body !! "priority") in
      match create st user date title progress category priority t_new t_save with
      | Ok task => (Created task, insert task st)
      | Fail => (ServerError "创建任务失败", st)
      | Outside => (OutOfScope, st)
      end
  | errs => (BadRequest errs, st)
  end.

Definition validate_put (id : string) (body : Body) : list FieldError :=
  check "id" (isMongoId id) "id 不合法"
  ++ optional (body !! "date") (check "date" (isString (body !! "date")) "Invalid value")
  ++ optional (body !! "title") (check "title" (isString (body !! "title")) "Invalid value")
  ++ optional (body !! "progress")
       (check "progress" (isInt 0 100 (body !! "progress")) "Invalid value")
  ++ optional (body !! "category")
       (check "category" (isString (body !! "category")) "Invalid value")
  ++ optional (body !! "priority")
       (check "priority" (isInt 1 3 (body !! "priority")) "Invalid value").

(** [PUT /api/tasks/:id].  [updates] is a copy of the whole body. *)
Definition put_task (st : DB) (user : Z) (id : string) (body : Body) (now : Z)
    : response * DB :=
  match validate_put id body with
  | [] =>
      let updates : Body := body in
      match findOneAndUpdate st id user updates now with
      | Ok (Some task, st') => (Updated task, st')
      | Ok (None, st') => (NotFound, st')
      | Fail => (ServerError "更新任务失败", st)
      | Outside => (OutOfScope, st)
      end
  | errs => (BadRequest errs, st)
  end.

Definition validate_delete (id : string) : list FieldError :=
  check "id" (isMongoId id) "id 不合法".

(** [DELETE /api/tasks/:id] *)
Definition delete_task (st : DB) (user : Z) (id : string) : response * DB :=
  match validate_delete id with
  | [] =>
      match findOneAndDelete st id user with
      | Ok (Some _, st') => (Deleted, st')
      | Ok (None, st') => (NotFound, st')
      | Fail => (ServerError "删除任务失败", st)
      | Outside => (OutOfScope, st)
      end
  | errs => (BadRequest errs, st)
  end.

Definition validate_progress (id : string) (body : Body) : list FieldError :=
  check "id" (isMongoId id) "id 不合法"
  ++ check "progress" (isInt 0 100 (body !! "progress")) "progress 必须在 0-100".

(** [PUT /api/tasks/:id/progress].  The update document is
    [{ progress }], built from the one member the route reads. *)
Definition put_progress (st : DB) (user : Z) (id : string) (body : Body) (now : Z)
    : response * DB :=
  match validate_progress id body with
  | [] =>
      let updates : Body :=
        match body !! "progress" with
        | Some progress => {[ "progress" := progress ]}
        | None => ∅
        end in
      match findOneAndUpdate st id user updates now with
      | Ok (Some task, st') => (Updated task, st')
      | Ok (None, st') => (NotFound, st')
      | Fail => (ServerError "更新进度失败", st)
      | Outside => (OutOfScope, st)
      end
  | errs => (BadRequest errs, st)
  end.

End Tasks.

(** ** The [Date] object *)

(** Days are counted from 1970-01-01 in the proleptic Gregorian calendar.
    The code builds dates at local midnight and reads them back in local
    time.  The model is of a host whose time zone keeps one offset at all
    times, as UTC does: there the zone cancels out, and a date is kept as
    its day number.  In a zone with transitions a local day that was
    skipped lands on the day after; that is not modelled. *)
Module JSDate.

Definition InLeapYear (y : Z) : bool :=
  (y mod 4 =? 0) && (negb (y mod 100 =? 0) || (y mod 400 =? 0)).

Definition DayFromYear (y : Z) : Z :=
  365 * (y - 1970) + (y - 1969) / 4 - (y - 1901) / 100 + (y - 1601) / 400.

(** Days of the year before month [mn] (0 = January). *)
Definition month_start (lp : bool) (mn : Z) : Z :=
  let l := if lp then 1 else 0 in
  match mn with
  | 0 => 0
  | 1 => 31
  | 2 => 59 + l
  | 3 => 90 + l
  | 4 => 120 + l
  | 5 => 151 + l
  | 6 => 181 + l
  | 7 => 212 + l
  | 8 => 243 + l
  | 9 => 273 + l
  | 10 => 304 + l
  | _ => 334 + l
  end.

(** MakeDay: months beyond the year and days outside the month carry. *)
Definition MakeDay (year month date : Z) : Z :=
  let ym := year + month / 12 in
  let mn := month mod 12 in
  DayFromYear ym + month_start (InLeapYear ym) mn + date - 1.

(** TimeClip: a time value is valid up to 8.64e15 ms, that is 10^8 days,
    either side of the epoch. *)
Definition valid_day (d : Z) : bool := Z.abs d <=? 100000000.

(** [new Date(year, month, date)]; [None] is an invalid date.  Years 0 to
    99 stand for 1900 to 1999. *)
Definition make (year month date : Z) : option Z :=
  let yr := if (0 <=? year) && (year <=? 99) then 1900 + year else year in
  let d := MakeDay yr month date in
  if valid_day d then Some d else None.

(** Year, month (1 = January) and day of the month of a day number. *)
Definition civil (day : Z) : Z * Z * Z :=
  let z := day + 719468 in
  let era := z / 146097 in
  let doe := z - era * 146097 in
  let yoe := (doe - doe / 1460 + doe / 36524 - doe / 146096) / 365 in
  let doy := doe - (365 * yoe + yoe / 4 - yoe / 100) in
  let mp := (5 * doy + 2) / 153 in
  let d := doy - (153 * mp + 2) / 5 + 1 in
  let m := if mp <? 10 then mp + 3 else mp - 9 in
  let y := yoe + era * 400 + (if m <=? 2 then 1 else 0) in
  (y, m, d).

(** [getDate()]; [None] is [NaN]. *)
Definition getDate (t : option Z) : option Z :=
  (fun d => snd (civil d)) <$> t.

End JSDate.

(** ** Binary64 numbers *)

(** A JavaScript number is an IEEE 754 binary64 value.  A finite one is
    held as the rational it denotes; [None] stands for a number that is
    not finite.  An operation gives the exact result rounded to the
    nearest binary64 value, a tie going to the even significand. *)
Module Float.

(** 2 to the power [e]. *)
Definition pow2 (e : Z) : Q :=
  if 0 <=? e then inject_Z (2 ^ e) else / inject_Z (2 ^ (- e)).

(** The integer nearest to [q], a tie going to the even one. *)
Definition rne (q : Q) : Z :=
  let f := Qfloor q in
  match (q - inject_Z f ?= 1 # 2)%Q with
  | Lt => f
  | Gt => f + 1
  | Eq => if Z.even f then f else f + 1
  end.

(** The exponent of the leading bit of [q], which is not zero. *)
Definition ilog2 (q : Q) : Z :=
  let e := Z.log2 (Z.abs (Qnum q)) - Z.log2 (Zpos (Qden q)) in
  if Qle_bool (pow2 e) (Qabs q) then e else e - 1.

(** The unit in the last place: 52 bits below the leading one, and
    2^-1074 for the subnormal numbers. *)
Definition ulp (q : Q) : Q := pow2 (Z.max (ilog2 q) (-1022) - 52).

(** Rounding to binary64.  A result of magnitude 2^1024 or more is an
    infinity. *)
Definition round (q : Q) : option Q :=
  if Qeq_bool q 0 then Some 0%Q
  else let r := (inject_Z (rne (q / ulp q)) * ulp q)%Q in
       if Qle_bool (pow2 1024) (Qabs r) then None else Some r.

(** The binary64 number nearest to an integer; it is an integer too. *)
Definition of_Z (n : Z) : option Z := Qfloor <$> round (inject_Z n).

End Float.

(** ** The statistics routes ([stats.js]) *)

Module Stats.

(** [a / b] on two numbers with the integral values [a] and [b]: the
    quotient rounded to binary64; [None] when it is not finite (a division
    by zero). *)
Definition js_div (a b : Z) : option Q :=
  if b =? 0 then None else Float.round (inject_Z a / inject_Z b)%Q.

(** [Math.round]: the nearest integer, a half going up. *)
Definition Math_round (x : Q) : Z := Qfloor (x + (1 # 2))%Q.

(** [Math.round(a / b)] *)
Definition round_div (a b : Z) : option Z := Math_round <$> js_div a b.

(** [x || 0] on a number. *)
Definition or_zero (x : Z) : Z := if x =? 0 then 0 else x.

(** [Number(s)] on a query parameter that passed [isInt]: the binary64
    number nearest to the integer the digits denote, [None] when that is an
    infinity. *)
Definition to_number (q : option string) : option Z :=
  (q ≫= Str.parse_int) ≫= Float.of_Z.

Definition Number (q : option string) : Z := default 0 (to_number q).

(** The numbers a template literal prints digit for digit, as [Str.of_Z]
    does: the integers up to 2^53 in magnitude.  Beyond them JavaScript
    prints the shortest digits that identify the number, and from 10^21 on
    an exponent. *)
Definition printed_in_full (q : option string) : bool :=
  match to_number q with
  | Some z => Z.abs z <=? 2 ^ 53
  | None => false
  end.

(** [n.toString().padStart(2, '0')]; [None] is [NaN]. *)
Definition pad (n : option Z) : string :=
  Str.padStart2 match n with
                | Some z => Str.of_Z z
                | None => "NaN"
                end.

(** The [daily] object of the monthly route: date to count and progress
    sum, in the order the dates were first met.  The dates that reach it
    lie in the month window, so none is an array index or a name
    inherited from [Object.prototype]. *)
Fixpoint bump (d : string) (p : Z) (daily : list (string * (Z * Z)))
    : list (string * (Z * Z)) :=
  match daily with
  | [] => [(d, (0 + 1, 0 + p))]
  | (k, (count, sumProgress)) :: r =>
      if String.eqb k d then (k, (count + 1, sumProgress + p)) :: r
      else (k, (count, sumProgress)) :: bump d p r
  end.

Definition group_by_date (tasks : list Task) : list (string * (Z * Z)) :=
  fold_left (fun daily t => bump (date t) (or_zero (progress t)) daily) tasks [].

Definition month_start (year month : Z) : string :=
  Str.of_Z year ++ "-" ++ pad (Some month) ++ "-01".

Definition month_end (year month : Z) : string :=
  let lastDay := JSDate.getDate (JSDate.make year month 0) in
  Str.of_Z year ++ "-" ++ pad (Some month) ++ "-" ++ pad lastDay.

(** The [find] of the monthly route. *)
Definition month_tasks (st : DB) (user year month : Z) : list Task :=
  List.filter (fun t => (userId t =? user)
                        && String.leb (month_start year month) (date t)
                        && String.leb (date t) (month_end year month))
              (docs st).

(** The counts and sums of the rollup are binary64 numbers too.  They are
    the exact integers as long as the tasks are at most 2^53 and the
    magnitudes of their progress values add up to at most 2^53; the model
    follows the arithmetic that far. *)
Definition exact_sums (tasks : list Task) : bool :=
  (Z.of_nat (length tasks) <=? 2 ^ 53)
  && (fold_left (fun s t => s + Z.abs (progress t)) tasks 0 <=? 2 ^ 53).

(** The rollup the monthly route computes from the tasks it found. *)
Definition summarise (tasks : list Task) : response :=
  if exact_sums tasks then
    let total := Z.of_nat (length tasks) in
    let averageProgress :=
      if total =? 0 then Some 0
      else round_div (fold_left (fun sum t => sum + or_zero (progress t)) tasks 0) total in
    let dailyStats :=
      map (fun e => {| ds_date := fst e;
                       ds_count := fst (snd e);
                       ds_average := round_div (snd (snd e)) (fst (snd e)) |})
          (group_by_date tasks) in
    MonthlyStats total averageProgress dailyStats
  else OutOfScope.

(** [GET /api/stats/monthly?year=&month=] *)
Definition get_monthly (st : DB) (user : Z) (qyear qmonth : option string) : response :=
  match check "year" (isIntMin 1970 (qparam qyear)) "year 必须有效"
        ++ check "month" (isInt 1 12 (qparam qmonth)) "month 应为 1-12" with
  | [] =>
      let year := Number qyear in
      let month := Number qmonth in
      if printed_in_full qyear && printed_in_full qmonth
      then summarise (month_tasks st user year month)
      else OutOfScope
  | errs => BadRequest errs
  end.

Definition str_le (a b : string) : Prop := Is_true (String.leb a b).

#[global] Instance str_le_dec : RelDecision str_le :=
  fun a b => Is_true_dec (String.leb a b).

Definition group_le (a b : string * (Z * Z)) : Prop := str_le (fst a) (fst b).

#[global] Instance group_le_dec : RelDecision group_le :=
  fun a b => Is_true_dec (String.leb (fst a) (fst b)).





End Stats.

(** ** Request traces and store invariants *)

(** The mutating requests, each with the authenticated user and the clock
    readings it takes. *)
Inductive request :=
| Post (user : Z) (body : Body) (t_new t_save : Z)
| Put (user : Z) (id : string) (body : Body) (now : Z)
| PutProgress (user : Z) (id : string) (body : Body) (now : Z)
| Delete (user : Z) (id : string).

Definition step (st : DB) (r : request) : response * DB :=
  match r with
  | Post user body t_new t_save => Tasks.post_task st user body t_new t_save
  | Put user id body now => Tasks.put_task st user id body now
  | PutProgress user id body now => Tasks.put_progress st user id body now
  | Delete user id => Tasks.delete_task st user id
  end.

(** The stores the routes can produce from the empty collection. *)
Inductive reachable : DB -> Prop :=
| reach_empty : reachable empty_db
| reach_step st r : reachable st -> reachable (snd (step st r)).

(** ObjectIds are unique, and all were drawn from the id source. *)
Definition unique_ids (st : DB) : Prop :=
  List.NoDup (map _id (docs st))
  /\ Forall (fun i => i < next_oid st) (map _id (docs st)).

(** No document matches the filter [{ _id: oid, userId: user }]. *)
Definition no_match (st : DB) (oid user : Z) : Prop :=
  forall t, In t (docs st) -> ~ (_id t = oid /\ userId t = user).

(** The bounds the schema declares for [progress] and [priority]. *)
Definition bounded (t : Task) : Prop :=
  0 <= progress t <= 100 /\ 1 <= priority t <= 3.

(** The fields of a task other than [progress] and [updateTime]. *)
Definition other_fields (t : Task) : Z * Z * string * string * string * Z * Z :=
  (_id t, userId t, date t, title t, category t, priority t, createTime t).

(** A request whose update document carries no [$set] operator. *)
Definition plain_update (r : request) : Prop :=
  match r with
  | Put _ _ body _ => body !! "$set" = None
  | _ => True
  end.

(** The store with every task of owner [a] taken out. *)
Definition without_owner (a : Z) (st : DB) : DB :=
  {| docs := List.filter (fun t => negb (userId t =? a)) (docs st);
     next_oid := next_oid st |}.

(** The members [POST /api/tasks] reads from the body. *)
Definition same_task_fields (b1 b2 : Body) : Prop :=
  b1 !! "date" = b2 !! "date"
  /\ b1 !! "title" = b2 !! "title"
  /\ b1 !! "progress" = b2 !! "progress"
  /\ b1 !! "category" = b2 !! "category"
  /\ b1 !! "priority" = b2 !! "priority".

(** ** The specification's notions, for comparison *)

(** [n] is [s / c] rounded to the nearest integer, a half going up:
    [n - 1/2 <= s / c < n + 1/2]. *)
Definition round_half_up (s c n : Z) : Prop :=
  0 < c /\ (2 * n - 1) * c <= 2 * s < (2 * n + 1) * c.

Definition sum_progress (l : list Task) : Z :=
  fold_right (fun t acc => progress t + acc) 0 l.

Definition on_date (d : string) (l : list Task) : list Task :=
  List.filter (fun t => String.eqb (date t) d) l.


(** The magnitudes of the progress values, added up. *)
Definition sum_abs (l : list Task) : Z :=
  fold_right (fun t acc => Z.abs (progress t) + acc) 0 l.

(** [acc] holds one group per date met in [seen], with the number and the
    progress sum of the tasks of that date. *)
Definition groups_of (seen : list Task) (acc : list (string * (Z * Z))) : Prop :=
  List.NoDup (map fst acc)
  /\ (forall t, In t seen -> In (date t) (map fst acc))
  /\ (forall d c s, In (d, (c, s)) acc ->
        on_date d seen <> []
        /\ c = Z.of_nat (length (on_date d seen))
        /\ s = sum_progress (on_date d seen)).

(** The Gregorian calendar. *)
Definition leap_year (y : Z) : bool :=
  if y mod 400 =? 0 then true
  else if y mod 100 =? 0 then false
  else y mod 4 =? 0.

Definition last_day_of_month (y m : Z) : Z :=
  if m =? 2 then (if leap_year y then 29 else 28)
  else if (m =? 4) || (m =? 6) || (m =? 9) || (m =? 11) then 30
  else 31.

Definition two_digits (n : Z) : string :=
  if n <? 10 then "0" ++ Str.of_Z n else Str.of_Z n.

(** [YYYY-MM-DD] for a year, month and day. *)
Definition day_string (y m d : Z) : string :=
  Str.of_Z y ++ "-" ++ two_digits m ++ "-" ++ two_digits d.

(** The caller's tasks whose date lies in the month, first day to last. *)
Definition in_month (user y m : Z) (t : Task) : bool :=
  (userId t =? user)
  && String.leb (day_string y m 1) (date t)
  && String.leb (date t) (day_string y m (last_day_of_month y m)).

(** ** Example data *)

Module Ex.

Definition alice : Z := 10.
Definition bob : Z := 11.
Definition bob_id : string := "00000000000000000000000b".

(** The id of the first document ever stored, and an id never used. *)
Definition id0 : string := "000000000000000000000000".
Definition id9 : string := "000000000000000000000009".

Definition str (s : string) : jsval := JScalar (JStr s).
Definition num (n : Z) : jsval := JScalar (JNum n).

Definition weekly : Body :=
  <["date" := str "2024-05-01"]> (<["title" := str "写周报"]> ∅).

Definition blank_title : Body :=
  <["date" := str "2024-05-01"]> (<["title" := str "   "]> ∅).

Definition forged : Body :=
  <["userId" := str bob_id]>
    (<["_id" := str id9]>
       (<["createTime" := num 5]> (<["updateTime" := num 6]> weekly))).

(** One task of alice. *)
Definition db1 : DB := snd (Tasks.post_task empty_db alice weekly 1000 1001).

(** Three tasks of alice on one day, with progress 10, 20 and 21. *)
Definition task_with (p : Z) : Body := <["progress" := num p]> weekly.

Definition db3 : DB :=
  snd (Tasks.post_task
         (snd (Tasks.post_task
                 (snd (Tasks.post_task empty_db alice (task_with 10) 1 1))
                 alice (task_with 20) 2 2))
         alice (task_with 21) 3 3).

(** A task of alice and a task of bob on the same day. *)
Definition db2 : DB := snd (Tasks.post_task db1 bob (task_with 40) 2000 2001).

Definition alice_task : Task :=
  {| _id := 0; userId := alice; date := "2024-05-01"; title := "写周报";
     progress := 0; category := "general"; priority := 1;
     createTime := 1000; updateTime := 1001 |}.

Definition bob_task : Task :=
  {| _id := 1; userId := bob; date := "2024-05-01"; title := "写周报";
     progress := 40; category := "general"; priority := 1;
     createTime := 2000; updateTime := 2001 |}.

Definition far_future : Body :=
  <["date" := str "275761-02-30"]> (<["title" := str "t"]> ∅).

Definition db_far : DB := snd (Tasks.post_task empty_db alice far_future 1 1).


(** An id that passes [isMongoId] and is no ObjectId: a prefix and
    twenty-two digits. *)
Definition id0x : string := "0x0000000000000000000000".

(** Alice's task after she has put bob's id into its [userId]. *)
Definition give_to_bob : Body := <["userId" := str bob_id]> ∅.

Definition db_given : DB := snd (Tasks.put_task db1 alice id0 give_to_bob 3000).

Definition given_task : Task :=
  {| _id := 0; userId := bob; date := "2024-05-01"; title := "写周报";
     progress := 0; category := "general"; priority := 1;
     createTime := 1000; updateTime := 3000 |}.



Definition set_progress (p : Z) : Body :=
  <["$set" := JObject (<["progress" := JNum p]> ∅)]> ∅.


(** An update with an operator other than [$set]. *)
Definition increment : Body :=
  <["$inc" := JObject (<["progress" := JNum 1000]> ∅)]> ∅.

End Ex.

(** ** Runs of requests and sums over rollups *)

(** The store after a list of requests, first to last. *)
Definition run (st : DB) (rs : list request) : DB :=
  fold_left (fun s r => snd (step s r)) rs st.

(** The run stays within what the model covers: none of its requests is
    answered [OutOfScope]. *)
Fixpoint covered (st : DB) (rs : list request) : Prop :=
  match rs with
  | [] => True
  | r :: rs' => fst (step st r) <> OutOfScope /\ covered (snd (step st r)) rs'
  end.

(** The counts of a rollup, added up. *)
Definition sum_counts (l : list DayStat) : Z :=
  fold_right (fun e acc => ds_count e + acc) 0 l.

(** The tasks a listing with an optional date filter selects. *)
Definition listed (user : Z) (qdate : option string) (t : Task) : bool :=
  (userId t =? user)
  && match qdate with
     | Some d => if (String.length d =? 0)%nat then true else String.eqb (date t) d
     | None => true
     end.

(** The tasks a range query selects. *)
Definition in_range_of (user : Z) (lo hi : string) (t : Task) : bool :=
  (userId t =? user) && String.leb lo (date t) && String.leb (date t) hi.

(** The body members the partial-update route validates. *)
Definition task_fields : list string :=
  ["date"; "title"; "progress"; "category"; "priority"].

(** The value a validated member gives a String or a Number path. *)
Definition string_member (v : option jsval) : option string :=
  match v with
  | Some (JScalar (JStr s)) => Some s
  | _ => None
  end.

(** The rollup entry both statistics routes build from a group: its date,
    its count and the rounded quotient of its progress sum by its count. *)
Definition day_stat (e : string * (Z * Z)) : DayStat :=
  {| ds_date := fst e; ds_count := fst (snd e);
     ds_average := Stats.round_div (snd (snd e)) (fst (snd e)) |}.

(** ** The browser front end ([app.js]) *)

(** The page keeps its tasks in an array, mirrors the array into the
    browser's LocalStorage, and shows one month of a calendar.  A [Date] object is
    the number of its local calendar day, or [None] when it is invalid;
    [Date] methods give [None] for [NaN].  The stored text is represented
    by the array of tasks it encodes, [None] standing for a missing or
    unreadable entry.  The markup the page builds is left out: the model
    keeps the data each rendering puts on the screen. *)
Module Front.

Record Item := {
  id : string;
  date : string;
  title : string;
  progress : Z;
  createTime : string
}.

Record State := {
  current : option Z;
  selectedDate : string;
  tasks : list Item;
  saved : option (list Item)
}.

Definition getFullYear (t : option Z) : option Z :=
  (fun d => fst (fst (JSDate.civil d))) <$> t.

(** [getMonth()]: 0 is January. *)
Definition getMonth (t : option Z) : option Z :=
  (fun d => snd (fst (JSDate.civil d)) - 1) <$> t.

(** [getDay()]: 0 is Sunday; day 0 was a Thursday. *)
Definition getDay (t : option Z) : option Z :=
  (fun d => (d + 4) mod 7) <$> t.

(** [new Date(year, month, date)] *)
Definition newDate (year month : option Z) (date : Z) : option Z :=
  match year, month with
  | Some y, Some m => JSDate.make y m date
  | _, _ => None
  end.

(** A number in a template literal. *)
Definition show (n : option Z) : string :=
  match n with
  | Some z => Str.of_Z z
  | None => "NaN"
  end.

Definition formatDate (dateObj : option Z) : string :=
  let y := getFullYear dateObj in
  let m := Stats.pad ((fun m => m + 1) <$> getMonth dateObj) in
  let d := Stats.pad (JSDate.getDate dateObj) in
  show y ++ "-" ++ m ++ "-" ++ d.

Definition loadTasks (raw : option (list Item)) : list Item :=
  match raw with
  | Some parsed => parsed
  | None => []
  end.

(** The page as it loads: [now] is the day of [new Date()]. *)
Definition init (raw : option (list Item)) (now : Z) : State :=
  {| current := Some now;
     selectedDate := formatDate (Some now);
     tasks := loadTasks raw;
     saved := raw |}.

(** One cell of the month grid. *)
Record Cell := {
  cell_date : Z;
  cell_dateStr : string;
  cell_today : bool;
  cell_selected : bool;
  cell_count : nat
}.

(** The grid: the empty cells before the first day, then the days. *)
Record Grid := {
  blanks : nat;
  cells : list Cell
}.

(** The values of [date] in [for (date = 1; date <= lastDate; date += 1)]. *)
Definition dates_to (lastDate : option Z) : list Z :=
  match lastDate with
  | Some n => map Z.of_nat (seq 1 (Z.to_nat n))
  | None => []
  end.

Definition renderCalendar (st : State) (now : Z) : Grid :=
  let year := getFullYear (current st) in
  let month := getMonth (current st) in
  let firstDay := getDay (newDate year month 1) in
  let lastDate := JSDate.getDate (newDate year ((fun m => m + 1) <$> month) 0) in
  {| blanks := match firstDay with
               | Some n => Z.to_nat n
               | None => O
               end;
     cells :=
       map (fun day =>
              let dayDate := newDate year month day in
              let dateStr := formatDate dayDate in
              {| cell_date := day;
                 cell_dateStr := dateStr;
                 cell_today := String.eqb dateStr (formatDate (Some now));
                 cell_selected := String.eqb dateStr (selectedDate st);
                 cell_count :=
                   length (List.filter (fun t => String.eqb (date t) dateStr)
                             (tasks st)) |})
           (dates_to lastDate) |}.

(** The tasks of the selected day, as the list beside the grid shows them. *)
Definition renderTasks (st : State) : list Item :=
  List.filter (fun t => String.eqb (date t) (selectedDate st)) (tasks st).

Definition persistTasks (l : list Item) (st : State) : State :=
  {| current := current st;
     selectedDate := selectedDate st;
     tasks := tasks st;
     saved := Some l |}.

(** [uid] is what [uid()] returns and [now] the text of
    [new Date().toISOString()]. *)
Definition addTask (ttl uid now : string) (st : State) : State :=
  let task := {| id := uid;
                 date := selectedDate st;
                 title := ttl;
                 progress := 0;
                 createTime := now |} in
  let st1 := {| current := current st;
                selectedDate := selectedDate st;
                tasks := task :: tasks st;
                saved := saved st |} in
  persistTasks (tasks st1) st1.

(** The [updates] object: the members it has. *)
Record Updates := {
  u_id : option string;
  u_date : option string;
  u_title : option string;
  u_progress : option Z;
  u_createTime : option string
}.

Definition no_updates : Updates :=
  {| u_id := None; u_date := None; u_title := None; u_progress := None;
     u_createTime := None |}.

(** [{ ...t, ...updates }] *)
Definition spread (t : Item) (u : Updates) : Item :=
  {| id := default (id t) (u_id u);
     date := default (date t) (u_date u);
     title := default (title t) (u_title u);
     progress := default (progress t) (u_progress u);
     createTime := default (createTime t) (u_createTime u) |}.

Definition updateTask (tid : string) (updates : Updates) (st : State) : State :=
  let st1 := {| current := current st;
                selectedDate := selectedDate st;
                tasks := map (fun t => if String.eqb (id t) tid then spread t updates
                                       else t)
                             (tasks st);
                saved := saved st |} in
  persistTasks (tasks st1) st1.

Definition removeTask (tid : string) (st : State) : State :=
  let st1 := {| current := current st;
                selectedDate := selectedDate st;
                tasks := List.filter (fun t => negb (String.eqb (id t) tid)) (tasks st);
                saved := saved st |} in
  persistTasks (tasks st1) st1.

(** What the user does: a click on a day cell carrying [dateStr], on a
    month button, on the today button; a submission of the form; a move
    of a task's slider; an answer to the edit prompt ([None] is a
    cancelled prompt) and to the delete confirmation. *)
Inductive event :=
| SelectDay (dateStr : string)
| PrevMonth
| NextMonth
| Today (now : Z)
| Submit (value uid now : string)
| Slide (tid : string) (value : Z)
| Edit (tid : string) (next : option string)
| Delete (tid : string) (ok : bool).

(** The listeners. *)
Definition handle (st : State) (e : event) : State :=
  match e with
  | SelectDay dateStr =>
      {| current := current st; selectedDate := dateStr; tasks := tasks st;
         saved := saved st |}
  | PrevMonth =>
      {| current := newDate (getFullYear (current st))
                            ((fun m => m - 1) <$> getMonth (current st)) 1;
         selectedDate := selectedDate st; tasks := tasks st; saved := saved st |}
  | NextMonth =>
      {| current := newDate (getFullYear (current st))
                            ((fun m => m + 1) <$> getMonth (current st)) 1;
         selectedDate := selectedDate st; tasks := tasks st; saved := saved st |}
  | Today now =>
      let today := Some now in
      {| current := newDate (getFullYear today) (getMonth today) 1;
         selectedDate := formatDate today; tasks := tasks st; saved := saved st |}
  | Submit value uid now =>
      let ttl := Str.trim value in
      if String.eqb ttl "" then st else addTask ttl uid now st
  | Slide tid value =>
      updateTask tid {| u_id := None; u_date := None; u_title := None;
                        u_progress := Some value; u_createTime := None |} st
  | Edit tid next =>
      match next with
      | Some s =>
          if negb (String.eqb s "") && negb (String.eqb (Str.trim s) "")
          then updateTask tid {| u_id := None; u_date := None;
                                 u_title := Some (Str.trim s);
                                 u_progress := None; u_createTime := None |} st
          else st
      | None => st
      end
  | Delete tid ok => if ok then removeTask tid st else st
  end.

Definition run (st : State) (es : list event) : State := fold_left handle es st.

End Front.

(** The month after and the month before a year and month (1 is January). *)
Definition month_after (y m : Z) : Z * Z :=
  if m =? 12 then (y + 1, 1) else (y, m + 1).

Definition month_before (y m : Z) : Z * Z :=
  if m =? 1 then (y - 1, 12) else (y, m - 1).

(** The year, month and day of a date object. *)
Definition calendar_day (t : option Z) : option (Z * Z * Z) := JSDate.civil <$> t.

(** The number of tasks the page holds for a day. *)
Definition tasks_on (d : string) (l : list Front.Item) : nat :=
  length (List.filter (fun t => String.eqb (Front.date t) d) l).

(** The days 1 to [n]. *)
Definition days_to (n : Z) : list Z := map Z.of_nat (seq 1 (Z.to_nat n)).

(** A task as the page made it for a submitted title. *)
Definition front_task (d ttl uid now : string) : Front.Item :=
  {| Front.id := uid; Front.date := d; Front.title := ttl; Front.progress := 0;
     Front.createTime := now |}.

(** * Properties *)

(** Case analysis on the first call in a chain of [try ... in]. *)
Ltac step_bind :=
  match goal with
  | H : context [obind ?c _] |- _ =>
      let E := fresh "E" in
      destruct c eqn:E; simpl in H; try discriminate H
  end.


(** ** The filter on id and owner *)

Section Lookup.
Import Schema.

Lemma by_id_and_owner_true oid user t :
  by_id_and_owner oid user t = true <-> _id t = oid /\ userId t = user.
Proof. unfold by_id_and_owner. rewrite andb_true_iff, !Z.eqb_eq. tauto. Qed.

Lemma find_none_no_match st oid user :
  List.find (by_id_and_owner oid user) (docs st) = None <-> no_match st oid user.
Proof.
  unfold no_match. split.
  - intros Hf t Hin Hm. apply by_id_and_owner_true in Hm.
    pose proof (find_none _ _ Hf t Hin) as Hn. congruence.
  - intros Hn. destruct (List.find _ _) as [t|] eqn:Hf; [|reflexivity].
    apply find_some in Hf as [Hin Hm]. apply by_id_and_owner_true in Hm.
    exfalso. exact (Hn t Hin Hm).
Qed.

Lemma find_some_match st oid user t :
  List.find (by_id_and_owner oid user) (docs st) = Some t ->
  In t (docs st) /\ _id t = oid /\ userId t = user.
Proof.
  intros Hf. apply find_some in Hf as [Hin Hm].
  apply by_id_and_owner_true in Hm. tauto.
Qed.

Lemma parse_hex_total l :
  forallb (fun a => bool_decide (is_Some (Str.hex_value a))) l = true ->
  forall acc, exists z, Str.parse_hex acc l = Some z.
Proof.
  induction l as [|a l IH]; simpl; intros Hall acc; [eauto|].
  apply andb_true_iff in Hall as [Ha Hl].
  apply bool_decide_eq_true in Ha as [d Hd].
  rewrite Hd. apply IH, Hl.
Qed.

Lemma bytes_length s : length (Str.bytes s) = String.length s.
Proof.
  unfold Str.bytes. rewrite length_map.
  induction s as [|a s IH]; simpl; congruence.
Qed.

(** Twenty-four hexadecimal digits cast to an ObjectId, and only they do. *)
Lemma hex24_cast id :
  hex24 id = true -> exists oid, castObjectId (JStr id) = Ok oid.
Proof.
  intros Hid. unfold castObjectId. rewrite Hid.
  unfold hex24 in Hid. apply andb_true_iff in Hid as [_ Hhex].
  destruct (parse_hex_total _ Hhex 0) as [z ->]. eauto.
Qed.

Lemma cast_hex24 id oid :
  castObjectId (JStr id) = Ok oid -> hex24 id = true.
Proof.
  unfold castObjectId. destruct (hex24 id); [reflexivity|].
  destruct (String.length id =? 12)%nat; discriminate.
Qed.

(** They pass [isMongoId]. *)
Lemma hex24_isMongoId id : hex24 id = true -> isMongoId id = true.
Proof.
  unfold hex24, isMongoId. intros H.
  apply andb_true_iff in H as [Hlen Hhex]. rewrite Hlen, andb_true_r.
  assert (Hd : hex_digits (Str.bytes id) = true).
  { unfold hex_digits. rewrite Hhex, andb_true_r, bytes_length.
    apply Nat.eqb_eq in Hlen. rewrite Hlen. reflexivity. }
  unfold isHexadecimal. cbv zeta. rewrite Hd. reflexivity.
Qed.

(** A string that passes [isMongoId] has twenty-four bytes: its cast gives
    an ObjectId or fails. *)
Lemma isMongoId_length id : isMongoId id = true -> String.length id = 24%nat.
Proof.
  unfold isMongoId. intros H. apply andb_true_iff in H as [_ H].
  apply Nat.eqb_eq, H.
Qed.

Lemma isMongoId_cast id :
  isMongoId id = true ->
  (exists oid, castObjectId (JStr id) = Ok oid) \/ castObjectId (JStr id) = Fail.
Proof.
  intros Hid. destruct (hex24 id) eqn:Hh.
  - left. apply hex24_cast, Hh.
  - right. unfold castObjectId. rewrite Hh, (isMongoId_length _ Hid). reflexivity.
Qed.

Lemma cast_isMongoId id oid :
  castObjectId (JStr id) = Ok oid -> isMongoId id = true.
Proof. intros H. eapply hex24_isMongoId, cast_hex24, H. Qed.

Lemma check_nil p ok m : check p ok m = [] <-> ok = true.
Proof. unfold check. destruct ok; split; congruence. Qed.

End Lookup.

(** ** Replacing and removing the first match *)

Section FirstMatch.
Import Schema.

Lemma replace_first_ids P t' l :
  (forall t, In t l -> P t = true -> _id t = _id t') ->
  map _id (replace_first P t' l) = map _id l.
Proof.
  induction l as [|t l IH]; simpl; intros Hid; [reflexivity|].
  destruct (P t) eqn:HP; simpl.
  - f_equal. symmetry. apply Hid; auto.
  - f_equal. apply IH. intros x Hx. apply Hid. auto.
Qed.

Lemma replace_first_map {A} (f : Task -> A) P t' l t :
  List.find P l = Some t -> f t' = f t ->
  map f (replace_first P t' l) = map f l.
Proof.
  induction l as [|a l IH]; simpl; [discriminate|].
  destruct (P a); simpl.
  - intros H Hf. injection H as ->. rewrite Hf. reflexivity.
  - intros H Hf. rewrite (IH H Hf). reflexivity.
Qed.

Lemma replace_first_In P t' l x :
  In x (replace_first P t' l) -> x = t' \/ In x l.
Proof.
  induction l as [|t l IH]; simpl; [tauto|].
  destruct (P t); simpl; intros [H|H]; auto.
  destruct (IH H); auto.
Qed.

Lemma replace_first_find P t' l t :
  List.find P l = Some t -> In t' (replace_first P t' l).
Proof.
  induction l as [|a l IH]; simpl; [discriminate|].
  destruct (P a); simpl; auto.
Qed.

Lemma remove_first_In P l x : In x (remove_first P l) -> In x l.
Proof.
  induction l as [|t l IH]; simpl; [tauto|].
  destruct (P t); simpl; intros H; auto. destruct H; auto.
Qed.

Lemma remove_first_ids_NoDup P l :
  List.NoDup (map _id l) -> List.NoDup (map _id (remove_first P l)).
Proof.
  induction l as [|t l IH]; simpl; intros Hnd; [constructor|].
  apply List.NoDup_cons_iff in Hnd as [Hnotin Hnd].
  destruct (P t); simpl; [exact Hnd|].
  apply List.NoDup_cons_iff. split; [|auto].
  intros Hin. apply Hnotin.
  apply in_map_iff in Hin as (x & Hx & Hin).
  apply in_map_iff. exists x. split; [exact Hx|]. eapply remove_first_In, Hin.
Qed.

(** With unique ids, removing the match for an id leaves no document
    with that id. *)
Lemma remove_first_gone oid user l x :
  List.NoDup (map _id l) ->
  List.find (by_id_and_owner oid user) l <> None ->
  In x (remove_first (by_id_and_owner oid user) l) -> _id x <> oid.
Proof.
  induction l as [|t l IH]; simpl; intros Hnd Hf Hin; [congruence|].
  apply List.NoDup_cons_iff in Hnd as [Hnotin Hnd].
  destruct (by_id_and_owner oid user t) eqn:Hm.
  - apply by_id_and_owner_true in Hm as [Hid _].
    intros Hx. apply Hnotin. rewrite Hid, <- Hx. apply in_map, Hin.
  - destruct Hin as [<-|Hin].
    + destruct (List.find _ l) as [y|] eqn:Hy; [|congruence].
      apply find_some in Hy as [Hyin Hym].
      apply by_id_and_owner_true in Hym as [Hyid _].
      intros Hx. apply Hnotin. rewrite Hx, <- Hyid. apply in_map, Hyin.
    + apply IH; auto.
Qed.

End FirstMatch.

(** ** What the two mongoose calls do *)

Section Calls.
Import Schema.

Lemma findOneAndUpdate_inv st id user upd now r :
  findOneAndUpdate st id user upd now = Ok r ->
  exists oid u,
    castObjectId (JStr id) = Ok oid /\ castUpdate upd = Ok u /\
    match List.find (by_id_and_owner oid user) (docs st) with
    | None => r = (None, st)
    | Some t =>
        (set_id u = None \/ set_id u = Some (_id t)) /\
        r = (Some (apply_update u now t),
             {| docs := replace_first (by_id_and_owner oid user)
                          (apply_update u now t) (docs st);
                next_oid := next_oid st |})
    end.
Proof.
  unfold findOneAndUpdate.
  destruct (castObjectId (JStr id)) as [oid| |]; simpl; try discriminate.
  destruct (castUpdate upd) as [u| |]; simpl; try discriminate.
  intros H. exists oid, u. split; [reflexivity|]. split; [reflexivity|].
  destruct (List.find _ _) as [t|]; [|congruence].
  destruct (set_id u) as [i|]; simpl in H.
  - destruct (i =? _id t) eqn:Hi; simpl in H; [|discriminate].
    apply Z.eqb_eq in Hi. subst i. split; [auto|congruence].
  - split; [auto|congruence].
Qed.

Lemma findOneAndUpdate_no_match st id user upd now oid u :
  castObjectId (JStr id) = Ok oid -> castUpdate upd = Ok u ->
  no_match st oid user ->
  findOneAndUpdate st id user upd now = Ok (None, st).
Proof.
  intros Hid Hu Hn. unfold findOneAndUpdate. rewrite Hid, Hu. simpl.
  apply find_none_no_match in Hn. rewrite Hn. reflexivity.
Qed.

Lemma findOneAndUpdate_match st id user upd now oid u t :
  castObjectId (JStr id) = Ok oid -> castUpdate upd = Ok u ->
  List.find (by_id_and_owner oid user) (docs st) = Some t ->
  set_id u = None ->
  findOneAndUpdate st id user upd now
  = Ok (Some (apply_update u now t),
        {| docs := replace_first (by_id_and_owner oid user)
                     (apply_update u now t) (docs st);
           next_oid := next_oid st |}).
Proof.
  intros Hid Hu Hf Hi. unfold findOneAndUpdate. rewrite Hid, Hu. simpl.
  rewrite Hf, Hi. reflexivity.
Qed.

Lemma findOneAndDelete_eq st id user oid :
  castObjectId (JStr id) = Ok oid ->
  findOneAndDelete st id user
  = match List.find (by_id_and_owner oid user) (docs st) with
    | None => Ok (None, st)
    | Some t => Ok (Some t,
                    {| docs := remove_first (by_id_and_owner oid user) (docs st);
                       next_oid := next_oid st |})
    end.
Proof. intros Hid. unfold findOneAndDelete. rewrite Hid. reflexivity. Qed.

(** The update document of the progress route, [{ progress }], for a
    value that passed [isInt({ min: 0, max: 100 })]. *)
Lemma progress_update_cast (v : jsval) :
  isInt 0 100 (Some v) = true ->
  exists p, 0 <= p <= 100 /\ int_value (Some v) = Some p /\
    castUpdate {[ "progress" := v ]}
    = Ok {| set_id := None; set_userId := None; set_date := None;
            set_title := None; set_progress := Some p; set_category := None;
            set_priority := None; set_createTime := None |}.
Proof.
  unfold isInt. destruct (int_value (Some v)) as [p|] eqn:Hv; [|discriminate].
  intros Hr. apply andb_true_iff in Hr as [Hlo Hhi].
  apply Z.leb_le in Hlo, Hhi.
  exists p. split; [lia|]. split; [reflexivity|].
  assert (Hc : exists s : scalar, v = JScalar s /\ castNumber s = Ok p).
  { destruct v as [[| |n|s]|o]; simpl in Hv; try discriminate.
    - injection Hv as ->. eexists. split; reflexivity.
    - eexists. split; [reflexivity|]. simpl. rewrite Hv.
      destruct (Z.abs p <=? 2 ^ 53) eqn:Hb; [reflexivity|].
      apply Z.leb_gt in Hb. lia. }
  destruct Hc as (s & -> & Hs).
  unfold castUpdate, shape_ok, set_operand.
  rewrite map_to_list_singleton. simpl.
  rewrite lookup_singleton_ne by discriminate.
  rewrite map_to_list_empty. simpl.
  unfold cast_path, assigned, set_operand.
  rewrite !lookup_singleton_ne by discriminate.
  rewrite lookup_singleton_eq. simpl.
  rewrite !lookup_empty. simpl. rewrite Hs. reflexivity.
Qed.

End Calls.

(** ** The routes that address one task by id *)

Section ById.
Import Schema Tasks.

Lemma delete_task_eq st user id oid :
  castObjectId (JStr id) = Ok oid ->
  delete_task st user id
  = match List.find (by_id_and_owner oid user) (docs st) with
    | None => (NotFound, st)
    | Some _ => (Deleted,
                 {| docs := remove_first (by_id_and_owner oid user) (docs st);
                    next_oid := next_oid st |})
    end.
Proof.
  intros Hid. unfold delete_task, validate_delete.
  rewrite (cast_isMongoId _ _ Hid). simpl.
  rewrite (findOneAndDelete_eq _ _ _ _ Hid).
  destruct (List.find _ _); reflexivity.
Qed.

Lemma validate_progress_nil id body :
  validate_progress id body = [] <->
  isMongoId id = true /\ isInt 0 100 (body !! "progress") = true.
Proof.
  unfold validate_progress, check.
  destruct (isMongoId id), (isInt 0 100 (body !! "progress")); simpl;
    split; try tauto; try discriminate; intros [? ?]; discriminate.
Qed.

(** The task [t] after a progress update to [p] at time [now]. *)
Lemma put_progress_eq st user id oid body now :
  castObjectId (JStr id) = Ok oid ->
  validate_progress id body = [] ->
  exists p, 0 <= p <= 100 /\ int_value (body !! "progress") = Some p /\
    put_progress st user id body now
    = match List.find (by_id_and_owner oid user) (docs st) with
      | None => (NotFound, st)
      | Some t =>
          let t' := {| _id := _id t; userId := userId t; date := date t;
                       title := title t; progress := p; category := category t;
                       priority := priority t; createTime := createTime t;
                       updateTime := now |} in
          (Updated t',
           {| docs := replace_first (by_id_and_owner oid user) t' (docs st);
              next_oid := next_oid st |})
      end.
Proof.
  intros Hid Hv. unfold put_progress. rewrite Hv.
  apply validate_progress_nil in Hv as [_ Hp].
  destruct (body !! "progress") as [v|] eqn:Hb; [|discriminate].
  destruct (progress_update_cast v Hp) as (p & Hr & Hiv & Hc).
  exists p. split; [exact Hr|]. split; [exact Hiv|].
  unfold findOneAndUpdate. rewrite Hid, Hc. simpl.
  destruct (List.find _ _); reflexivity.
Qed.

Lemma put_task_eq st user id oid body now u :
  castObjectId (JStr id) = Ok oid ->
  validate_put id body = [] ->
  castUpdate body = Ok u ->
  put_task st user id body now
  = match List.find (by_id_and_owner oid user) (docs st) with
    | None => (NotFound, st)
    | Some t =>
        if match set_id u with Some i => i =? _id t | None => true end
        then (Updated (apply_update u now t),
              {| docs := replace_first (by_id_and_owner oid user)
                           (apply_update u now t) (docs st);
                 next_oid := next_oid st |})
        else (ServerError "更新任务失败", st)
    end.
Proof.
  intros Hid Hv Hu. unfold put_task. rewrite Hv.
  unfold findOneAndUpdate. rewrite Hid, Hu. simpl.
  destruct (List.find _ _) as [t|]; [|reflexivity].
  destruct (set_id u) as [i|]; simpl; [|reflexivity].
  destruct (i =? _id t); reflexivity.
Qed.

(** With unique ids, a stored task is the one its id and owner find. *)
Lemma find_unique st t :
  unique_ids st -> In t (docs st) ->
  List.find (by_id_and_owner (_id t) (userId t)) (docs st) = Some t.
Proof.
  intros [Hnd _] Hin.
  induction (docs st) as [|a l IH]; simpl in *; [tauto|].
  apply List.NoDup_cons_iff in Hnd as [Hnotin Hnd].
  destruct (by_id_and_owner (_id t) (userId t) a) eqn:Hm.
  - destruct Hin as [->|Hin]; [reflexivity|].
    apply by_id_and_owner_true in Hm as [Hid _].
    exfalso. apply Hnotin. rewrite Hid. apply in_map, Hin.
  - destruct Hin as [->|Hin]; [|auto].
    assert (by_id_and_owner (_id t) (userId t) t = true)
      by (apply by_id_and_owner_true; auto).
    congruence.
Qed.

End ById.

(** ** Creating a task *)

Section Create.
Import Schema Tasks.

(** What a successful [Task.create] has built. *)
Lemma create_inv st user d t p c pr tn ts task :
  create st user d t p c pr tn ts = Ok task ->
  exists dv tv : jsval,
    d = Some dv /\ t = Some tv
    /\ _id task = next_oid st /\ userId task = user
    /\ at_scalar castString dv = Ok (date task)
    /\ omap Str.trim (at_scalar castString tv) = Ok (title task)
    /\ at_scalar castNumber p = Ok (progress task)
    /\ omap Str.trim (at_scalar castString c) = Ok (category task)
    /\ at_scalar castNumber pr = Ok (priority task)
    /\ createTime task = tn /\ updateTime task = ts
    /\ bounded task
    /\ required (date task) = true /\ required (title task) = true.
Proof.
  unfold create. intros H.
  destruct d as [dv|]; [|discriminate]. destruct t as [tv|]; [|discriminate].
  exists dv, tv. repeat step_bind.
  match type of H with
  | (if ?b then _ else _) = _ => destruct b eqn:Hb; [|discriminate]
  end.
  injection H as <-. simpl.
  unfold in_range in Hb. rewrite !andb_true_iff, !Z.leb_le in Hb.
  unfold bounded. simpl. intuition.
Qed.

Lemma post_task_created st user body tn ts task st' :
  post_task st user body tn ts = (Created task, st') ->
  validate_post body = []
  /\ create st user (body !! "date") (body !! "title")
       (default (JScalar (JNum 0)) (body !! "progress"))
       (default (JScalar (JStr "general")) (body !! "category"))
       (default (JScalar (JNum 1)) (body !! "priority")) tn ts = Ok task
  /\ st' = insert task st.
Proof.
  unfold post_task. destruct (validate_post body); [|discriminate].
  destruct (create _ _ _ _ _ _ _ _ _) as [x| |]; try discriminate.
  intros H. injection H as <- <-. auto.
Qed.

(** The route reads five members of the body and nothing else. *)
Lemma post_task_same_fields st user b1 b2 tn ts :
  same_task_fields b1 b2 ->
  post_task st user b1 tn ts = post_task st user b2 tn ts.
Proof.
  intros (Hd & Ht & Hp & Hc & Hr).
  unfold post_task, validate_post. rewrite Hd, Ht, Hp, Hc, Hr. reflexivity.
Qed.

(** A missing or empty title is a validation error, reported for the
    field, and nothing is stored. *)
Lemma post_title_absent_or_empty st user body tn ts :
  body !! "title" = None \/ body !! "title" = Some (JScalar (JStr "")) ->
  exists errs,
    post_task st user body tn ts = (BadRequest errs, st)
    /\ In {| path := "title"; msg := "title 必填" |} errs.
Proof.
  intros Ht.
  assert (Hin : In {| path := "title"; msg := "title 必填" |} (validate_post body)).
  { unfold validate_post. apply in_or_app. right. apply in_or_app. right.
    apply in_or_app. left. destruct Ht as [-> | ->]; simpl; auto. }
  unfold post_task. destruct (validate_post body) as [|e errs]; [destruct Hin|].
  eexists. split; [reflexivity|exact Hin].
Qed.

(** A title that trimming empties never becomes a task. *)
Lemma post_blank_title_never_stored st user body tn ts s :
  body !! "title" = Some (JScalar (JStr s)) ->
  Str.trim s = "" ->
  snd (post_task st user body tn ts) = st
  /\ forall task, fst (post_task st user body tn ts) <> Created task.
Proof.
  intros Ht Hs.
  destruct (post_task st user body tn ts) as [r st'] eqn:Hpost.
  assert (Hnot : forall task, r <> Created task).
  { intros task ->. apply post_task_created in Hpost as (_ & Hc & _).
    apply create_inv in Hc as (dv & tv & _ & Htv & _ & _ & _ & Htitle & _ & _ & _
                                & _ & _ & _ & _ & Hreq).
    rewrite Ht in Htv. injection Htv as <-. simpl in Htitle.
    injection Htitle as Htitle. rewrite Hs in Htitle. rewrite <- Htitle in Hreq.
    discriminate. }
  split; [|exact Hnot]. simpl.
  unfold post_task in Hpost. destruct (validate_post body).
  - destruct (create _ _ _ _ _ _ _ _ _) as [x| |]; injection Hpost as <- <-;
      [exfalso; eapply Hnot; reflexivity|reflexivity|reflexivity].
  - injection Hpost as <- <-. reflexivity.
Qed.

End Create.

(** ** Update documents *)

Section Updates.
Import Schema Tasks.

Lemma castUpdate_inv upd u :
  castUpdate upd = Ok u ->
  shape_ok upd = true
  /\ cast_path castObjectId upd "_id" = Ok (set_id u)
  /\ cast_path castObjectId upd "userId" = Ok (set_userId u)
  /\ cast_path castString upd "date" = Ok (set_date u)
  /\ cast_path (fun v => omap Str.trim (castString v)) upd "title" = Ok (set_title u)
  /\ cast_path castNumber upd "progress" = Ok (set_progress u)
  /\ cast_path (fun v => omap Str.trim (castString v)) upd "category"
     = Ok (set_category u)
  /\ cast_path castNumber upd "priority" = Ok (set_priority u)
  /\ cast_path castDate upd "createTime" = Ok (set_createTime u).
Proof.
  unfold castUpdate. intros H.
  destruct (shape_ok upd); simpl in H; [|discriminate].
  repeat step_bind. injection H as <-. simpl. repeat split; reflexivity.
Qed.

(** Without a [$set] operator, a path is set only by the top-level
    member of its name. *)
Lemma cast_path_plain {A} (cast : scalar -> outcome A) upd k r :
  upd !! "$set" = None ->
  cast_path cast upd k = Ok r ->
  match upd !! k with
  | None => r = None
  | Some (JScalar v) => exists a, cast v = Ok a /\ r = Some a
  | Some (JObject _) => False
  end.
Proof.
  intros Hset. unfold cast_path, assigned, set_operand. rewrite Hset.
  destruct (upd !! k) as [[v|o]|]; simpl.
  - destruct (cast v) as [a| |]; simpl; try discriminate.
    intros H. injection H as <-. eauto.
  - discriminate.
  - rewrite lookup_empty. simpl. intros H. injection H as <-. reflexivity.
Qed.

(** A value that passed [isInt] casts to the integer it denotes. *)
Lemma castNumber_int_value v p z :
  castNumber v = Ok p -> int_value (Some (JScalar v)) = Some z -> p = z.
Proof.
  destruct v as [| b | n | s]; simpl; try discriminate.
  - congruence.
  - intros Hc Hs. rewrite Hs in Hc.
    destruct (Z.abs z <=? 2 ^ 53); congruence.
Qed.

Lemma optional_check_nil (v : option jsval) p ok m :
  optional v (check p ok m) = [] -> v = None \/ ok = true.
Proof.
  destruct v; simpl; [|auto]. intros H. right. apply check_nil in H. exact H.
Qed.

Lemma validate_put_nil id body :
  validate_put id body = [] ->
  isMongoId id = true
  /\ (body !! "progress" = None \/ isInt 0 100 (body !! "progress") = true)
  /\ (body !! "priority" = None \/ isInt 1 3 (body !! "priority") = true).
Proof.
  unfold validate_put. intros H.
  repeat match type of H with
         | _ ++ _ = [] => apply app_eq_nil in H as [? H]
         end.
  repeat match goal with
         | E : optional _ (check _ _ _) = [] |- _ => apply optional_check_nil in E
         | E : check _ _ _ = [] |- _ => apply check_nil in E
         end.
  auto.
Qed.

(** A number a validated top-level member sets lies in the member's
    range. *)
Lemma validated_number_in_range lo hi upd k r x :
  upd !! "$set" = None ->
  cast_path castNumber upd k = Ok r ->
  upd !! k = None \/ isInt lo hi (upd !! k) = true ->
  r = Some x -> lo <= x <= hi.
Proof.
  intros Hset Hc Hv ->. pose proof (cast_path_plain _ _ _ _ Hset Hc) as Hk.
  destruct (upd !! k) as [[v|o]|] eqn:Hl; [|destruct Hk|discriminate].
  destruct Hk as (a & Ha & Hr). injection Hr as <-.
  destruct Hv as [Hv|Hv]; [discriminate|].
  unfold isInt in Hv. destruct (int_value (Some (JScalar v))) as [z|] eqn:Hz;
    [|discriminate].
  rewrite (castNumber_int_value _ _ _ Ha Hz).
  apply andb_true_iff in Hv as [H1 H2]. apply Z.leb_le in H1, H2. lia.
Qed.

End Updates.

(** ** Invariants of the store *)

Section Invariants.
Import Schema Tasks.

Lemma remove_first_ids_incl P l i :
  In i (map _id (remove_first P l)) -> In i (map _id l).
Proof.
  intros Hin. apply in_map_iff in Hin as (x & <- & Hx).
  apply in_map, (remove_first_In _ _ _ Hx).
Qed.

Lemma findOneAndUpdate_ids st id user upd now o st' :
  findOneAndUpdate st id user upd now = Ok (o, st') ->
  map _id (docs st') = map _id (docs st) /\ next_oid st' = next_oid st.
Proof.
  intros H. apply findOneAndUpdate_inv in H as (oid & u & _ & _ & H).
  destruct (List.find _ _) as [t|] eqn:Hf.
  - destruct H as [_ H]. injection H as _ ->. simpl. split; [|reflexivity].
    apply replace_first_ids. intros x _ Hm.
    apply by_id_and_owner_true in Hm as [Hx _].
    apply find_some_match in Hf as (_ & Ht & _). simpl. congruence.
  - injection H as _ ->. auto.
Qed.

Lemma update_route_ids st id user upd now (ok : Task -> response) msg :
  let r := match findOneAndUpdate st id user upd now with
           | Ok (Some task, st') => (ok task, st')
           | Ok (None, st') => (NotFound, st')
           | Fail => (ServerError msg, st)
           | Outside => (OutOfScope, st)
           end in
  map _id (docs (snd r)) = map _id (docs st) /\ next_oid (snd r) = next_oid st.
Proof.
  simpl. destruct (findOneAndUpdate st id user upd now) as [[o st']| |] eqn:H;
    [|auto|auto].
  apply findOneAndUpdate_ids in H. destruct o; exact H.
Qed.

(** Every request keeps ObjectIds unique. *)
Lemma step_unique_ids st r : unique_ids st -> unique_ids (snd (step st r)).
Proof.
  intros [Hnd Hlt]. destruct r as [user body tn ts|user id body now|user id body now|user id];
    simpl.
  - destruct (post_task st user body tn ts) as [resp st'] eqn:Hpost.
    assert (Hcases : st' = st \/ exists task, resp = Created task).
    { unfold post_task in Hpost. destruct (validate_post body).
      - destruct (create _ _ _ _ _ _ _ _ _); injection Hpost as <- <-; eauto.
      - injection Hpost as <- <-. auto. }
    destruct Hcases as [->|[task ->]]; [split; assumption|].
    apply post_task_created in Hpost as (_ & Hc & ->).
    apply create_inv in Hc as (_ & _ & _ & _ & Hid & _).
    unfold unique_ids, insert. simpl. rewrite map_app. simpl. split.
    + apply List.NoDup_app; [exact Hnd|repeat constructor; simpl; tauto|].
      intros i Hi [<-|[]]. rewrite List.Forall_forall in Hlt.
      specialize (Hlt _ Hi). lia.
    + apply Forall_app. split.
      * eapply List.Forall_impl; [|exact Hlt]. simpl. intros; lia.
      * constructor; [lia|constructor].
  - unfold put_task. destruct (validate_put id body); [|split; assumption].
    destruct (update_route_ids st id user body now Updated "更新任务失败") as [Hi Hn].
    simpl in Hi, Hn. unfold unique_ids. rewrite Hi, Hn. split; assumption.
  - unfold put_progress. destruct (validate_progress id body); [|split; assumption].
    match goal with
    | |- context [findOneAndUpdate st id user ?upd now] =>
        destruct (update_route_ids st id user upd now Updated "更新进度失败") as [Hi Hn]
    end.
    simpl in Hi, Hn. unfold unique_ids. rewrite Hi, Hn. split; assumption.
  - unfold delete_task. destruct (validate_delete id); [|split; assumption].
    unfold findOneAndDelete. destruct (castObjectId (JStr id)) as [oid| |]; simpl;
      try (split; assumption).
    destruct (List.find _ _); simpl; [|split; assumption].
    split; simpl.
    + apply remove_first_ids_NoDup, Hnd.
    + rewrite List.Forall_forall in *. intros i Hi.
      apply Hlt, (remove_first_ids_incl _ _ _ Hi).
Qed.

Lemma reachable_unique_ids st : reachable st -> unique_ids st.
Proof.
  induction 1 as [|st r _ IH].
  - split; simpl; constructor.
  - apply step_unique_ids, IH.
Qed.

(** Every request other than a partial update carrying [$set] keeps
    [progress] and [priority] within their bounds. *)
Lemma step_bounded st r :
  plain_update r -> Forall bounded (docs st) -> Forall bounded (docs (snd (step st r))).
Proof.
  intros Hplain Hb.
  destruct r as [user body tn ts|user id body now|user id body now|user id]; simpl.
  - destruct (post_task st user body tn ts) as [resp st'] eqn:Hpost.
    assert (Hcases : st' = st \/ exists task, resp = Created task).
    { unfold post_task in Hpost. destruct (validate_post body).
      - destruct (create _ _ _ _ _ _ _ _ _); injection Hpost as <- <-; eauto.
      - injection Hpost as <- <-. auto. }
    destruct Hcases as [->|[task ->]]; [assumption|].
    apply post_task_created in Hpost as (_ & Hc & ->).
    apply create_inv in Hc as (_ & _ & _ & _ & _ & _ & _ & _ & _ & _ & _ & _ & _ & Hbt & _).
    simpl. apply Forall_app. split; [assumption|]. constructor; [exact Hbt|constructor].
  - simpl in Hplain. unfold put_task.
    destruct (validate_put id body) eqn:Hv; [|assumption].
    apply validate_put_nil in Hv as (_ & Hvp & Hvr).
    destruct (findOneAndUpdate st id user body now) as [[o st']| |] eqn:Hf;
      [|assumption|assumption].
    assert (Hst' : Forall bounded (docs st')).
    { apply findOneAndUpdate_inv in Hf as (oid & u & _ & Hu & Hf).
      apply castUpdate_inv in Hu as (_ & _ & _ & _ & _ & Hp & _ & Hr & _).
      destruct (List.find _ _) as [t|] eqn:Hfind; [|injection Hf as _ ->; assumption].
      destruct Hf as [_ Hf]. injection Hf as _ ->. simpl.
      apply find_some_match in Hfind as (Hin & _).
      rewrite List.Forall_forall in Hb. pose proof (Hb _ Hin) as [Htp Htr].
      apply List.Forall_forall. intros x Hx. apply replace_first_In in Hx as [->|Hx];
        [|apply Hb, Hx].
      unfold bounded, apply_update. simpl. split.
      - destruct (set_progress u) as [x|] eqn:Hx; simpl; [|exact Htp].
        exact (validated_number_in_range 0 100 body "progress" _ x Hplain Hp Hvp eq_refl).
      - destruct (set_priority u) as [x|] eqn:Hx; simpl; [|exact Htr].
        exact (validated_number_in_range 1 3 body "priority" _ x Hplain Hr Hvr eq_refl). }
    destruct o; exact Hst'.
  - unfold put_progress. destruct (validate_progress id body) eqn:Hv; [|assumption].
    pose proof Hv as Hv'. apply validate_progress_nil in Hv' as [Hid _].
    destruct (isMongoId_cast _ Hid) as [[oid Hoid]|Hfail];
      [|unfold findOneAndUpdate; rewrite Hfail; simpl; assumption].
    destruct (put_progress_eq st user id oid body now Hoid Hv) as (p & Hp & _ & Heq).
    unfold put_progress in Heq. rewrite Hv in Heq. rewrite Heq.
    destruct (List.find _ _) as [t|] eqn:Hfind; [|assumption].
    simpl. apply find_some_match in Hfind as (Hin & _).
    rewrite List.Forall_forall in Hb. pose proof (Hb _ Hin) as [_ Htr].
    apply List.Forall_forall. intros x Hx. apply replace_first_In in Hx as [->|Hx];
      [|apply Hb, Hx].
    split; simpl; [lia|exact Htr].
  - unfold delete_task. destruct (validate_delete id); [|assumption].
    unfold findOneAndDelete. destruct (castObjectId (JStr id)) as [oid| |]; simpl;
      try assumption.
    destruct (List.find _ _); simpl; [|assumption].
    rewrite List.Forall_forall in *. intros x Hx. apply Hb, (remove_first_In _ _ _ Hx).
Qed.

End Invariants.

(** The example stores are reachable. *)
Lemma db1_reachable : reachable Ex.db1.
Proof. apply (reach_step empty_db (Post Ex.alice Ex.weekly 1000 1001)), reach_empty. Qed.

Lemma db2_reachable : reachable Ex.db2.
Proof.
  apply (reach_step Ex.db1 (Post Ex.bob (Ex.task_with 40) 2000 2001)), db1_reachable.
Qed.

(** ** Updating and deleting one task *)

(** C9.  A progress update is partial.  Whatever the request, the route
    leaves id, owner, date, title, category, priority and creation time of
    every stored task as they were.  On a stored task of the caller and a
    progress value in range, in any store the routes can produce, it
    answers with the task as it was except for [progress], which takes the
    new value, and [updateTime], which takes the current time; the updated
    task is what the store now holds in its place, and no other task is
    touched. *)
Theorem progress_update_is_partial
    (st : DB) (user : Z) (id : string) (body : Body) (now : Z) :
  map other_fields (docs (snd (Tasks.put_progress st user id body now)))
  = map other_fields (docs st)
  /\ forall t,
       reachable st ->
       In t (docs st) ->
       userId t = user ->
       Schema.castObjectId (JStr id) = Ok (_id t) ->
       isInt 0 100 (body !! "progress") = true ->
       exists p t' st',
         Tasks.put_progress st user id body now = (Updated t', st')
         /\ int_value (body !! "progress") = Some p
         /\ t' = {| _id := _id t; userId := userId t; date := date t;
                    title := title t; progress := p; category := category t;
                    priority := priority t; createTime := createTime t;
                    updateTime := now |}
         /\ In t' (docs st')
         /\ (forall x, In x (docs st') -> x = t' \/ In x (docs st)).
Proof.
  split.
  - destruct (Tasks.validate_progress id body) as [|e errs] eqn:Hv.
    + pose proof Hv as Hv'. apply validate_progress_nil in Hv' as [Hid _].
      destruct (isMongoId_cast _ Hid) as [[oid Hoid]|Hfail];
        [|unfold Tasks.put_progress, Schema.findOneAndUpdate;
          rewrite Hv, Hfail; reflexivity].
      destruct (put_progress_eq st user id oid body now Hoid Hv) as (p & _ & _ & ->).
      destruct (List.find _ _) as [t|] eqn:Hf; [|reflexivity].
      simpl. apply (replace_first_map other_fields _ _ _ t Hf). reflexivity.
    + unfold Tasks.put_progress. rewrite Hv. reflexivity.
  - intros t Hreach Hin Hu Hid Hp.
    pose proof (reachable_unique_ids st Hreach) as Hwf.
    assert (Hv : Tasks.validate_progress id body = []).
    { apply validate_progress_nil. split; [eapply cast_isMongoId, Hid|exact Hp]. }
    destruct (put_progress_eq st user id _ body now Hid Hv) as (p & _ & Hiv & Heq).
    pose proof (find_unique st t Hwf Hin) as Hf. rewrite Hu in Hf.
    rewrite Hf in Heq. simpl in Heq.
    eexists p, _, _. split; [exact Heq|]. split; [exact Hiv|].
    split; [reflexivity|]. simpl. split.
    + eapply replace_first_find, Hf.
    + intros x Hx. apply replace_first_In in Hx. exact Hx.
Qed.

Lemma progress_update_is_partial_witness :
  exists t' st',
    Tasks.put_progress Ex.db1 Ex.alice Ex.id0 {[ "progress" := Ex.num 50 ]} 2000
    = (Updated t', st')
    /\ title t' = "写周报" /\ date t' = "2024-05-01" /\ category t' = "general"
    /\ priority t' = 1 /\ progress t' = 50 /\ updateTime t' = 2000.
Proof.
  destruct (progress_update_is_partial Ex.db1 Ex.alice Ex.id0
              {[ "progress" := Ex.num 50 ]} 2000) as [_ Hvalid].
  destruct (Hvalid Ex.alice_task) as (p & t' & st' & Heq & Hp & Ht & _).
  - exact db1_reachable.
  - vm_compute. left. reflexivity.
  - reflexivity.
  - reflexivity.
  - reflexivity.
  - vm_compute in Hp. injection Hp as <-.
    exists t', st'. split; [exact Heq|]. rewrite Ht. simpl. repeat split.
Defined.




(** X27.  An id that passes the routes' validation and is not twenty-four
    hexadecimal digits, as [0x] followed by twenty-two digits is, makes
    every by-id route answer 500 and leave the store as it was, whether or
    not a task matches: the cast of the filter's [_id] fails. *)
Theorem validated_id_may_fail_the_cast (st : DB) (user : Z) (id : string) :
  isMongoId id = true ->
  Schema.hex24 id = false ->
  Tasks.delete_task st user id = (ServerError "删除任务失败", st)
  /\ (forall body now,
        Tasks.validate_progress id body = [] ->
        Tasks.put_progress st user id body now = (ServerError "更新进度失败", st))
  /\ (forall body now,
        Tasks.validate_put id body = [] ->
        Tasks.put_task st user id body now = (ServerError "更新任务失败", st)).
Proof.
  intros Hid Hh.
  assert (Hfail : Schema.castObjectId (JStr id) = Fail).
  { unfold Schema.castObjectId. rewrite Hh, (isMongoId_length _ Hid). reflexivity. }
  split; [|split].
  - unfold Tasks.delete_task, Tasks.validate_delete, Schema.findOneAndDelete.
    rewrite Hid, Hfail. reflexivity.
  - intros body now Hv. unfold Tasks.put_progress, Schema.findOneAndUpdate.
    rewrite Hv, Hfail. reflexivity.
  - intros body now Hv. unfold Tasks.put_task, Schema.findOneAndUpdate.
    rewrite Hv, Hfail. reflexivity.
Qed.

Lemma validated_id_may_fail_the_cast_witness :
  Tasks.delete_task Ex.db1 Ex.alice Ex.id0x = (ServerError "删除任务失败", Ex.db1)
  /\ Tasks.put_progress Ex.db1 Ex.alice Ex.id0x {[ "progress" := Ex.num 50 ]} 2000
     = (ServerError "更新进度失败", Ex.db1).
Proof.
  destruct (validated_id_may_fail_the_cast Ex.db1 Ex.alice Ex.id0x) as (Hd & Hp & _).
  - reflexivity.
  - reflexivity.
  - split; [exact Hd|]. apply Hp. reflexivity.
Defined.

(** C4.  A create whose title is whitespace only is not answered with a
    validation error: the route's [notEmpty()] check lets the title
    through, the schema's [trim] setter then empties it and its [required]
    validator rejects the save, which the route reports as a server error
    (500).  Nothing is stored. *)
Theorem post_blank_title_is_server_error :
  Ex.blank_title !! "title" = Some (JScalar (JStr "   "))
  /\ Str.trim "   " = ""
  /\ Tasks.validate_post Ex.blank_title = []
  /\ Tasks.post_task empty_db Ex.alice Ex.blank_title 1000 1001
     = (ServerError "创建任务失败", empty_db).
Proof. repeat split; vm_compute; reflexivity. Qed.

(** C10.  Create ignores forged identity fields: whatever the body holds,
    a created task is owned by the authenticated caller, carries the id the
    server drew and the server's clock readings as timestamps; and the
    outcome of a create is the same for any two bodies that agree on
    [date], [title], [progress], [category] and [priority]. *)
Theorem post_ignores_forged_identity
    (st : DB) (user : Z) (body : Body) (t_new t_save : Z) (task : Task) (st' : DB) :
  Tasks.post_task st user body t_new t_save = (Created task, st') ->
  userId task = user
  /\ _id task = next_oid st
  /\ createTime task = t_new
  /\ updateTime task = t_save
  /\ docs st' = docs st ++ [task]
  /\ forall body', same_task_fields body body' ->
       Tasks.post_task st user body' t_new t_save = (Created task, st').
Proof.
  intros Hpost.
  pose proof (post_task_created _ _ _ _ _ _ _ Hpost) as (_ & Hc & ->).
  apply create_inv in Hc as (dv & tv & _ & _ & Hi & Hu & _ & _ & _ & _ & _
                              & Hct & Hut & _).
  repeat split; auto.
  intros body' Hsame. rewrite <- Hpost. symmetry.
  apply post_task_same_fields, Hsame.
Qed.

Lemma post_ignores_forged_identity_witness :
  exists task st',
    Tasks.post_task empty_db Ex.alice Ex.forged 1000 1001 = (Created task, st')
    /\ Ex.forged !! "userId" = Some (Ex.str Ex.bob_id)
    /\ userId task = Ex.alice /\ _id task = 0
    /\ createTime task = 1000 /\ updateTime task = 1001
    /\ Tasks.post_task empty_db Ex.alice Ex.weekly 1000 1001 = (Created task, st').
Proof.
  eexists _, _.
  assert (H : Tasks.post_task empty_db Ex.alice Ex.forged 1000 1001
              = (Created {| _id := 0; userId := 10; date := "2024-05-01";
                            title := "写周报"; progress := 0; category := "general";
                            priority := 1; createTime := 1000; updateTime := 1001 |},
                 Schema.insert {| _id := 0; userId := 10; date := "2024-05-01";
                            title := "写周报"; progress := 0; category := "general";
                            priority := 1; createTime := 1000; updateTime := 1001 |}
                   empty_db)) by (vm_compute; reflexivity).
  destruct (post_ignores_forged_identity _ _ _ _ _ _ _ H)
    as (Hu & Hi & Hc & Hut & _ & Hsame).
  split; [exact H|]. split; [reflexivity|].
  split; [exact Hu|]. split; [exact Hi|]. split; [exact Hc|]. split; [exact Hut|].
  apply Hsame. repeat split; reflexivity.
Defined.

(** ** Partial updates *)

(** A partial update that names neither [userId] nor [createTime] and
    carries no [$set] leaves id, owner and creation time as they were. *)
Lemma put_task_keeps_identity st user id body now t' st' :
  body !! "$set" = None ->
  body !! "userId" = None ->
  body !! "createTime" = None ->
  Tasks.put_task st user id body now = (Updated t', st') ->
  exists t, In t (docs st)
    /\ _id t' = _id t /\ userId t' = userId t /\ createTime t' = createTime t.
Proof.
  intros Hset Hu Hc. unfold Tasks.put_task.
  destruct (Tasks.validate_put id body); [|discriminate].
  destruct (Schema.findOneAndUpdate st id user body now) as [[o st'']| |] eqn:Hf;
    try discriminate.
  destruct o as [x|]; [|discriminate]. intros H. injection H as -> ->.
  apply findOneAndUpdate_inv in Hf as (oid & u & _ & Hcast & Hf).
  apply castUpdate_inv in Hcast as (_ & _ & Hcu & _ & _ & _ & _ & _ & Hcc).
  pose proof (cast_path_plain _ _ _ _ Hset Hcu) as Hu'. rewrite Hu in Hu'.
  pose proof (cast_path_plain _ _ _ _ Hset Hcc) as Hc'. rewrite Hc in Hc'.
  destruct (List.find _ _) as [t|] eqn:Hfind; [|discriminate].
  destruct Hf as [_ Hf]. injection Hf as -> _.
  apply find_some_match in Hfind as (Hin & _).
  exists t. unfold Schema.apply_update. simpl. rewrite Hu', Hc'. auto.
Qed.

(** C2.  A partial update sends the whole body to the store, so a body
    naming [userId] or [createTime] rewrites them: alice's task ends up
    owned by bob, and a second update moves its creation time. *)
Theorem put_reassigns_owner :
  let t0 := {| _id := 0; userId := Ex.alice; date := "2024-05-01"; title := "写周报";
               progress := 0; category := "general"; priority := 1;
               createTime := 1000; updateTime := 1001 |} in
  let give : Body := {[ "userId" := Ex.str Ex.bob_id ]} in
  let backdate : Body := {[ "createTime" := Ex.num 5 ]} in
  docs Ex.db1 = [t0]
  /\ Tasks.validate_put Ex.id0 give = []
  /\ Tasks.put_task Ex.db1 Ex.alice Ex.id0 give 3000
     = (Updated {| _id := 0; userId := Ex.bob; date := "2024-05-01"; title := "写周报";
                   progress := 0; category := "general"; priority := 1;
                   createTime := 1000; updateTime := 3000 |},
        {| docs := [{| _id := 0; userId := Ex.bob; date := "2024-05-01";
                       title := "写周报"; progress := 0; category := "general";
                       priority := 1; createTime := 1000; updateTime := 3000 |}];
           next_oid := 1 |})
  /\ Tasks.validate_put Ex.id0 backdate = []
  /\ Tasks.put_task Ex.db1 Ex.alice Ex.id0 backdate 3000
     = (Updated {| _id := 0; userId := Ex.alice; date := "2024-05-01"; title := "写周报";
                   progress := 0; category := "general"; priority := 1;
                   createTime := 5; updateTime := 3000 |},
        {| docs := [{| _id := 0; userId := Ex.alice; date := "2024-05-01";
                       title := "写周报"; progress := 0; category := "general";
                       priority := 1; createTime := 5; updateTime := 3000 |}];
           next_oid := 1 |}).
Proof. repeat split; vm_compute; reflexivity. Qed.

(** C5.  The bounds do not hold of every reachable store: a partial update
    whose body carries [$set] passes the route's checks, which look at the
    top-level members only, and stores a progress of 1000. *)
Theorem put_set_operator_escapes_bounds :
  let body : Body := {[ "$set" := JObject {[ "progress" := JNum 1000 ]} ]} in
  let r := Tasks.put_task Ex.db1 Ex.alice Ex.id0 body 3000 in
  reachable Ex.db1
  /\ Forall bounded (docs Ex.db1)
  /\ Tasks.validate_put Ex.id0 body = []
  /\ reachable (snd r)
  /\ exists t, fst r = Updated t /\ docs (snd r) = [t]
       /\ progress t = 1000 /\ ~ bounded t.
Proof.
  intros body r.
  pose proof db1_reachable as H1.
  split; [exact H1|].
  split; [vm_compute; repeat constructor; discriminate|].
  split; [vm_compute; reflexivity|].
  split; [apply (reach_step Ex.db1 (Put Ex.alice Ex.id0 body 3000)), H1|].
  eexists. split; [vm_compute; reflexivity|].
  split; [vm_compute; reflexivity|]. split; [reflexivity|].
  unfold bounded. simpl. lia.
Qed.

(** ** Isolation between owners *)

Section Isolation.
Import Schema Tasks Stats.

Lemma filter_filter_implied {A} (P Q : A -> bool) l :
  (forall x, P x = true -> Q x = true) ->
  List.filter P (List.filter Q l) = List.filter P l.
Proof.
  intros HPQ. induction l as [|x l IH]; simpl; [reflexivity|].
  destruct (Q x) eqn:Hq; simpl.
  - rewrite IH. reflexivity.
  - destruct (P x) eqn:Hp; [|exact IH]. apply HPQ in Hp. congruence.
Qed.

(** A filter that passes only the caller's tasks does not see the tasks of
    another owner. *)
Lemma owner_filter_without a b (P : Task -> bool) st :
  a <> b ->
  (forall x, P x = true -> userId x = b) ->
  List.filter P (docs (without_owner a st)) = List.filter P (docs st).
Proof.
  intros Hab HP. unfold without_owner. simpl. apply filter_filter_implied.
  intros x Hx. apply HP in Hx. apply negb_true_iff, Z.eqb_neq. congruence.
Qed.

Lemma sorted_In l x : In x (sorted l) <-> In x l.
Proof.
  unfold sorted. split; intros H.
  - eapply Permutation_in; [apply (merge_sort_Permutation sort_le l)|exact H].
  - eapply Permutation_in; [symmetry; apply (merge_sort_Permutation sort_le l)|exact H].
Qed.

Ltac owner_test :=
  let x := fresh "x" in
  let Hx := fresh "Hx" in
  intros x Hx; rewrite ?andb_true_iff, Z.eqb_eq in Hx; tauto.

Lemma get_tasks_without a b st q :
  a <> b -> get_tasks (without_owner a st) b q = get_tasks st b q.
Proof.
  intros Hab. unfold get_tasks.
  destruct (optional _ _); [|reflexivity].
  rewrite (owner_filter_without a b _ st Hab); [reflexivity|owner_test].
Qed.

Lemma get_range_without a b st qs qe :
  a <> b -> get_range (without_owner a st) b qs qe = get_range st b qs qe.
Proof.
  intros Hab. unfold get_range.
  destruct (_ ++ _); [|reflexivity].
  rewrite (owner_filter_without a b _ st Hab); [reflexivity|owner_test].
Qed.

Lemma month_tasks_without a b st y m :
  a <> b -> month_tasks (without_owner a st) b y m = month_tasks st b y m.
Proof.
  intros Hab. unfold month_tasks.
  rewrite (owner_filter_without a b _ st Hab); [reflexivity|owner_test].
Qed.

(** With unique ids, an id that names a task of one owner matches nothing
    under another owner. *)
Lemma other_owner_no_match st t b :
  unique_ids st -> In t (docs st) -> userId t <> b -> no_match st (_id t) b.
Proof.
  intros Hu Hin Hne x Hx [Hid Hxb].
  pose proof (find_unique st t Hu Hin) as Ht.
  pose proof (find_unique st x Hu Hx) as Hxf.
  rewrite Hid in Hxf.
  assert (Hfx : List.find (by_id_and_owner (_id t) (userId t)) (docs st) = Some t)
    by exact Ht.
  clear Ht. destruct Hu as [Hnd _].
  assert (x = t).
  { clear Hxf Hfx. induction (docs st) as [|y l IH]; simpl in *; [tauto|].
    apply List.NoDup_cons_iff in Hnd as [Hnotin Hnd].
    destruct Hin as [->|Hin], Hx as [->|Hx]; auto.
    - exfalso. apply Hnotin. rewrite <- Hid. apply in_map, Hx.
    - exfalso. apply Hnotin. rewrite Hid. apply in_map, Hin. }
  subst x. congruence.
Qed.

(** A by-id route under a caller whom nothing matches changes nothing and
    hands out no task. *)
Lemma put_task_no_match st b id oid body now :
  castObjectId (JStr id) = Ok oid -> no_match st oid b ->
  snd (put_task st b id body now) = st
  /\ forall x, fst (put_task st b id body now) <> Updated x.
Proof.
  intros Hid Hn. unfold put_task.
  destruct (validate_put id body); [|split; [reflexivity|discriminate]].
  unfold findOneAndUpdate. rewrite Hid. simpl.
  destruct (castUpdate body) as [u| |]; simpl;
    try (split; [reflexivity|discriminate]).
  apply find_none_no_match in Hn. rewrite Hn. split; [reflexivity|discriminate].
Qed.

Lemma put_progress_no_match st b id oid body now :
  castObjectId (JStr id) = Ok oid -> no_match st oid b ->
  snd (put_progress st b id body now) = st
  /\ forall x, fst (put_progress st b id body now) <> Updated x.
Proof.
  intros Hid Hn. unfold put_progress.
  destruct (validate_progress id body); [|split; [reflexivity|discriminate]].
  unfold findOneAndUpdate. rewrite Hid. simpl.
  destruct (castUpdate _) as [u| |]; simpl;
    try (split; [reflexivity|discriminate]).
  apply find_none_no_match in Hn. rewrite Hn. split; [reflexivity|discriminate].
Qed.

End Isolation.

(** X25.  Isolation by the stored owner.  Let [t] be a task whose stored
    [userId] is [a], and [b] another owner.  Then [t] is in no listing and
    no range result of [b]; every listing, range result and monthly rollup
    of [b] is what it would be with all tasks stored under [a] taken out of
    the store; and when [b] presents [t]'s own id to a by-id route in a
    store the routes can produce, the answer is NotFound (for a request
    that is otherwise valid), no task is handed out and the store is left
    as it was. *)
Theorem stored_owner_isolation (st : DB) (a b : Z) (t : Task) :
  In t (docs st) -> userId t = a -> a <> b ->
  (forall q l, Tasks.get_tasks st b q = TaskList l -> ~ In t l)
  /\ (forall qs qe l, Tasks.get_range st b qs qe = TaskList l -> ~ In t l)
  /\ (forall q, Tasks.get_tasks st b q = Tasks.get_tasks (without_owner a st) b q)
  /\ (forall qs qe,
        Tasks.get_range st b qs qe = Tasks.get_range (without_owner a st) b qs qe)
  /\ (forall qy qm,
        Stats.get_monthly st b qy qm = Stats.get_monthly (without_owner a st) b qy qm)
  /\ (forall id, reachable st -> Schema.castObjectId (JStr id) = Ok (_id t) ->
        Tasks.delete_task st b id = (NotFound, st)
        /\ (forall body now,
               snd (Tasks.put_progress st b id body now) = st
               /\ (forall x, fst (Tasks.put_progress st b id body now) <> Updated x)
               /\ (Tasks.validate_progress id body = [] ->
                   fst (Tasks.put_progress st b id body now) = NotFound))
        /\ (forall body now,
               snd (Tasks.put_task st b id body now) = st
               /\ (forall x, fst (Tasks.put_task st b id body now) <> Updated x)
               /\ (forall u, Tasks.validate_put id body = [] ->
                             Schema.castUpdate body = Ok u ->
                             fst (Tasks.put_task st b id body now) = NotFound))).
Proof.
  intros Hin Ha Hab.
  split; [|split; [|split; [|split; [|split]]]].
  - intros q l. unfold Tasks.get_tasks. destruct (optional _ _); [|discriminate].
    intros H. injection H as <-. intros Hl.
    apply sorted_In, filter_In in Hl as [_ Hl].
    rewrite !andb_true_iff, Z.eqb_eq in Hl. intuition congruence.
  - intros qs qe l. unfold Tasks.get_range. destruct (_ ++ _); [|discriminate].
    intros H. injection H as <-. intros Hl.
    apply sorted_In, filter_In in Hl as [_ Hl].
    rewrite !andb_true_iff, Z.eqb_eq in Hl. intuition congruence.
  - intros q. symmetry. apply get_tasks_without, Hab.
  - intros qs qe. symmetry. apply get_range_without, Hab.
  - intros qy qm. unfold Stats.get_monthly. destruct (_ ++ _); [|reflexivity].
    rewrite (month_tasks_without a b st _ _ Hab). reflexivity.
  - intros id Hreach Hid.
    pose proof (reachable_unique_ids st Hreach) as Hu.
    assert (Hn : no_match st (_id t) b)
      by (apply other_owner_no_match; [assumption|assumption|congruence]).
    pose proof Hn as Hfind. apply find_none_no_match in Hfind.
    split; [|split].
    + rewrite (delete_task_eq st b id _ Hid), Hfind. reflexivity.
    + intros body now.
      destruct (put_progress_no_match st b id _ body now Hid Hn) as [H1 H2].
      split; [exact H1|]. split; [exact H2|]. intros Hv.
      destruct (put_progress_eq st b id _ body now Hid Hv) as (p & _ & _ & ->).
      rewrite Hfind. reflexivity.
    + intros body now.
      destruct (put_task_no_match st b id _ body now Hid Hn) as [H1 H2].
      split; [exact H1|]. split; [exact H2|]. intros u Hv Hcu.
      rewrite (put_task_eq st b id _ body now u Hid Hv Hcu), Hfind. reflexivity.
Qed.

Lemma stored_owner_isolation_witness :
  docs Ex.db2 = [Ex.alice_task; Ex.bob_task]
  /\ Tasks.get_tasks Ex.db2 Ex.bob None = TaskList [Ex.bob_task]
  /\ ~ In Ex.alice_task [Ex.bob_task]
  /\ Tasks.delete_task Ex.db2 Ex.bob Ex.id0 = (NotFound, Ex.db2).
Proof.
  assert (Hdocs : docs Ex.db2 = [Ex.alice_task; Ex.bob_task]) by reflexivity.
  assert (Hlist : Tasks.get_tasks Ex.db2 Ex.bob None = TaskList [Ex.bob_task])
    by (vm_compute; reflexivity).
  assert (Hin : In Ex.alice_task (docs Ex.db2)) by (rewrite Hdocs; left; reflexivity).
  assert (Hab : Ex.alice <> Ex.bob) by discriminate.
  destruct (stored_owner_isolation Ex.db2 Ex.alice Ex.bob Ex.alice_task Hin eq_refl Hab)
    as (Hget & _ & _ & _ & _ & Hid).
  split; [exact Hdocs|]. split; [exact Hlist|].
  split; [exact (Hget None _ Hlist)|].
  apply (Hid Ex.id0).
  - exact db2_reachable.
  - reflexivity.
Defined.

(** C1.  Isolation between owners fails on the code.  Alice creates a
    task.  Her own partial update then puts bob's id into its [userId]: the
    route copies the whole body into the update, and [userId] is a path of
    the schema.  From then on the task that was created under alice is in
    bob's listing and in his range results, it is counted in his monthly
    rollup, and bob can delete it. *)
Theorem created_task_crosses_owners :
  Tasks.post_task empty_db Ex.alice Ex.weekly 1000 1001 = (Created Ex.alice_task, Ex.db1)
  /\ Tasks.put_task Ex.db1 Ex.alice Ex.id0 Ex.give_to_bob 3000
     = (Updated Ex.given_task, Ex.db_given)
  /\ _id Ex.given_task = _id Ex.alice_task
  /\ Ex.alice <> Ex.bob
  /\ reachable Ex.db_given
  /\ Tasks.get_tasks Ex.db_given Ex.bob None = TaskList [Ex.given_task]
  /\ Tasks.get_range Ex.db_given Ex.bob (Some "2024-05-01") (Some "2024-05-31")
     = TaskList [Ex.given_task]
  /\ Stats.get_monthly Ex.db_given Ex.bob (Some "2024") (Some "5")
     = MonthlyStats 1 (Some 0)
         [{| ds_date := "2024-05-01"; ds_count := 1; ds_average := Some 0 |}]
  /\ Tasks.delete_task Ex.db_given Ex.bob Ex.id0
     = (Deleted, {| docs := []; next_oid := 1 |}).
Proof.
  split; [vm_compute; reflexivity|]. split; [vm_compute; reflexivity|].
  split; [reflexivity|]. split; [discriminate|].
  split; [apply (reach_step Ex.db1 (Put Ex.alice Ex.id0 Ex.give_to_bob 3000)),
            db1_reachable|].
  repeat split; vm_compute; reflexivity.
Qed.

(** ** Binary64 arithmetic *)

Section Binary64.
Import Float Stats.

Lemma rne_comp (p q : Q) : (p == q)%Q -> rne p = rne q.
Proof.
  intros H. unfold rne. rewrite (Qfloor_comp _ _ H).
  assert (Hc : ((p - inject_Z (Qfloor q) ?= 1 # 2) = (q - inject_Z (Qfloor q) ?= 1 # 2))%Q)
    by (rewrite H; reflexivity).
  rewrite Hc. reflexivity.
Qed.

(** The nearest integer to [a / b] is within a half of it, and is the
    floor or the floor plus one. *)
Lemma rne_frac (a : Z) (b : positive) :
  let M := rne (a # b) in
  2 * a - Zpos b <= 2 * M * Zpos b <= 2 * a + Zpos b
  /\ (M = a / Zpos b \/ (M = a / Zpos b + 1 /\ Zpos b <= 2 * (a mod Zpos b))).
Proof.
  cbv zeta. unfold rne.
  change (Qfloor (a # b)) with (a / Zpos b).
  pose proof (Z.div_mod a (Zpos b) ltac:(lia)) as Hdm.
  pose proof (Z.mod_pos_bound a (Zpos b) ltac:(lia)) as Hmb.
  set (f := a / Zpos b) in *. set (r := a mod Zpos b) in *.
  assert (Hcmp : ((a # b) - inject_Z f ?= 1 # 2)%Q = (2 * r ?= Zpos b)).
  { unfold Qcompare, Qminus, Qplus, Qopp, inject_Z. simpl.
    rewrite Z.mul_1_r. rewrite Pos.mul_1_r.
    replace ((a + - f * Zpos b) * 2) with (2 * r) by lia.
    reflexivity. }
  rewrite Hcmp.
  destruct (Z.compare_spec (2 * r) (Zpos b)) as [He|Hl|Hg].
  - destruct (Z.even f).
    + split; [nia|left; reflexivity].
    + split; [nia|right; split; [reflexivity|lia]].
  - split; [nia|left; reflexivity].
  - split; [nia|right; split; [reflexivity|lia]].
Qed.


Lemma rne_le (a : Z) (b : positive) (n : Z) : a <= n * Zpos b -> rne (a # b) <= n.
Proof.
  intros Hn. destruct (rne_frac a b) as [_ H].
  pose proof (Z.div_mod a (Zpos b) ltac:(lia)) as Hdm.
  pose proof (Z.mod_pos_bound a (Zpos b) ltac:(lia)) as Hmb.
  destruct H as [->|[-> Hr]]; nia.
Qed.

Lemma pow2_pos e : (0 < pow2 e)%Q.
Proof.
  unfold pow2. destruct (0 <=? e) eqn:He.
  - apply Z.leb_le in He. unfold Qlt. simpl.
    pose proof (Z.pow_pos_nonneg 2 e ltac:(lia) He). lia.
  - apply Z.leb_gt in He. apply Qinv_lt_0_compat. unfold Qlt. simpl.
    pose proof (Z.pow_pos_nonneg 2 (- e) ltac:(lia) ltac:(lia)). lia.
Qed.

(** [ilog2] finds the power of two at or below the magnitude. *)
Lemma ilog2_le (q : Q) : ~ (q == 0)%Q -> (pow2 (ilog2 q) <= Qabs q)%Q.
Proof.
  intros Hq. unfold ilog2.
  set (n := Z.abs (Qnum q)). set (d := Zpos (Qden q)).
  destruct (Qle_bool (pow2 (Z.log2 n - Z.log2 d)) (Qabs q)) eqn:Ht.
  - apply Qle_bool_iff, Ht.
  - clear Ht.
    assert (Hn : 0 < n).
    { unfold n. destruct q as [qn qd]. unfold Qeq in Hq. simpl in *. lia. }
    pose proof (Z.log2_spec n Hn) as [Hn1 _].
    pose proof (Z.log2_spec d ltac:(unfold d; lia)) as [_ Hd2].
    pose proof (Z.log2_nonneg n) as Ha. pose proof (Z.log2_nonneg d) as Hb.
    set (a := Z.log2 n) in *. set (b := Z.log2 d) in *.
    assert (Habs : (Qabs q == n # Qden q)%Q) by (destruct q; reflexivity).
    rewrite Habs. unfold pow2.
    destruct (0 <=? a - b - 1) eqn:He.
    + apply Z.leb_le in He. unfold Qle. simpl. rewrite Z.mul_1_r.
      fold d.
      assert (Hp : 2 ^ a = 2 ^ (a - b - 1) * 2 ^ (b + 1))
        by (rewrite <- Z.pow_add_r by lia; f_equal; lia).
      assert (0 < 2 ^ (a - b - 1)) by (apply Z.pow_pos_nonneg; lia).
      nia.
    + apply Z.leb_gt in He.
      assert (Hp : 2 ^ (b + 1) = 2 ^ (- (a - b - 1)) * 2 ^ a)
        by (rewrite <- Z.pow_add_r by lia; f_equal; lia).
      assert (Hpos : 0 < 2 ^ (- (a - b - 1))) by (apply Z.pow_pos_nonneg; lia).
      set (P := 2 ^ (- (a - b - 1))) in *.
      assert (HP : (/ inject_Z P == 1 # Z.to_pos P)%Q).
      { unfold Qeq, Qinv, inject_Z. destruct P; simpl; try lia. }
      rewrite HP. unfold Qle. simpl. rewrite Z2Pos.id by lia. fold d. nia.
Qed.








Lemma rne_integer (m : Z) : rne (m # 1) = m.
Proof.
  destruct (rne_frac m 1) as [_ H]. cbv zeta in H.
  rewrite Z.div_1_r, Z.mod_1_r in H. destruct H as [H|[_ H]]; [exact H|lia].
Qed.

(** A safe integer is a binary64 number. *)
Lemma of_Z_exact (n : Z) : Z.abs n < 2 ^ 53 -> of_Z n = Some n.
Proof.
  intros Hb. unfold of_Z, round.
  destruct (Z.eq_dec n 0) as [->|Hn]; [reflexivity|].
  assert (Hq : ~ (inject_Z n == 0)%Q) by (unfold Qeq; simpl; lia).
  assert (Hq' : Qeq_bool (inject_Z n) 0 = false).
  { destruct (Qeq_bool _ 0) eqn:E; [|reflexivity]. apply Qeq_bool_iff in E. tauto. }
  rewrite Hq'. cbv zeta.
  pose proof (ilog2_le _ Hq) as Hle.
  set (e := ilog2 (inject_Z n)) in *.
  assert (He : e <= 52).
  { destruct (Z_le_gt_dec e 52) as [H|H]; [exact H|exfalso].
    unfold pow2 in Hle.
    destruct (0 <=? e) eqn:E; [|apply Z.leb_gt in E; lia].
    unfold Qle in Hle. simpl in Hle.
    assert (Hp : 2 ^ e = 2 ^ 53 * 2 ^ (e - 53))
      by (rewrite <- Z.pow_add_r by lia; f_equal; lia).
    assert (0 < 2 ^ (e - 53)) by (apply Z.pow_pos_nonneg; lia).
    nia. }
  set (E := Z.max e (-1022) - 52).
  assert (HE : E <= 0) by (unfold E; lia).
  assert (HP : 0 < 2 ^ (- E)) by (apply Z.pow_pos_nonneg; lia).
  assert (Hulp : (ulp (inject_Z n) == 1 # Z.to_pos (2 ^ (- E)))%Q).
  { unfold ulp. fold e. fold E. unfold pow2.
    destruct (0 <=? E) eqn:E0.
    - apply Z.leb_le in E0. replace E with 0 by lia. reflexivity.
    - unfold Qeq, Qinv, inject_Z. destruct (2 ^ (- E)); simpl; lia. }
  set (P := Z.to_pos (2 ^ (- E))) in *.
  assert (Hdiv : (inject_Z n / ulp (inject_Z n) == (n * Z.pos P) # 1)%Q).
  { rewrite Hulp. unfold Qeq, Qdiv, Qmult, Qinv, inject_Z. simpl. lia. }
  rewrite (rne_comp _ _ Hdiv), rne_integer.
  assert (Hr : (inject_Z (n * Z.pos P) * ulp (inject_Z n) == inject_Z n)%Q).
  { rewrite Hulp. unfold Qeq, Qmult, inject_Z. simpl. lia. }
  assert (Hfin : Qle_bool (pow2 1024)
                   (Qabs (inject_Z (n * Z.pos P) * ulp (inject_Z n))) = false).
  { destruct (Qle_bool _ _) eqn:E1; [|reflexivity]. exfalso.
    apply Qle_bool_iff in E1. rewrite Hr in E1.
    change (pow2 1024) with (inject_Z (2 ^ 53 * 2 ^ 971)) in E1.
    unfold Qle, Qabs, inject_Z in E1. simpl in E1.
    assert (0 < 2 ^ 971) by (apply Z.pow_pos_nonneg; lia). nia. }
  rewrite Hfin. cbn [fmap option_fmap option_map]. f_equal.
  rewrite (Qfloor_comp _ _ Hr). apply Qfloor_Z.
Qed.

End Binary64.

(** ** Rounding *)

Section Rounding.
Import Stats.


Lemma round_half_up_unique s c n m :
  round_half_up s c n -> round_half_up s c m -> n = m.
Proof. unfold round_half_up. intros [Hc Hn] [_ Hm]. nia. Qed.

Lemma or_zero_id x : or_zero x = x.
Proof. unfold or_zero. destruct (x =? 0) eqn:H; [apply Z.eqb_eq in H; lia|reflexivity]. Qed.

End Rounding.

(** ** Grouping by date *)

Section Grouping.
Import Stats.

Lemma on_date_app d l1 l2 : on_date d (l1 ++ l2) = on_date d l1 ++ on_date d l2.
Proof. apply List.filter_app. Qed.

Lemma sum_progress_app l1 l2 :
  sum_progress (l1 ++ l2) = sum_progress l1 + sum_progress l2.
Proof.
  unfold sum_progress. induction l1 as [|t l1 IH]; simpl; [reflexivity|].
  rewrite IH. lia.
Qed.


Lemma bump_keys d p acc k :
  In k (map fst (bump d p acc)) <-> k = d \/ In k (map fst acc).
Proof.
  induction acc as [|[k0 [c0 s0]] acc IH]; simpl.
  - intuition.
  - destruct (String.eqb_spec k0 d) as [->|Hne]; simpl; [intuition|].
    rewrite IH. intuition.
Qed.

Lemma bump_NoDup d p acc :
  List.NoDup (map fst acc) -> List.NoDup (map fst (bump d p acc)).
Proof.
  induction acc as [|[k0 [c0 s0]] acc IH]; simpl; intros Hnd.
  - repeat constructor. simpl. tauto.
  - apply List.NoDup_cons_iff in Hnd as [Hnotin Hnd].
    destruct (String.eqb_spec k0 d) as [->|Hne]; simpl.
    + apply List.NoDup_cons_iff. auto.
    + apply List.NoDup_cons_iff. split; [|auto].
      rewrite bump_keys. intros [->|H]; [congruence|auto].
Qed.

Lemma bump_In d p acc k c s :
  List.NoDup (map fst acc) ->
  In (k, (c, s)) (bump d p acc) ->
  (k <> d /\ In (k, (c, s)) acc)
  \/ (k = d /\ ((exists c0 s0, In (d, (c0, s0)) acc /\ c = c0 + 1 /\ s = s0 + p)
               \/ (~ In d (map fst acc) /\ c = 1 /\ s = p))).
Proof.
  induction acc as [|[k0 [c0 s0]] acc IH]; simpl; intros Hnd Hin.
  - destruct Hin as [Hin|[]]. injection Hin as <- <- <-. right. split; [reflexivity|].
    right. split; [tauto|]. split; reflexivity.
  - apply List.NoDup_cons_iff in Hnd as [Hnotin Hnd].
    destruct (String.eqb_spec k0 d) as [->|Hne]; simpl in Hin.
    + destruct Hin as [Hin|Hin].
      * injection Hin as <- <- <-. right. split; [reflexivity|]. left.
        exists c0, s0. auto.
      * left. split; [|auto]. intros ->. apply Hnotin.
        change d with (fst (d, (c, s))). apply in_map, Hin.
    + destruct Hin as [Hin|Hin].
      * injection Hin as <- <- <-. left. auto.
      * destruct (IH Hnd Hin) as [[Hk Hacc]|[-> [(c1 & s1 & Hacc & -> & ->)|(Hno & -> & ->)]]].
        -- left. auto.
        -- right. split; [reflexivity|]. left. exists c1, s1. auto.
        -- right. split; [reflexivity|]. right. split; [|auto].
           intros [H|H]; [congruence|auto].
Qed.

Lemma on_date_nil d l :
  (forall t, In t l -> date t <> d) -> on_date d l = [].
Proof.
  intros H. induction l as [|t l IH]; simpl; [reflexivity|].
  destruct (String.eqb_spec (date t) d) as [Heq|_].
  - exfalso. apply (H t); [left; reflexivity|exact Heq].
  - apply IH. intros x Hx. apply H. right. exact Hx.
Qed.

Lemma groups_step seen acc t :
  groups_of seen acc -> groups_of (seen ++ [t]) (bump (date t) (progress t) acc).
Proof.
  intros (Hnd & Hkeys & Hgroups). split; [|split].
  - apply bump_NoDup, Hnd.
  - intros x Hx. apply bump_keys. apply in_app_iff in Hx as [Hx|[<-|[]]]; auto.
  - intros d c s Hin. rewrite on_date_app.
    destruct (bump_In _ _ _ _ _ _ Hnd Hin)
      as [[Hk Hacc]|[-> [(c1 & s1 & Hacc & -> & ->)|(Hno & -> & ->)]]].
    + destruct (Hgroups _ _ _ Hacc) as (Hne & Hc & Hs).
      assert (Hd : on_date d [t] = []).
      { simpl. destruct (String.eqb_spec (date t) d); [congruence|reflexivity]. }
      rewrite Hd, app_nil_r. auto.
    + destruct (Hgroups _ _ _ Hacc) as (Hne & Hc & Hs).
      assert (Hd : on_date (date t) [t] = [t]) by (simpl; rewrite String.eqb_refl; reflexivity).
      rewrite Hd, sum_progress_app, length_app. simpl. subst c1 s1.
      split; [destruct (on_date (date t) seen); discriminate|]. split; lia.
    + assert (Hd : on_date (date t) [t] = [t]) by (simpl; rewrite String.eqb_refl; reflexivity).
      rewrite Hd, on_date_nil; [simpl; repeat split; [discriminate|lia]|].
      intros x Hx Hdx. apply Hno. rewrite <- Hdx. apply Hkeys, Hx.
Qed.

Lemma groups_fold (g : Task -> Z) rest :
  (forall t, g t = progress t) ->
  forall seen acc,
    groups_of seen acc ->
    groups_of (seen ++ rest) (fold_left (fun a t => bump (date t) (g t) a) rest acc).
Proof.
  intros Hg. induction rest as [|t rest IH]; simpl; intros seen acc Hinv.
  - rewrite app_nil_r. exact Hinv.
  - replace (seen ++ t :: rest) with ((seen ++ [t]) ++ rest)
      by (rewrite <- app_assoc; reflexivity).
    apply IH. rewrite Hg. apply groups_step, Hinv.
Qed.

Lemma groups_nil : groups_of [] [].
Proof. split; [constructor|]. split; intros; contradiction. Qed.

Lemma group_by_date_groups tasks : groups_of tasks (group_by_date tasks).
Proof.
  unfold group_by_date.
  apply (groups_fold (fun t => or_zero (progress t)) tasks
           (fun t => or_zero_id _) [] [] groups_nil).
Qed.





Lemma sum_abs_nonneg l : 0 <= sum_abs l.
Proof. induction l as [|t l IH]; simpl; lia. Qed.





(** Tasks within the schema's bounds have small sums. *)
Lemma bounded_sum_abs l : Forall bounded l -> sum_abs l <= 100 * Z.of_nat (length l).
Proof.
  induction 1 as [|t l [Hp _] _ IH]; simpl; [lia|].
  rewrite Z.abs_eq by lia. lia.
Qed.


End Grouping.

(** ** The rollups *)

Section Rollups.
Import Stats.

Lemma get_monthly_stats st user qy qm total avg daily :
  get_monthly st user qy qm = MonthlyStats total avg daily ->
  summarise (month_tasks st user (Number qy) (Number qm)) = MonthlyStats total avg daily.
Proof.
  unfold get_monthly. destruct (_ ++ _); [|discriminate].
  destruct (_ && _); [auto|discriminate].
Qed.




(** Integers below 2^53 are binary64 numbers, and are printed in full. *)
Lemma Number_exact (q : string) (n : Z) :
  Str.parse_int q = Some n -> Z.abs n < 2 ^ 53 ->
  Number (Some q) = n /\ printed_in_full (Some q) = true.
Proof.
  intros Hq Hn. unfold printed_in_full, Number, to_number. simpl.
  rewrite Hq. simpl. rewrite (of_Z_exact n Hn). simpl.
  split; [reflexivity|]. apply Z.leb_le. lia.
Qed.

End Rollups.







(** ** The calendar *)

Section Calendar.
Import JSDate.

Lemma forallb_range (f : Z -> bool) (lo len : nat) :
  forallb (fun n => f (Z.of_nat n)) (seq lo len) = true ->
  forall z, Z.of_nat lo <= z < Z.of_nat (lo + len) -> f z = true.
Proof.
  intros Hall z Hz. rewrite forallb_forall in Hall.
  specialize (Hall (Z.to_nat z)). rewrite Z2Nat.id in Hall by lia.
  apply Hall, in_seq. lia.
Qed.

(** The calendar repeats every 400 years, which are 146097 days. *)
Lemma DayFromYear_period y k : DayFromYear (y + 400 * k) = DayFromYear y + 146097 * k.
Proof. unfold DayFromYear. Z.div_mod_to_equations. lia. Qed.

Lemma InLeapYear_period y k : InLeapYear (y + 400 * k) = InLeapYear y.
Proof.
  unfold InLeapYear.
  replace ((y + 400 * k) mod 4) with (y mod 4) by (Z.div_mod_to_equations; lia).
  replace ((y + 400 * k) mod 100) with (y mod 100) by (Z.div_mod_to_equations; lia).
  replace ((y + 400 * k) mod 400) with (y mod 400) by (Z.div_mod_to_equations; lia).
  reflexivity.
Qed.

Lemma leap_year_period y k : leap_year (y + 400 * k) = leap_year y.
Proof.
  unfold leap_year.
  replace ((y + 400 * k) mod 4) with (y mod 4) by (Z.div_mod_to_equations; lia).
  replace ((y + 400 * k) mod 100) with (y mod 100) by (Z.div_mod_to_equations; lia).
  replace ((y + 400 * k) mod 400) with (y mod 400) by (Z.div_mod_to_equations; lia).
  reflexivity.
Qed.

Lemma MakeDay_period y k m d : MakeDay (y + 400 * k) m d = MakeDay y m d + 146097 * k.
Proof.
  unfold MakeDay. cbv zeta.
  replace (y + 400 * k + m / 12) with (y + m / 12 + 400 * k) by lia.
  rewrite DayFromYear_period, InLeapYear_period. lia.
Qed.

Lemma civil_period d k :
  snd (civil (d + 146097 * k)) = snd (civil d).
Proof.
  unfold civil. cbv zeta.
  replace (d + 146097 * k + 719468) with (d + 719468 + k * 146097) by lia.
  rewrite Z.div_add by lia.
  replace (d + 719468 + k * 146097 - ((d + 719468) / 146097 + k) * 146097)
    with (d + 719468 - (d + 719468) / 146097 * 146097) by lia.
  reflexivity.
Qed.

Lemma last_day_period y k m :
  last_day_of_month (y + 400 * k) m = last_day_of_month y m.
Proof. unfold last_day_of_month. rewrite leap_year_period. reflexivity. Qed.

(** Day 0 of the month after [m] is the last day of [m]: checked on one
    period of the calendar. *)
Lemma last_day_one_period :
  forallb (fun n =>
             forallb (fun k => snd (civil (MakeDay (Z.of_nat n) (Z.of_nat k) 0))
                               =? last_day_of_month (Z.of_nat n) (Z.of_nat k))
                     (seq 1 12))
          (seq 0 400) = true.
Proof. vm_compute. reflexivity. Qed.

Lemma getDate_day_zero y m :
  1 <= m <= 12 -> snd (civil (MakeDay y m 0)) = last_day_of_month y m.
Proof.
  intros Hm.
  assert (Hy : y = y mod 400 + 400 * (y / 400)) by (Z.div_mod_to_equations; lia).
  rewrite Hy, MakeDay_period, civil_period, last_day_period.
  pose proof (Z.mod_pos_bound y 400 ltac:(lia)) as Hb.
  pose proof (forallb_range
                (fun y0 => forallb (fun k => snd (civil (MakeDay y0 (Z.of_nat k) 0))
                                             =? last_day_of_month y0 (Z.of_nat k))
                                   (seq 1 12))
                0 400 last_day_one_period (y mod 400) ltac:(simpl; lia)) as Hrow.
  pose proof (forallb_range
                (fun k => snd (civil (MakeDay (y mod 400) k 0))
                          =? last_day_of_month (y mod 400) k)
                1 12 Hrow m ltac:(simpl; lia)) as Hcell.
  apply Z.eqb_eq, Hcell.
Qed.

(** Dates stay valid up to August of the year 275760. *)
Lemma day_zero_valid y m :
  1970 <= y -> 1 <= m <= 12 ->
  y < 275760 \/ (y = 275760 /\ m <= 8) ->
  valid_day (MakeDay y m 0) = true.
Proof.
  intros Hy Hm Hlim. unfold valid_day. apply Z.leb_le.
  assert (Hcases : m = 1 \/ m = 2 \/ m = 3 \/ m = 4 \/ m = 5 \/ m = 6 \/ m = 7
                   \/ m = 8 \/ m = 9 \/ m = 10 \/ m = 11 \/ m = 12) by lia.
  unfold MakeDay, DayFromYear. cbv zeta.
  destruct (InLeapYear _);
    repeat (destruct Hcases as [->|Hcases]; [simpl; Z.div_mod_to_equations; lia|]);
    subst m; simpl; Z.div_mod_to_equations; lia.
Qed.

Lemma getDate_last_day y m :
  1970 <= y -> 1 <= m <= 12 ->
  y < 275760 \/ (y = 275760 /\ m <= 8) ->
  getDate (make y m 0) = Some (last_day_of_month y m).
Proof.
  intros Hy Hm Hlim. unfold make, getDate.
  destruct ((0 <=? y) && (y <=? 99)) eqn:Hc.
  { apply andb_true_iff in Hc as [_ Hc]. apply Z.leb_le in Hc. lia. }
  rewrite (day_zero_valid y m Hy Hm Hlim).
  change (Some (snd (civil (MakeDay y m 0))) = Some (last_day_of_month y m)).
  rewrite getDate_day_zero by exact Hm. reflexivity.
Qed.

Lemma last_day_bounds y m : 28 <= last_day_of_month y m <= 31.
Proof.
  unfold last_day_of_month.
  destruct (m =? 2); [destruct (leap_year y); lia|].
  destruct ((m =? 4) || (m =? 6) || (m =? 9) || (m =? 11)); lia.
Qed.

(** [padStart(2, '0')] pads a day or month number to two digits. *)
Lemma pad_two_digits_table :
  forallb (fun n => String.eqb (Stats.pad (Some (Z.of_nat n))) (two_digits (Z.of_nat n)))
          (seq 1 31) = true.
Proof. vm_compute. reflexivity. Qed.

Lemma pad_two_digits n : 1 <= n <= 31 -> Stats.pad (Some n) = two_digits n.
Proof.
  intros Hn. apply String.eqb_eq.
  apply (forallb_range (fun k => String.eqb (Stats.pad (Some k)) (two_digits k))
           1 31 pad_two_digits_table n).
  simpl. lia.
Qed.

Lemma month_start_eq y m : 1 <= m <= 12 -> Stats.month_start y m = day_string y m 1.
Proof.
  intros Hm. unfold Stats.month_start, day_string.
  rewrite pad_two_digits by lia. reflexivity.
Qed.

Lemma month_end_eq y m :
  1970 <= y -> 1 <= m <= 12 ->
  y < 275760 \/ (y = 275760 /\ m <= 8) ->
  Stats.month_end y m = day_string y m (last_day_of_month y m).
Proof.
  intros Hy Hm Hlim. unfold Stats.month_end, day_string.
  rewrite (getDate_last_day y m Hy Hm Hlim).
  pose proof (last_day_bounds y m).
  rewrite !pad_two_digits by lia. reflexivity.
Qed.

End Calendar.

(** C7.  The month window is wrong for years the [Date] object cannot
    hold.  The route accepts every year from 1970 on.  For February 275761
    the date [new Date(275761, 2, 0)] is invalid, [getDate()] is [NaN], and
    the window ends at the string "275761-02-NaN" where the month's last
    day gives "275761-02-28": the rollup counts a task dated
    "275761-02-30", which lies after the month's last day. *)
Theorem month_window_beyond_date_range :
  1970 <= 275761
  /\ Stats.month_end 275761 2 = "275761-02-NaN"
  /\ day_string 275761 2 (last_day_of_month 275761 2) = "275761-02-28"
  /\ map date (docs Ex.db_far) = ["275761-02-30"]
  /\ map userId (docs Ex.db_far) = [Ex.alice]
  /\ List.filter (in_month Ex.alice 275761 2) (docs Ex.db_far) = []
  /\ Stats.month_tasks Ex.db_far Ex.alice 275761 2 = docs Ex.db_far
  /\ Stats.get_monthly Ex.db_far Ex.alice (Some "275761") (Some "2")
     = MonthlyStats 1 (Some 0)
         [{| ds_date := "275761-02-30"; ds_count := 1; ds_average := Some 0 |}].
Proof. repeat split; try lia; vm_compute; reflexivity. Qed.

(** X26.  The month window within the range of [Date], on a host whose
    time zone keeps one offset, as UTC does.  For every year from 1970 on and month from 1 to
    12, up to August of the year 275760 (the last month whose end the
    [Date] object can hold): [getDate()] of day 0 of the next month is the
    last calendar day of the month, 29 for February in leap years; and the
    monthly route aggregates exactly the caller's tasks whose date string
    lies, in lexicographic order, between [year-MM-01] and
    [year-MM-lastDay] inclusive, months and days padded to two digits. *)
Theorem month_window
    (st : DB) (user year month : Z) (qyear qmonth : string) :
  Str.parse_int qyear = Some year ->
  Str.parse_int qmonth = Some month ->
  1970 <= year ->
  1 <= month <= 12 ->
  year < 275760 \/ (year = 275760 /\ month <= 8) ->
  JSDate.getDate (JSDate.make year month 0) = Some (last_day_of_month year month)
  /\ Stats.month_tasks st user year month
     = List.filter (in_month user year month) (docs st)
  /\ Stats.get_monthly st user (Some qyear) (Some qmonth)
     = Stats.summarise (List.filter (in_month user year month) (docs st)).
Proof.
  intros Hqy Hqm Hy Hm Hlim.
  assert (Htasks : Stats.month_tasks st user year month
                   = List.filter (in_month user year month) (docs st)).
  { unfold Stats.month_tasks, in_month.
    rewrite (month_start_eq year month Hm), (month_end_eq year month Hy Hm Hlim).
    reflexivity. }
  split; [apply getDate_last_day; assumption|]. split; [exact Htasks|].
  destruct (Number_exact qyear year Hqy ltac:(lia)) as [Hny Hpy].
  destruct (Number_exact qmonth month Hqm ltac:(lia)) as [Hnm Hpm].
  unfold Stats.get_monthly, check, isIntMin, isInt. simpl.
  rewrite Hqy, Hqm. simpl.
  replace (1970 <=? year) with true by (symmetry; apply Z.leb_le; lia).
  replace (1 <=? month) with true by (symmetry; apply Z.leb_le; lia).
  replace (month <=? 12) with true by (symmetry; apply Z.leb_le; lia).
  simpl. rewrite Hpy, Hpm, Hny, Hnm, Htasks. reflexivity.
Qed.

Lemma month_window_witness :
  JSDate.getDate (JSDate.make 2024 2 0) = Some 29
  /\ Stats.get_monthly Ex.db2 Ex.alice (Some "2024") (Some "05")
     = Stats.summarise (List.filter (in_month Ex.alice 2024 5) (docs Ex.db2)).
Proof.
  split.
  - apply (month_window empty_db 0 2024 2 "2024" "2"); try reflexivity; lia.
  - apply (month_window Ex.db2 Ex.alice 2024 5 "2024" "05"); try reflexivity; lia.
Defined.

(** * Further properties of the routes *)

(** ** The order of strings and of listings *)

Section Order.
Import Schema.

Lemma ascii_compare_lt_trans a b c :
  (a ?= b)%char = Lt -> (b ?= c)%char = Lt -> (a ?= c)%char = Lt.
Proof.
  unfold Ascii.compare. rewrite !N.compare_lt_iff. intros H1 H2.
  exact (N.lt_trans _ _ _ H1 H2).
Qed.

Lemma string_compare_lt_trans a :
  forall b c, (a ?= b)%string = Lt -> (b ?= c)%string = Lt -> (a ?= c)%string = Lt.
Proof.
  induction a as [|x a IH]; intros [|y b] [|z c]; simpl; try discriminate; auto.
  destruct (x ?= y)%char eqn:Hxy; try discriminate;
    destruct (y ?= z)%char eqn:Hyz; try discriminate; intros H1 H2.
  - apply Ascii.compare_eq_iff in Hxy, Hyz. subst.
    assert (Hzz : (z ?= z)%char = Eq) by (unfold Ascii.compare; apply N.compare_refl).
    rewrite Hzz. eapply IH; eassumption.
  - apply Ascii.compare_eq_iff in Hxy. subst. rewrite Hyz. reflexivity.
  - apply Ascii.compare_eq_iff in Hyz. subst. rewrite Hxy. reflexivity.
  - rewrite (ascii_compare_lt_trans _ _ _ Hxy Hyz). reflexivity.
Qed.

Lemma string_leb_cases a b :
  String.leb a b = true <-> (a ?= b)%string = Lt \/ a = b.
Proof.
  unfold String.leb. destruct (a ?= b)%string eqn:H.
  - apply String.compare_eq_iff in H. tauto.
  - tauto.
  - split; [discriminate|]. intros [H1| ->]; [discriminate|].
    assert (Hr : String.leb b b = true) by (destruct (String.leb_total b b); assumption).
    unfold String.leb in Hr. rewrite H in Hr. discriminate.
Qed.

Lemma string_leb_refl a : String.leb a a = true.
Proof. apply string_leb_cases. auto. Qed.

Lemma string_leb_trans a b c :
  String.leb a b = true -> String.leb b c = true -> String.leb a c = true.
Proof.
  rewrite !string_leb_cases. intros [H1| ->] [H2| ->]; auto.
  left. eapply string_compare_lt_trans; eassumption.
Qed.

Lemma sort_leb_total a b : sort_leb a b = true \/ sort_leb b a = true.
Proof.
  unfold sort_leb. rewrite (String.eqb_sym (date b) (date a)).
  destruct (String.eqb (date a) (date b)).
  - rewrite !Z.leb_le. lia.
  - apply String.leb_total.
Qed.

Lemma sort_leb_trans a b c :
  sort_leb a b = true -> sort_leb b c = true -> sort_leb a c = true.
Proof.
  unfold sort_leb.
  destruct (String.eqb_spec (date a) (date b)) as [Hab|Hab];
    destruct (String.eqb_spec (date b) (date c)) as [Hbc|Hbc];
    destruct (String.eqb_spec (date a) (date c)) as [Hac|Hac];
    intros H1 H2; try congruence.
  - apply Z.leb_le. apply Z.leb_le in H1, H2. lia.
  - exfalso. rewrite <- Hac in H2. apply Hab. apply String.leb_antisym; assumption.
  - eapply string_leb_trans; eassumption.
Qed.

Lemma sort_le_total : Total sort_le.
Proof.
  intros a b. unfold sort_le.
  destruct (sort_leb_total a b) as [H|H]; rewrite H; simpl; auto.
Qed.

Lemma sort_le_trans : Transitive sort_le.
Proof.
  intros a b c. unfold sort_le. rewrite !Is_true_true. apply sort_leb_trans.
Qed.

Lemma sorted_sorted l : StronglySorted sort_le (sorted l).
Proof. unfold sorted. apply StronglySorted_merge_sort; [apply sort_le_trans|apply sort_le_total]. Qed.

Lemma sorted_perm l : Permutation (sorted l) l.
Proof. unfold sorted. apply (merge_sort_Permutation sort_le l). Qed.

Lemma get_tasks_eq st user q :
  Tasks.get_tasks st user q = TaskList (sorted (List.filter (listed user q) (docs st))).
Proof.
  unfold Tasks.get_tasks. destruct q as [d|]; reflexivity.
Qed.

Lemma get_range_eq st user lo hi :
  Tasks.get_range st user (Some lo) (Some hi)
  = TaskList (sorted (List.filter (in_range_of user lo hi) (docs st))).
Proof. reflexivity. Qed.

End Order.

(** ** Listings and range queries *)

Section Listings.
Import Schema.

Lemma sort_le_lex a b :
  sort_le a b <->
  (date a ?= date b)%string = Lt \/ (date a = date b /\ createTime a <= createTime b).
Proof.
  unfold sort_le. rewrite Is_true_true. unfold sort_leb.
  destruct (String.eqb_spec (date a) (date b)) as [Heq|Hne].
  - rewrite Z.leb_le. split; [auto|]. intros [Hlt|[_ H]]; [|exact H].
    rewrite Heq in Hlt.
    pose proof (String.compare_antisym (date b) (date b)) as Hanti.
    rewrite Hlt in Hanti. discriminate.
  - rewrite string_leb_cases. tauto.
Qed.

Lemma filter_all_false {A} (f : A -> bool) l :
  (forall x, In x l -> f x = false) -> List.filter f l = [].
Proof.
  intros H. induction l as [|x l IH]; simpl; [reflexivity|].
  rewrite (H x) by (left; reflexivity). apply IH. intros y Hy. apply H. right. exact Hy.
Qed.

End Listings.

(** X1.  Given a date parameter that is absent or a single string, the
    listing route answers with a list: the caller's tasks (those of the
    given date, when a non-empty date is given), each as often as it is
    stored, in ascending order of date and, within a date, of creation
    time. *)
Theorem listing_sorted_and_complete (st : DB) (user : Z) (qdate : option string) :
  exists l,
    Tasks.get_tasks st user qdate = TaskList l
    /\ Permutation l (List.filter (listed user qdate) (docs st))
    /\ StronglySorted Schema.sort_le l
    /\ forall a b,
         Schema.sort_le a b <->
         (date a ?= date b)%string = Lt
         \/ (date a = date b /\ createTime a <= createTime b).
Proof.
  eexists. split; [apply get_tasks_eq|]. split; [apply sorted_perm|].
  split; [apply sorted_sorted|]. apply sort_le_lex.
Qed.

(** X2.  The range route, given both bounds, answers with the caller's
    tasks whose date lies between them in string order, bounds included,
    each as often as it is stored, sorted by date and then creation time;
    with a bound missing it answers with a validation error. *)
Theorem range_sorted_and_complete (st : DB) (user : Z) (lo hi : string) :
  (exists l,
      Tasks.get_range st user (Some lo) (Some hi) = TaskList l
      /\ Permutation l (List.filter (in_range_of user lo hi) (docs st))
      /\ StronglySorted Schema.sort_le l)
  /\ (exists errs, Tasks.get_range st user None (Some hi) = BadRequest errs
                   /\ In {| path := "start"; msg := "start 必填" |} errs)
  /\ (exists errs, Tasks.get_range st user (Some lo) None = BadRequest errs
                   /\ In {| path := "end"; msg := "end 必填" |} errs).
Proof.
  split; [|split].
  - eexists. split; [apply get_range_eq|]. split; [apply sorted_perm|apply sorted_sorted].
  - eexists. split; [reflexivity|]. left. reflexivity.
  - eexists. split; [reflexivity|]. left. reflexivity.
Qed.

(** X3.  A range whose lower bound comes after its upper bound in string
    order selects nothing. *)
Theorem range_inverted_is_empty (st : DB) (user : Z) (lo hi : string) :
  String.leb lo hi = false ->
  Tasks.get_range st user (Some lo) (Some hi) = TaskList [].
Proof.
  intros Hinv. rewrite get_range_eq. rewrite filter_all_false; [reflexivity|].
  intros t _. unfold in_range_of.
  destruct (String.leb lo (date t)) eqn:H1;
    [|rewrite andb_false_r; reflexivity].
  destruct (String.leb (date t) hi) eqn:H2; [|apply andb_false_r].
  rewrite (string_leb_trans _ _ _ H1 H2) in Hinv. discriminate.
Qed.

Lemma range_inverted_is_empty_witness :
  Tasks.get_range Ex.db2 Ex.alice (Some "2024-05-31") (Some "2024-05-01") = TaskList [].
Proof. apply range_inverted_is_empty. reflexivity. Defined.

Lemma range_of_one_day (st : DB) (user : Z) (d : string) :
  d <> "" ->
  Tasks.get_range st user (Some d) (Some d) = Tasks.get_tasks st user (Some d).
Proof.
  intros Hd. rewrite get_range_eq, get_tasks_eq. f_equal. f_equal.
  apply filter_ext. intros t. unfold in_range_of, listed.
  destruct d as [|c d]; [congruence|]. simpl String.length. simpl Nat.eqb.
  rewrite <- andb_assoc. f_equal.
  destruct (String.eqb_spec (date t) (String c d)) as [->|Hne].
  - rewrite string_leb_refl. reflexivity.
  - destruct (String.leb (String c d) (date t)) eqn:H1; [|reflexivity].
    destruct (String.leb (date t) (String c d)) eqn:H2; [|reflexivity].
    exfalso. apply Hne. apply String.leb_antisym; assumption.
Qed.

(** X4.  A range that starts and ends on the same non-empty date selects
    the tasks the listing of that date selects, each as often. *)
Theorem range_of_one_day_is_listing (st : DB) (user : Z) (d : string) :
  d <> "" ->
  exists l1 l2,
    Tasks.get_range st user (Some d) (Some d) = TaskList l1
    /\ Tasks.get_tasks st user (Some d) = TaskList l2
    /\ Permutation l1 l2.
Proof.
  intros Hd. rewrite (range_of_one_day st user d Hd), get_tasks_eq.
  eexists _, _. split; [reflexivity|]. split; reflexivity.
Qed.

Lemma range_of_one_day_is_listing_witness :
  exists l1 l2,
    Tasks.get_range Ex.db2 Ex.alice (Some "2024-05-01") (Some "2024-05-01") = TaskList l1
    /\ Tasks.get_tasks Ex.db2 Ex.alice (Some "2024-05-01") = TaskList l2
    /\ Permutation l1 l2.
Proof. apply range_of_one_day_is_listing. discriminate. Defined.

(** ** Creating, updating and deleting *)

Section Mutations.
Import Schema Tasks.

(** A member that passed [isInt] with bounds a double holds exactly casts
    to the integer it denotes. *)
Lemma isInt_castNumber lo hi (v : jsval) :
  - 2 ^ 53 <= lo -> hi <= 2 ^ 53 ->
  isInt lo hi (Some v) = true ->
  exists z, lo <= z <= hi /\ int_value (Some v) = Some z
            /\ at_scalar castNumber v = Ok z.
Proof.
  intros Hlo Hhi. unfold isInt.
  destruct (int_value (Some v)) as [z|] eqn:Hv; [|discriminate].
  intros Hr. apply andb_true_iff in Hr as [H1 H2]. apply Z.leb_le in H1, H2.
  exists z. split; [lia|]. split; [reflexivity|].
  destruct v as [[| |n|s]|o]; simpl in Hv; try discriminate.
  - injection Hv as ->. reflexivity.
  - simpl. rewrite Hv.
    destruct (Z.abs z <=? 2 ^ 53) eqn:Hb; [reflexivity|].
    apply Z.leb_gt in Hb. lia.
Qed.

Lemma isString_member (v : option jsval) :
  isString v = true -> exists s, v = Some (JScalar (JStr s)).
Proof. destruct v as [[[| | |s]|]|]; simpl; try discriminate. eauto. Qed.

Lemma optional_isString_member (v : option jsval) p m :
  optional v (check p (isString v) m) = [] ->
  v = None \/ exists s, v = Some (JScalar (JStr s)).
Proof.
  intros H. apply optional_check_nil in H as [H|H]; [auto|].
  right. apply isString_member, H.
Qed.

Lemma validate_post_nil body :
  validate_post body = [] ->
  (exists d, body !! "date" = Some (JScalar (JStr d)))
  /\ (exists t, body !! "title" = Some (JScalar (JStr t)) /\ t <> "")
  /\ (body !! "progress" = None \/ isInt 0 100 (body !! "progress") = true)
  /\ (body !! "category" = None \/ exists c, body !! "category" = Some (JScalar (JStr c)))
  /\ (body !! "priority" = None \/ isInt 1 3 (body !! "priority") = true).
Proof.
  unfold validate_post. intros H.
  repeat match type of H with
         | _ ++ _ = [] => apply app_eq_nil in H as [? H]
         end.
  repeat match goal with
         | E : optional _ (check _ (isString _) _) = [] |- _ =>
             apply optional_isString_member in E
         | E : optional _ (check _ _ _) = [] |- _ => apply optional_check_nil in E
         | E : check _ _ _ = [] |- _ => apply check_nil in E
         end.
  match goal with
  | E : isString (body !! "date") = true |- _ => apply isString_member in E as [d Hd]
  end.
  match goal with
  | E : isString (body !! "title") = true |- _ => apply isString_member in E as [t Ht]
  end.
  split; [eauto|]. split; [|auto].
  exists t. split; [exact Ht|]. intros ->.
  match goal with
  | E : notEmpty (body !! "title") = true |- _ => rewrite Ht in E; discriminate E
  end.
Qed.

(** The number a validated, optional member gives, with its default. *)
Lemma optional_number lo hi dflt (v : option jsval) :
  - 2 ^ 53 <= lo -> hi <= 2 ^ 53 -> lo <= dflt <= hi ->
  v = None \/ isInt lo hi v = true ->
  at_scalar castNumber (default (JScalar (JNum dflt)) v)
  = Ok (default dflt (int_value v))
  /\ lo <= default dflt (int_value v) <= hi.
Proof.
  intros Hlo Hhi Hd [->|Hv]; [simpl; auto|].
  destruct v as [x|]; [|discriminate].
  destruct (isInt_castNumber lo hi x Hlo Hhi Hv) as (z & Hz & Hiv & Hc).
  rewrite Hiv. simpl. auto.
Qed.

Lemma replace_first_split P t' l t :
  List.find P l = Some t ->
  exists l1 l2, l = l1 ++ t :: l2 /\ replace_first P t' l = l1 ++ t' :: l2.
Proof.
  induction l as [|a l IH]; simpl; [discriminate|].
  destruct (P a) eqn:Ha.
  - intros H. injection H as ->. exists [], l. auto.
  - intros H. destruct (IH H) as (l1 & l2 & -> & ->).
    exists (a :: l1), l2. auto.
Qed.

Lemma remove_first_split P l t :
  List.find P l = Some t ->
  exists l1 l2, l = l1 ++ t :: l2 /\ remove_first P l = l1 ++ l2.
Proof.
  induction l as [|a l IH]; simpl; [discriminate|].
  destruct (P a) eqn:Ha.
  - intros H. injection H as ->. exists [], l. auto.
  - intros H. destruct (IH H) as (l1 & l2 & -> & ->).
    exists (a :: l1), l2. auto.
Qed.

Lemma run_bounded rs :
  Forall plain_update rs ->
  forall st, Forall bounded (docs st) -> Forall bounded (docs (run st rs)).
Proof.
  induction 1 as [|r rs Hr _ IH]; simpl; intros st Hb; [exact Hb|].
  apply IH, step_bounded; assumption.
Qed.

Lemma validate_put_members id body :
  validate_put id body = [] ->
  (body !! "date" = None \/ exists s, body !! "date" = Some (JScalar (JStr s)))
  /\ (body !! "title" = None \/ exists s, body !! "title" = Some (JScalar (JStr s)))
  /\ (body !! "category" = None
      \/ exists s, body !! "category" = Some (JScalar (JStr s))).
Proof.
  unfold validate_put. intros H.
  repeat match type of H with
         | _ ++ _ = [] => apply app_eq_nil in H as [? H]
         end.
  repeat match goal with
         | E : optional _ (check _ (isString _) _) = [] |- _ =>
             apply optional_isString_member in E
         end.
  auto.
Qed.

End Mutations.

(** X5.  A create whose body has no array among its members and passes
    the route's checks has a string date and a non-empty string title.  It stores a task exactly when the date
    and the trimmed title are non-empty, and answers 500 without storing
    anything otherwise.  The stored task has the date as given, the title
    and category trimmed, progress, category and priority defaulting to 0,
    "general" and 1, the caller as owner, a fresh id, and the two clock
    readings as timestamps. *)
Theorem post_creates_with_defaults
    (st : DB) (user : Z) (body : Body) (t_new t_save : Z) :
  Tasks.validate_post body = [] ->
  exists d t,
    body !! "date" = Some (JScalar (JStr d))
    /\ body !! "title" = Some (JScalar (JStr t))
    /\ t <> ""
    /\ Tasks.post_task st user body t_new t_save
       = if Schema.required d && Schema.required (Str.trim t) then
           let task :=
             {| _id := next_oid st; userId := user; date := d;
                title := Str.trim t;
                progress := default 0 (int_value (body !! "progress"));
                category :=
                  Str.trim (default "general" (string_member (body !! "category")));
                priority := default 1 (int_value (body !! "priority"));
                createTime := t_new; updateTime := t_save |} in
           (Created task, Schema.insert task st)
         else (ServerError "创建任务失败", st).
Proof.
  intros Hv.
  pose proof (validate_post_nil body Hv) as ((d & Hd) & (t & Ht & Hne) & Hp & Hc & Hr).
  exists d, t. split; [exact Hd|]. split; [exact Ht|]. split; [exact Hne|].
  destruct (optional_number 0 100 0 (body !! "progress")
              ltac:(lia) ltac:(lia) ltac:(lia) Hp) as [Hcp Hrp].
  destruct (optional_number 1 3 1 (body !! "priority")
              ltac:(lia) ltac:(lia) ltac:(lia) Hr) as [Hcr Hrr].
  assert (Hcc : omap Str.trim
                  (Schema.at_scalar Schema.castString
                     (default (JScalar (JStr "general")) (body !! "category")))
                = Ok (Str.trim (default "general" (string_member (body !! "category"))))).
  { destruct Hc as [->|[c ->]]; reflexivity. }
  unfold Tasks.post_task. rewrite Hv. unfold Schema.create.
  rewrite Hd, Ht. cbn [Schema.at_scalar Schema.castString obind omap].
  rewrite Hcp. cbn [obind]. rewrite Hcc. cbn [obind].
  rewrite Hcr. cbn [obind].
  unfold Schema.in_range.
  replace (0 <=? default 0 (int_value (body !! "progress"))) with true
    by (symmetry; apply Z.leb_le; lia).
  replace (default 0 (int_value (body !! "progress")) <=? 100) with true
    by (symmetry; apply Z.leb_le; lia).
  replace (1 <=? default 1 (int_value (body !! "priority"))) with true
    by (symmetry; apply Z.leb_le; lia).
  replace (default 1 (int_value (body !! "priority")) <=? 3) with true
    by (symmetry; apply Z.leb_le; lia).
  rewrite !andb_true_r.
  destruct (Schema.required d && Schema.required (Str.trim t)); reflexivity.
Qed.

Lemma post_creates_with_defaults_witness :
  Tasks.post_task empty_db Ex.alice Ex.weekly 1000 1001
  = (Created Ex.alice_task, Schema.insert Ex.alice_task empty_db).
Proof.
  destruct (post_creates_with_defaults empty_db Ex.alice Ex.weekly 1000 1001)
    as (d & t & Hd & Ht & _ & Heq); [reflexivity|].
  vm_compute in Hd, Ht. injection Hd as <-. injection Ht as <-.
  rewrite Heq. vm_compute. reflexivity.
Defined.

(** X6.  A created task is listed: after a successful create, the owner's
    listing, whole or for the task's date, is the listing before the
    create with the new task added, and the listings of every other user
    are what they were. *)
Theorem created_task_is_listed
    (st : DB) (user : Z) (body : Body) (t_new t_save : Z) (task : Task) (st' : DB) :
  Tasks.post_task st user body t_new t_save = (Created task, st') ->
  (forall q, q = None \/ q = Some (date task) ->
     exists l l',
       Tasks.get_tasks st user q = TaskList l
       /\ Tasks.get_tasks st' user q = TaskList l'
       /\ In task l'
       /\ Permutation l' (task :: l))
  /\ (forall other q, other <> user ->
        Tasks.get_tasks st' other q = Tasks.get_tasks st other q).
Proof.
  intros Hpost.
  pose proof (post_task_created _ _ _ _ _ _ _ Hpost) as (_ & Hc & ->).
  apply create_inv in Hc as (dv & tv & _ & _ & _ & Hu & _ & _ & _ & _ & _
                              & _ & _ & _ & Hreq & _).
  split.
  - intros q Hq. rewrite !get_tasks_eq. eexists _, _.
    split; [reflexivity|]. split; [reflexivity|].
    assert (Hl : listed user q task = true).
    { unfold listed. rewrite Hu, Z.eqb_refl. simpl.
      destruct Hq as [->| ->]; [reflexivity|].
      unfold Schema.required in Hreq.
      destruct (String.length (date task) =? 0)%nat; [reflexivity|].
      apply String.eqb_refl. }
    assert (Hperm : Permutation
                      (Schema.sorted (List.filter (listed user q)
                                        (docs (Schema.insert task st))))
                      (task :: Schema.sorted (List.filter (listed user q) (docs st)))).
    { rewrite sorted_perm. simpl. rewrite List.filter_app. simpl. rewrite Hl.
      rewrite <- Permutation_cons_append. constructor.
      symmetry. apply sorted_perm. }
    split; [|exact Hperm].
    eapply Permutation_in; [symmetry; exact Hperm|]. left. reflexivity.
  - intros other q Hne. rewrite !get_tasks_eq. simpl.
    rewrite List.filter_app. simpl.
    assert (Hl : listed other q task = false).
    { unfold listed. rewrite Hu.
      destruct (user =? other) eqn:He; [apply Z.eqb_eq in He; congruence|reflexivity]. }
    rewrite Hl, app_nil_r. reflexivity.
Qed.

Lemma created_task_is_listed_witness :
  exists l',
    Tasks.get_tasks Ex.db1 Ex.alice (Some "2024-05-01") = TaskList l'
    /\ In Ex.alice_task l'.
Proof.
  destruct (created_task_is_listed empty_db Ex.alice Ex.weekly 1000 1001
              Ex.alice_task Ex.db1) as [Hown _]; [reflexivity|].
  destruct (Hown (Some "2024-05-01")) as (l & l' & _ & Hl' & Hin & _);
    [right; reflexivity|].
  exists l'. split; [exact Hl'|exact Hin].
Defined.

(** X7.  A request that is not answered with success writes nothing: unless
    the response is the created task, the updated task or the delete
    confirmation, the store after the request is the store before it. *)
Theorem failed_request_writes_nothing (st : DB) (r : request) :
  match fst (step st r) with
  | Created _ | Updated _ | Deleted => True
  | _ => snd (step st r) = st
  end.
Proof.
  destruct r as [user body tn ts|user id body now|user id body now|user id]; simpl.
  - unfold Tasks.post_task. destruct (Tasks.validate_post body); [|reflexivity].
    destruct (Schema.create _ _ _ _ _ _ _ _ _); simpl; auto.
  - unfold Tasks.put_task. destruct (Tasks.validate_put id body); [|reflexivity].
    destruct (Schema.findOneAndUpdate st id user body now) as [[o st']| |] eqn:Hf;
      [|reflexivity|reflexivity].
    destruct o; simpl; [exact I|].
    apply findOneAndUpdate_inv in Hf as (oid & u & _ & _ & Hf).
    destruct (List.find _ _); [destruct Hf as [_ Hf]; discriminate|].
    injection Hf as ->. reflexivity.
  - unfold Tasks.put_progress. destruct (Tasks.validate_progress id body); [|reflexivity].
    match goal with
    | |- context [Schema.findOneAndUpdate st id user ?upd now] =>
        destruct (Schema.findOneAndUpdate st id user upd now) as [[o st']| |] eqn:Hf;
          [|reflexivity|reflexivity]
    end.
    destruct o; simpl; [exact I|].
    apply findOneAndUpdate_inv in Hf as (oid & u & _ & _ & Hf).
    destruct (List.find _ _); [destruct Hf as [_ Hf]; discriminate|].
    injection Hf as ->. reflexivity.
  - unfold Tasks.delete_task. destruct (Tasks.validate_delete id); [|reflexivity].
    unfold Schema.findOneAndDelete.
    destruct (Schema.castObjectId (JStr id)); simpl; try reflexivity.
    destruct (List.find _ _); simpl; [exact I|reflexivity].
Qed.

(** X8.  A successful delete takes out one task, the caller's task with the
    given id, and leaves every other task in place and in order; in a
    store the routes can produce no task with that id remains. *)
Theorem delete_removes_one_task (st : DB) (user : Z) (id : string) (st' : DB) :
  reachable st ->
  Tasks.delete_task st user id = (Deleted, st') ->
  exists t l1 l2,
    docs st = l1 ++ t :: l2
    /\ docs st' = l1 ++ l2
    /\ Schema.castObjectId (JStr id) = Ok (_id t)
    /\ userId t = user
    /\ (forall x, In x (docs st') -> _id x <> _id t)
    /\ next_oid st' = next_oid st.
Proof.
  intros Hreach Hdel.
  destruct (reachable_unique_ids st Hreach) as [Hnd _].
  assert (Hid : exists oid, Schema.castObjectId (JStr id) = Ok oid).
  { unfold Tasks.delete_task, Tasks.validate_delete in Hdel.
    destruct (isMongoId id) eqn:Hm; [|discriminate].
    destruct (isMongoId_cast _ Hm) as [H|Hfail]; [exact H|].
    unfold Schema.findOneAndDelete in Hdel. rewrite Hfail in Hdel. discriminate. }
  destruct Hid as [oid Hid]. rewrite (delete_task_eq st user id oid Hid) in Hdel.
  destruct (List.find _ _) as [t|] eqn:Hf; [|discriminate].
  injection Hdel as <-. simpl.
  destruct (remove_first_split _ _ _ Hf) as (l1 & l2 & Hl & Hr).
  pose proof (find_some_match st oid user t Hf) as (_ & Ht & Hu).
  exists t, l1, l2. rewrite Ht. repeat split; auto.
  intros x Hx. eapply (remove_first_gone oid user (docs st) x); eauto. congruence.
Qed.

Lemma delete_removes_one_task_witness :
  exists t l1 l2,
    docs Ex.db2 = l1 ++ t :: l2
    /\ docs (snd (Tasks.delete_task Ex.db2 Ex.bob "000000000000000000000001"))
       = l1 ++ l2
    /\ userId t = Ex.bob.
Proof.
  destruct (delete_removes_one_task Ex.db2 Ex.bob "000000000000000000000001"
              (snd (Tasks.delete_task Ex.db2 Ex.bob "000000000000000000000001"))
              db2_reachable)
    as (t & l1 & l2 & H1 & H2 & _ & H3 & _); [vm_compute; reflexivity|].
  exists t, l1, l2. auto.
Defined.

(** X9.  Starting from a store whose tasks are within the schema's bounds,
    a run of requests ends in a store whose tasks all have progress in
    [0,100] and priority in {1,2,3}, provided that no request of the run is
    a partial update carrying [$set] and that the run stays within what the
    model covers: no request is answered [OutOfScope], as an update with
    another operator, a nested value or a dotted path is. *)
Theorem bounds_kept_without_set_operator (st : DB) (rs : list request) :
  Forall plain_update rs ->
  covered st rs ->
  Forall bounded (docs st) ->
  Forall bounded (docs (run st rs)).
Proof. intros Hrs _ Hb. apply run_bounded; assumption. Qed.

(** A run of three requests that is covered; an update with [$inc] is
    not. *)
Lemma bounds_kept_without_set_operator_witness :
  Forall bounded
    (docs (run empty_db
             [Post Ex.alice Ex.weekly 1000 1001;
              PutProgress Ex.alice Ex.id0 {[ "progress" := Ex.num 50 ]} 2000;
              Put Ex.alice Ex.id0 {[ "priority" := Ex.num 3 ]} 3000]))
  /\ ~ covered Ex.db1 [Put Ex.alice Ex.id0 Ex.increment 2000].
Proof.
  split.
  - apply bounds_kept_without_set_operator.
    + repeat constructor.
    + cbn [covered]. repeat split; vm_compute; discriminate.
    + constructor.
  - cbn [covered]. intros [H _]. apply H. vm_compute. reflexivity.
Defined.

(** ** Partial updates on the validated members *)

Section PlainUpdates.
Import Schema Tasks.

Lemma cast_path_absent {A} (cast : scalar -> outcome A) (upd : Body) k :
  upd !! "$set" = None -> upd !! k = None -> cast_path cast upd k = Ok None.
Proof.
  intros Hset Hk. unfold cast_path, assigned, set_operand. rewrite Hk, Hset.
  simpl. rewrite lookup_empty. reflexivity.
Qed.

Lemma cast_path_string (f : string -> string) (upd : Body) k :
  upd !! "$set" = None ->
  upd !! k = None \/ (exists s, upd !! k = Some (JScalar (JStr s))) ->
  cast_path (fun v => omap f (castString v)) upd k
  = Ok (f <$> string_member (upd !! k)).
Proof.
  intros Hset [Hk|[s Hk]].
  - rewrite (cast_path_absent _ _ _ Hset Hk), Hk. reflexivity.
  - unfold cast_path, assigned. rewrite Hk. reflexivity.
Qed.

Lemma cast_path_number lo hi (upd : Body) k :
  - 2 ^ 53 <= lo -> hi <= 2 ^ 53 ->
  upd !! "$set" = None ->
  upd !! k = None \/ isInt lo hi (upd !! k) = true ->
  cast_path castNumber upd k = Ok (int_value (upd !! k)).
Proof.
  intros Hlo Hhi Hset [Hk|Hk].
  - rewrite (cast_path_absent _ _ _ Hset Hk), Hk. reflexivity.
  - destruct (upd !! k) as [v|] eqn:Hv; [|discriminate].
    destruct (isInt_castNumber lo hi v Hlo Hhi Hk) as (z & _ & Hz & Hc).
    rewrite Hz. unfold cast_path, assigned. rewrite Hv.
    destruct v as [s|o]; [|discriminate]. simpl in Hc. simpl.
    rewrite Hc. reflexivity.
Qed.

Lemma task_field_plain k :
  In k task_fields -> String.eqb k "$set" = false /\ plain_key k = true.
Proof.
  unfold task_fields. simpl.
  intros [<-|[<-|[<-|[<-|[<-|[]]]]]]; split; reflexivity.
Qed.

Lemma not_task_field (body : Body) k :
  (forall k, is_Some (body !! k) -> In k task_fields) ->
  ~ In k task_fields -> body !! k = None.
Proof.
  intros Hdom Hk. destruct (body !! k) eqn:E; [|reflexivity].
  exfalso. apply Hk, Hdom. rewrite E. eauto.
Qed.

Lemma shape_ok_task_fields (body : Body) :
  (forall k, is_Some (body !! k) -> In k task_fields) -> shape_ok body = true.
Proof.
  intros Hdom.
  assert (Hset : body !! "$set" = None).
  { apply not_task_field; [exact Hdom|]. unfold task_fields. simpl.
    intuition discriminate. }
  unfold shape_ok, set_operand. rewrite Hset, map_to_list_empty. simpl.
  rewrite andb_true_r. apply forallb_forall. intros [k v] Hin.
  apply list_elem_of_In, elem_of_map_to_list in Hin. simpl.
  destruct (task_field_plain k) as [-> ->]; [|reflexivity].
  apply Hdom. rewrite Hin. eauto.
Qed.

(** The update a body of validated members casts to. *)
Lemma castUpdate_task_fields id (body : Body) :
  validate_put id body = [] ->
  (forall k, is_Some (body !! k) -> In k task_fields) ->
  castUpdate body
  = Ok {| set_id := None; set_userId := None;
          set_date := string_member (body !! "date");
          set_title := Str.trim <$> string_member (body !! "title");
          set_progress := int_value (body !! "progress");
          set_category := Str.trim <$> string_member (body !! "category");
          set_priority := int_value (body !! "priority");
          set_createTime := None |}.
Proof.
  intros Hv Hdom.
  pose proof (validate_put_nil id body Hv) as (_ & Hp & Hr).
  pose proof (validate_put_members id body Hv) as (Hd & Ht & Hc).
  assert (Hnot : forall k, ~ In k task_fields -> body !! k = None)
    by (intros k; apply not_task_field, Hdom).
  assert (Hset : body !! "$set" = None)
    by (apply Hnot; unfold task_fields; simpl; intuition discriminate).
  unfold castUpdate. rewrite (shape_ok_task_fields body Hdom). simpl.
  rewrite (cast_path_absent castObjectId body "_id" Hset)
    by (apply Hnot; unfold task_fields; simpl; intuition discriminate).
  rewrite (cast_path_absent castObjectId body "userId" Hset)
    by (apply Hnot; unfold task_fields; simpl; intuition discriminate).
  rewrite (cast_path_absent castDate body "createTime" Hset)
    by (apply Hnot; unfold task_fields; simpl; intuition discriminate).
  assert (Hcd' : cast_path castString body "date"
                 = Ok (string_member (body !! "date"))).
  { destruct Hd as [Hk|[s Hk]].
    - rewrite (cast_path_absent _ _ _ Hset Hk), Hk. reflexivity.
    - unfold cast_path, assigned. rewrite Hk. reflexivity. }
  rewrite Hcd'.
  rewrite (cast_path_string Str.trim body "title" Hset Ht).
  rewrite (cast_path_number 0 100 body "progress" ltac:(lia) ltac:(lia) Hset Hp).
  rewrite (cast_path_string Str.trim body "category" Hset Hc).
  rewrite (cast_path_number 1 3 body "priority" ltac:(lia) ltac:(lia) Hset Hr).
  reflexivity.
Qed.

End PlainUpdates.

(** X10.  A partial update whose body holds only the members the route
    validates ([date], [title], [progress], [category], [priority]), sent
    for a stored task of the caller, answers with that task changed in the
    members that are present and in nothing else but [updateTime]: the
    date as given, title and category trimmed, progress and priority as
    the integers given.  The store holds the updated task at the place of
    the old one, every other task is as it was, and the id source is
    untouched.  No check keeps the title or the date from becoming
    empty. *)
Theorem put_sets_named_fields
    (st : DB) (user : Z) (id : string) (body : Body) (now : Z) (t : Task) :
  reachable st ->
  In t (docs st) ->
  userId t = user ->
  Schema.castObjectId (JStr id) = Ok (_id t) ->
  Tasks.validate_put id body = [] ->
  (forall k, is_Some (body !! k) -> In k task_fields) ->
  let t' :=
    {| _id := _id t; userId := userId t;
       date := default (date t) (string_member (body !! "date"));
       title := default (title t) (Str.trim <$> string_member (body !! "title"));
       progress := default (progress t) (int_value (body !! "progress"));
       category :=
         default (category t) (Str.trim <$> string_member (body !! "category"));
       priority := default (priority t) (int_value (body !! "priority"));
       createTime := createTime t; updateTime := now |} in
  exists st' l1 l2,
    Tasks.put_task st user id body now = (Updated t', st')
    /\ docs st = l1 ++ t :: l2
    /\ docs st' = l1 ++ t' :: l2
    /\ next_oid st' = next_oid st.
Proof.
  intros Hreach Hin Hu Hid Hv Hdom t'.
  pose proof (reachable_unique_ids st Hreach) as Hwf.
  pose proof (castUpdate_task_fields id body Hv Hdom) as Hcu.
  pose proof (find_unique st t Hwf Hin) as Hf. rewrite Hu in Hf.
  destruct (replace_first_split _ t' _ _ Hf) as (l1 & l2 & Hl & Hr).
  rewrite (put_task_eq st user id _ body now _ Hid Hv Hcu), Hf. simpl.
  eexists _, l1, l2. split; [reflexivity|]. simpl.
  split; [exact Hl|]. split; [exact Hr|reflexivity].
Qed.

Lemma put_sets_named_fields_witness :
  exists st',
    Tasks.put_task Ex.db1 Ex.alice Ex.id0
      (<["title" := Ex.str "  plan  "]> {[ "priority" := Ex.num 3 ]}) 3000
    = (Updated {| _id := 0; userId := Ex.alice; date := "2024-05-01"; title := "plan";
                  progress := 0; category := "general"; priority := 3;
                  createTime := 1000; updateTime := 3000 |}, st')
    /\ docs st'
       = [{| _id := 0; userId := Ex.alice; date := "2024-05-01"; title := "plan";
             progress := 0; category := "general"; priority := 3;
             createTime := 1000; updateTime := 3000 |}].
Proof.
  destruct (put_sets_named_fields Ex.db1 Ex.alice Ex.id0
              (<["title" := Ex.str "  plan  "]> {[ "priority" := Ex.num 3 ]}) 3000
              Ex.alice_task db1_reachable) as (st' & l1 & l2 & Heq & _).
  - left. reflexivity.
  - reflexivity.
  - vm_compute. reflexivity.
  - vm_compute. reflexivity.
  - intros k [v Hk].
    destruct (decide (k = "title")) as [->|Hn1]; [right; left; reflexivity|].
    destruct (decide (k = "priority")) as [->|Hn2];
      [right; right; right; right; left; reflexivity|].
    rewrite lookup_insert_ne, lookup_singleton_ne in Hk by congruence. discriminate.
  - exists st'. split; [rewrite Heq; vm_compute; reflexivity|].
    replace st' with (snd (Tasks.put_task Ex.db1 Ex.alice Ex.id0
                             (<["title" := Ex.str "  plan  "]>
                                {[ "priority" := Ex.num 3 ]}) 3000))
      by (rewrite Heq; reflexivity).
    vm_compute. reflexivity.
Defined.

(** X11.  Whatever the body holds, an update that is answered with a task
    has changed a stored task of the caller, the one whose id was given;
    the task keeps its id and carries the server's time as [updateTime],
    also when the body names [updateTime]; the store keeps its length and
    every other task.  This holds of the partial update and of the
    progress update. *)
Theorem update_touches_the_callers_task
    (st : DB) (user : Z) (id : string) (body : Body) (now : Z) (t' : Task) (st' : DB) :
  Tasks.put_task st user id body now = (Updated t', st')
  \/ Tasks.put_progress st user id body now = (Updated t', st') ->
  updateTime t' = now
  /\ In t' (docs st')
  /\ map _id (docs st') = map _id (docs st)
  /\ (forall x, In x (docs st') -> x = t' \/ In x (docs st))
  /\ exists t, In t (docs st)
       /\ userId t = user
       /\ Schema.castObjectId (JStr id) = Ok (_id t)
       /\ _id t' = _id t.
Proof.
  intros Hup.
  assert (Hf : exists upd, Schema.findOneAndUpdate st id user upd now = Ok (Some t', st')).
  { destruct Hup as [H|H].
    - unfold Tasks.put_task in H. destruct (Tasks.validate_put id body); [|discriminate].
      exists body.
      destruct (Schema.findOneAndUpdate st id user body now) as [[[x|] s]| |];
        try discriminate.
      injection H as -> ->. reflexivity.
    - unfold Tasks.put_progress in H.
      destruct (Tasks.validate_progress id body); [|discriminate].
      match type of H with
      | context [Schema.findOneAndUpdate st id user ?upd now] => exists upd
      end.
      destruct (Schema.findOneAndUpdate _ _ _ _ _) as [[[x|] s]| |]; try discriminate.
      injection H as -> ->. reflexivity. }
  destruct Hf as [upd Hf].
  apply findOneAndUpdate_inv in Hf as (oid & u & Hid & _ & Hf).
  destruct (List.find _ _) as [t|] eqn:Hfind; [|discriminate].
  destruct Hf as [_ Hf]. injection Hf as -> ->. simpl.
  pose proof (find_some_match st oid user t Hfind) as (Hin & Ht & Hu).
  split; [reflexivity|]. split; [eapply replace_first_find, Hfind|].
  split; [apply (replace_first_map _id _ _ _ t Hfind); reflexivity|].
  split; [intros x Hx; apply replace_first_In in Hx; exact Hx|].
  exists t. rewrite Ht. auto.
Qed.

Lemma update_touches_the_callers_task_witness :
  exists t' st',
    Tasks.put_task Ex.db2 Ex.bob "000000000000000000000001"
      {[ "updateTime" := Ex.num 7 ]} 3000 = (Updated t', st')
    /\ updateTime t' = 3000.
Proof.
  pose (t' := {| _id := 1; userId := Ex.bob; date := "2024-05-01";
                 title := "写周报"; progress := 40; category := "general";
                 priority := 1; createTime := 2000; updateTime := 3000 |}).
  pose (st' := {| docs := [Ex.alice_task; t']; next_oid := 2 |}).
  assert (H : Tasks.put_task Ex.db2 Ex.bob "000000000000000000000001"
                {[ "updateTime" := Ex.num 7 ]} 3000 = (Updated t', st'))
    by (vm_compute; reflexivity).
  exists t', st'. split; [exact H|].
  destruct (update_touches_the_callers_task Ex.db2 Ex.bob "000000000000000000000001"
              {[ "updateTime" := Ex.num 7 ]} 3000 t' st' (or_introl H)) as [Hut _].
  exact Hut.
Defined.

(** ** The shape of the rollups *)

Section RollupShape.
Import Stats.

Lemma summarise_daily tasks total avg daily :
  summarise tasks = MonthlyStats total avg daily ->
  daily = map day_stat (group_by_date tasks) /\ total = Z.of_nat (length tasks).
Proof.
  unfold summarise. destruct (exact_sums tasks); [|discriminate].
  intros H. injection H as <- _ <-. split; reflexivity.
Qed.

Lemma day_stat_dates acc : map ds_date (map day_stat acc) = map fst acc.
Proof. rewrite map_map. reflexivity. Qed.

Lemma bump_count d p acc :
  sum_counts (map day_stat (bump d p acc)) = sum_counts (map day_stat acc) + 1.
Proof.
  induction acc as [|[k [c s]] acc IH]; simpl; [lia|].
  destruct (String.eqb k d); simpl; [lia|]. rewrite IH. lia.
Qed.

Lemma fold_count (g : Task -> Z) rest :
  forall acc,
    sum_counts (map day_stat (fold_left (fun a t => bump (date t) (g t) a) rest acc))
    = sum_counts (map day_stat acc) + Z.of_nat (length rest).
Proof.
  induction rest as [|t rest IH]; intros acc; simpl fold_left; [simpl; lia|].
  rewrite IH, bump_count. simpl length. lia.
Qed.

Lemma on_date_nonempty d l : on_date d l <> [] <-> exists t, In t l /\ date t = d.
Proof.
  unfold on_date. split.
  - destruct (List.filter _ l) as [|t r] eqn:Hf; [congruence|]. intros _.
    assert (Hin : In t (List.filter (fun t => String.eqb (date t) d) l))
      by (rewrite Hf; left; reflexivity).
    apply filter_In in Hin as [Hin Hd]. apply String.eqb_eq in Hd. eauto.
  - intros (t & Hin & Hd) Hnil.
    assert (Hin' : In t (List.filter (fun t => String.eqb (date t) d) l))
      by (apply filter_In; split; [exact Hin|apply String.eqb_eq, Hd]).
    rewrite Hnil in Hin'. destruct Hin'.
Qed.

(** The dates of a grouping are those of the tasks grouped. *)
Lemma groups_dates seen acc d :
  groups_of seen acc ->
  In d (map fst acc) <-> exists t, In t seen /\ date t = d.
Proof.
  intros (_ & Hkeys & Hg). split.
  - intros Hin. apply in_map_iff in Hin as ([k [c s]] & <- & Hin). simpl.
    apply on_date_nonempty. apply (Hg _ _ _ Hin).
  - intros (t & Hin & <-). apply Hkeys, Hin.
Qed.

End RollupShape.

(** X12.  In a monthly rollup the daily entries carry pairwise distinct
    dates, there is an entry for a date exactly when one of the month's
    tasks has that date, and the entries' counts add up to the total. *)
Theorem monthly_daily_partitions_the_month
    (st : DB) (user : Z) (qyear qmonth : option string)
    (total : Z) (avg : option Z) (daily : list DayStat) :
  Stats.get_monthly st user qyear qmonth = MonthlyStats total avg daily ->
  let tasks := Stats.month_tasks st user (Stats.Number qyear) (Stats.Number qmonth) in
  List.NoDup (map ds_date daily)
  /\ (forall d, In d (map ds_date daily) <-> exists t, In t tasks /\ date t = d)
  /\ sum_counts daily = total.
Proof.
  intros H tasks. apply get_monthly_stats, summarise_daily in H as [-> ->].
  fold tasks. pose proof (group_by_date_groups tasks) as Hg.
  rewrite day_stat_dates. split; [apply Hg|]. split.
  - intros d. apply groups_dates, Hg.
  - unfold Stats.group_by_date. rewrite fold_count. simpl. lia.
Qed.

Lemma monthly_daily_partitions_the_month_witness :
  sum_counts [{| ds_date := "2024-05-01"; ds_count := 3; ds_average := Some 17 |}] = 3.
Proof.
  apply (monthly_daily_partitions_the_month Ex.db3 Ex.alice (Some "2024") (Some "5")
           3 (Some 17)).
  vm_compute. reflexivity.
Defined.


(** ** The front end's calendar *)

Section FrontCalendar.
Import JSDate.

#[local] Arguments civil : simpl never.
#[local] Arguments MakeDay : simpl never.
#[local] Arguments make : simpl never.

Lemma MakeDay_carry y m d : MakeDay y m d = MakeDay (y + m / 12) (m mod 12) d.
Proof.
  unfold MakeDay. cbv zeta.
  rewrite Z.mod_mod by lia.
  replace (m mod 12 / 12) with 0
    by (symmetry; apply Z.div_small, Z.mod_pos_bound; lia).
  rewrite Z.add_0_r. reflexivity.
Qed.

(** The leap-year flag of [MakeDay], as arithmetic. *)
Lemma leap_flag y :
  let l := if InLeapYear y then 1 else 0 in
  (l = 1 /\ y mod 4 = 0 /\ (y mod 100 <> 0 \/ y mod 400 = 0))
  \/ (l = 0 /\ (y mod 4 <> 0 \/ (y mod 100 = 0 /\ y mod 400 <> 0))).
Proof.
  unfold InLeapYear.
  destruct (Z.eqb_spec (y mod 4) 0), (Z.eqb_spec (y mod 100) 0),
    (Z.eqb_spec (y mod 400) 0); simpl; lia.
Qed.

Lemma leap_year_InLeapYear y : leap_year y = InLeapYear y.
Proof.
  unfold leap_year, InLeapYear.
  destruct (Z.eqb_spec (y mod 4) 0), (Z.eqb_spec (y mod 100) 0),
    (Z.eqb_spec (y mod 400) 0); simpl; try reflexivity;
    exfalso; Z.div_mod_to_equations; lia.
Qed.

(** [civil] on a day given by the year [e * 400 + yo] that starts in
    March and the day [dy] of that year. *)
Lemma civil_of_year_day e yo dy :
  0 <= yo < 400 ->
  0 <= dy <= 364 + (if InLeapYear (yo + 1) then 1 else 0) ->
  civil (e * 146097 + (365 * yo + yo / 4 - yo / 100) + dy - 719468)
  = let mp := (5 * dy + 2) / 153 in
    let m := if mp <? 10 then mp + 3 else mp - 9 in
    (yo + e * 400 + (if m <=? 2 then 1 else 0), m, dy - (153 * mp + 2) / 5 + 1).
Proof.
  intros Hyo Hdy. pose proof (leap_flag (yo + 1)) as Hl. cbv zeta in Hl.
  set (l := if InLeapYear (yo + 1) then 1 else 0) in *. clearbody l.
  unfold civil. cbv zeta.
  set (z := e * 146097 + (365 * yo + yo / 4 - yo / 100) + dy - 719468 + 719468).
  assert (Hera : z / 146097 = e) by (unfold z; Z.div_mod_to_equations; lia).
  rewrite !Hera.
  set (doe := z - e * 146097).
  assert (Hdoe : doe = 365 * yo + yo / 4 - yo / 100 + dy) by (unfold doe, z; lia).
  assert (Hyoe : (doe - doe / 1460 + doe / 36524 - doe / 146096) / 365 = yo)
    by (rewrite Hdoe; Z.div_mod_to_equations; lia).
  rewrite !Hyoe.
  replace (doe - (365 * yo + yo / 4 - yo / 100)) with dy by lia.
  reflexivity.
Qed.

(** The first of March and the first of January of a year, counted from
    the start of the 400 years the year lies in. *)
Lemma march_first y :
  DayFromYear y + 59 + (if InLeapYear y then 1 else 0)
  = y / 400 * 146097 + (365 * (y mod 400) + y mod 400 / 4 - y mod 400 / 100) - 719468.
Proof.
  pose proof (leap_flag y) as Hl. cbv zeta in Hl.
  set (l := if InLeapYear y then 1 else 0) in *. clearbody l.
  unfold DayFromYear. Z.div_mod_to_equations. lia.
Qed.

Lemma january_first y :
  DayFromYear y
  = (y - 1) / 400 * 146097
    + (365 * ((y - 1) mod 400) + (y - 1) mod 400 / 4 - (y - 1) mod 400 / 100)
    + 306 - 719468.
Proof. unfold DayFromYear. Z.div_mod_to_equations. lia. Qed.

Lemma leap_of_year_before y :
  InLeapYear ((y - 1) mod 400 + 1) = InLeapYear y.
Proof.
  replace y with ((y - 1) mod 400 + 1 + 400 * ((y - 1) / 400)) at 2
    by (Z.div_mod_to_equations; lia).
  symmetry. apply InLeapYear_period.
Qed.

(** The month index [k] of a day of the year that starts in March, and
    the calendar day that follows from it. *)
Ltac month_of_day k :=
  cbv zeta;
  match goal with
  | |- context [(5 * ?dy + 2) / 153] =>
      replace ((5 * dy + 2) / 153) with k by (Z.div_mod_to_equations; lia)
  end;
  let b := eval vm_compute in (k <? 10) in
  change (k <? 10) with b; cbv iota;
  match goal with
  | |- context [?m' <=? 2] =>
      let c := eval vm_compute in (m' <=? 2) in
      change (m' <=? 2) with c; cbv iota
  end;
  f_equal; [f_equal|]; Z.div_mod_to_equations; lia.

Ltac from_march H ms :=
  match goal with
  | |- context [ms + ?l] =>
      replace (ms + l) with (59 + (ms - 59) + l) by lia;
      rewrite (H (ms - 59)) by lia
  end.

(** The day number of a calendar day gives the calendar day back. *)
Lemma civil_MakeDay y m d :
  0 <= m <= 11 -> 1 <= d <= last_day_of_month y (m + 1) ->
  civil (MakeDay y m d) = (y, m + 1, d).
Proof.
  intros Hm Hd.
  unfold last_day_of_month in Hd. rewrite leap_year_InLeapYear in Hd.
  unfold MakeDay. cbv zeta.
  replace (m / 12) with 0 by (Z.div_mod_to_equations; lia).
  replace (m mod 12) with m by (Z.div_mod_to_equations; lia).
  rewrite Z.add_0_r.
  pose proof (Z.mod_pos_bound y 400 ltac:(lia)) as Hy400.
  pose proof (Z.mod_pos_bound (y - 1) 400 ltac:(lia)) as Hy399.
  assert (Hsplit : y = y mod 400 + y / 400 * 400) by (Z.div_mod_to_equations; lia).
  assert (Hsplit' : y = (y - 1) mod 400 + (y - 1) / 400 * 400 + 1)
    by (Z.div_mod_to_equations; lia).
  assert (Hl : 0 <= (if InLeapYear y then 1 else 0) <= 1)
    by (destruct (InLeapYear y); lia).
  assert (Hl' : 0 <= (if InLeapYear (y mod 400 + 1) then 1 else 0))
    by (destruct (InLeapYear (y mod 400 + 1)); lia).
  assert (Hfeb : (if InLeapYear y then 29 else 28)
                 = 28 + (if InLeapYear y then 1 else 0))
    by (destruct (InLeapYear y); reflexivity).
  rewrite Hfeb in Hd.
  assert (Hcases : m = 0 \/ m = 1 \/ m = 2 \/ m = 3 \/ m = 4 \/ m = 5 \/ m = 6 \/ m = 7
                   \/ m = 8 \/ m = 9 \/ m = 10 \/ m = 11) by lia.
  assert (Hjan : forall ms, 0 <= ms + d - 1 <= 58 + (if InLeapYear y then 1 else 0) ->
            civil (DayFromYear y + ms + d - 1)
            = let dy := 306 + ms + d - 1 in
              let mp := (5 * dy + 2) / 153 in
              let m := if mp <? 10 then mp + 3 else mp - 9 in
              ((y - 1) mod 400 + (y - 1) / 400 * 400 + (if m <=? 2 then 1 else 0), m,
               dy - (153 * mp + 2) / 5 + 1)).
  { intros ms Hms. rewrite january_first.
    replace ((y - 1) / 400 * 146097
             + (365 * ((y - 1) mod 400) + (y - 1) mod 400 / 4 - (y - 1) mod 400 / 100)
             + 306 - 719468 + ms + d - 1)
      with ((y - 1) / 400 * 146097
            + (365 * ((y - 1) mod 400) + (y - 1) mod 400 / 4 - (y - 1) mod 400 / 100)
            + (306 + ms + d - 1) - 719468) by lia.
    apply (civil_of_year_day ((y - 1) / 400) ((y - 1) mod 400) (306 + ms + d - 1));
      [lia|rewrite leap_of_year_before; lia]. }
  assert (Hmar : forall ms, 0 <= ms + d - 1 <= 305 ->
            civil (DayFromYear y + (59 + ms + (if InLeapYear y then 1 else 0)) + d - 1)
            = let dy := ms + d - 1 in
              let mp := (5 * dy + 2) / 153 in
              let m := if mp <? 10 then mp + 3 else mp - 9 in
              (y mod 400 + y / 400 * 400 + (if m <=? 2 then 1 else 0), m,
               dy - (153 * mp + 2) / 5 + 1)).
  { intros ms Hms.
    replace (DayFromYear y + (59 + ms + (if InLeapYear y then 1 else 0)) + d - 1)
      with (y / 400 * 146097
            + (365 * (y mod 400) + y mod 400 / 4 - y mod 400 / 100)
            + (ms + d - 1) - 719468) by (pose proof (march_first y); lia).
    apply (civil_of_year_day (y / 400) (y mod 400) (ms + d - 1)); lia. }
  unfold month_start. cbv zeta.
  repeat (destruct Hcases as [->|Hcases]); try subst m; simpl in Hd; cbv iota beta.
  - rewrite (Hjan 0) by lia. month_of_day 10.
  - rewrite (Hjan 31) by lia. month_of_day 11.
  - from_march Hmar 59. month_of_day 0.
  - from_march Hmar 90. month_of_day 1.
  - from_march Hmar 120. month_of_day 2.
  - from_march Hmar 151. month_of_day 3.
  - from_march Hmar 181. month_of_day 4.
  - from_march Hmar 212. month_of_day 5.
  - from_march Hmar 243. month_of_day 6.
  - from_march Hmar 273. month_of_day 7.
  - from_march Hmar 304. month_of_day 8.
  - from_march Hmar 334. month_of_day 9.
Qed.

(** The month and the day of the month [civil] gives are a month and a
    day. *)
Lemma civil_ranges day :
  1 <= snd (fst (civil day)) <= 12 /\ 1 <= snd (civil day) <= 31.
Proof.
  unfold civil. cbv zeta. simpl fst. simpl snd.
  set (z := day + 719468).
  set (doe := z - z / 146097 * 146097).
  assert (Hdoe : 0 <= doe < 146097) by (unfold doe; Z.div_mod_to_equations; lia).
  clearbody doe. clear z.
  set (yoe := (doe - doe / 1460 + doe / 36524 - doe / 146096) / 365).
  set (doy := doe - (365 * yoe + yoe / 4 - yoe / 100)).
  assert (Hdoy : 0 <= doy <= 365)
    by (unfold doy, yoe; Z.div_mod_to_equations; lia).
  clearbody doy. split.
  - destruct ((5 * doy + 2) / 153 <? 10) eqn:E;
      [apply Z.ltb_lt in E|apply Z.ltb_ge in E]; Z.div_mod_to_equations; lia.
  - Z.div_mod_to_equations; lia.
Qed.

Lemma MakeDay_valid y m d :
  -270000 <= y <= 275760 -> 0 <= m <= 11 -> 0 <= d <= 31 ->
  (y = 275760 -> m <= 7) ->
  valid_day (MakeDay y m d) = true.
Proof.
  intros Hy Hm Hd Hlim. unfold valid_day. apply Z.leb_le.
  assert (Hcases : m = 0 \/ m = 1 \/ m = 2 \/ m = 3 \/ m = 4 \/ m = 5 \/ m = 6 \/ m = 7
                   \/ m = 8 \/ m = 9 \/ m = 10 \/ m = 11) by lia.
  unfold MakeDay, DayFromYear. cbv zeta.
  destruct (InLeapYear _);
    repeat (destruct Hcases as [->|Hcases]; [simpl; Z.div_mod_to_equations; lia|]);
    subst m; simpl; Z.div_mod_to_equations; lia.
Qed.

(** Within the years 100 to 275759 a date made from a year, a month next
    to the months of the year, and a day is valid and keeps its year. *)
Lemma make_plain y m d :
  100 <= y < 275760 -> -1 <= m <= 12 -> 0 <= d <= 31 ->
  make y m d = Some (MakeDay (y + m / 12) (m mod 12) d).
Proof.
  intros Hy Hm Hd. unfold make.
  destruct ((0 <=? y) && (y <=? 99)) eqn:Hc.
  { apply andb_true_iff in Hc as [_ Hc]. apply Z.leb_le in Hc. lia. }
  rewrite MakeDay_carry.
  rewrite MakeDay_valid; [reflexivity| | |lia|];
    Z.div_mod_to_equations; lia.
Qed.

Lemma calendar_day_inv t y m d :
  calendar_day t = Some (y, m, d) ->
  exists day, t = Some day /\ civil day = (y, m, d) /\ 1 <= m <= 12 /\ 1 <= d <= 31.
Proof.
  destruct t as [day|]; [|discriminate]. intros H.
  assert (Hc : civil day = (y, m, d)) by (unfold calendar_day in H; cbn in H; congruence).
  exists day. pose proof (civil_ranges day) as Hr. rewrite Hc in Hr. simpl in Hr.
  repeat split; try exact Hc; lia.
Qed.

Lemma getters t y m d :
  calendar_day t = Some (y, m, d) ->
  Front.getFullYear t = Some y /\ Front.getMonth t = Some (m - 1)
  /\ getDate t = Some d.
Proof.
  destruct t as [day|]; [|discriminate]. intros H.
  assert (Hc : civil day = (y, m, d)) by (unfold calendar_day in H; cbn in H; congruence).
  unfold Front.getFullYear, Front.getMonth, getDate. cbn. rewrite Hc. auto.
Qed.

Lemma formatDate_calendar_day t y m d :
  calendar_day t = Some (y, m, d) -> Front.formatDate t = day_string y m d.
Proof.
  intros Hc. destruct (calendar_day_inv _ _ _ _ Hc) as (day & -> & _ & Hm & Hd).
  destruct (getters _ _ _ _ Hc) as (Hy & Hmo & Hda).
  unfold Front.formatDate. rewrite Hy, Hmo, Hda. cbn.
  replace (m - 1 + 1) with m by lia.
  rewrite !pad_two_digits by lia. reflexivity.
Qed.

Lemma calendar_day_make y m d :
  y < 0 \/ 99 < y -> 0 <= m <= 11 -> 1 <= d <= last_day_of_month y (m + 1) ->
  make y m d <> None ->
  calendar_day (make y m d) = Some (y, m + 1, d).
Proof.
  intros Hy Hm Hd Hv. unfold make in *.
  destruct ((0 <=? y) && (y <=? 99)) eqn:Hc.
  { apply andb_true_iff in Hc as [Hc1 Hc2]. apply Z.leb_le in Hc1, Hc2. lia. }
  destruct (valid_day (MakeDay y m d)); [|contradiction].
  cbn. rewrite civil_MakeDay by assumption. reflexivity.
Qed.

(** First days of months next to a month of the years 100 to 275759. *)
Lemma first_of_month y m :
  100 <= y < 275760 -> -1 <= m <= 12 ->
  calendar_day (make y m 1) = Some (y + m / 12, m mod 12 + 1, 1).
Proof.
  intros Hy Hm. rewrite make_plain by lia. cbn.
  pose proof (last_day_bounds (y + m / 12) (m mod 12 + 1)).
  rewrite civil_MakeDay; [reflexivity| |lia].
  Z.div_mod_to_equations; lia.
Qed.

Lemma first_after y m :
  1 <= m <= 12 -> (y + m / 12, m mod 12 + 1) = month_after y m.
Proof.
  intros Hm. unfold month_after.
  destruct (Z.eqb_spec m 12) as [->|Hne]; [reflexivity|].
  f_equal; Z.div_mod_to_equations; lia.
Qed.

Lemma first_before y m :
  1 <= m <= 12 -> (y + (m - 2) / 12, (m - 2) mod 12 + 1) = month_before y m.
Proof.
  intros Hm. unfold month_before.
  destruct (Z.eqb_spec m 1) as [->|Hne]; [reflexivity|].
  f_equal; Z.div_mod_to_equations; lia.
Qed.

Lemma next_month_day st y m d :
  calendar_day (Front.current st) = Some (y, m, d) -> 100 <= y < 275760 ->
  calendar_day (Front.current (Front.handle st Front.NextMonth))
  = Some (month_after y m, 1).
Proof.
  intros Hc Hy. destruct (calendar_day_inv _ _ _ _ Hc) as (day & _ & _ & Hm & _).
  destruct (getters _ _ _ _ Hc) as (Hgy & Hgm & _).
  cbn. rewrite Hgy, Hgm. cbn. replace (m - 1 + 1) with m by lia.
  rewrite first_of_month by lia. rewrite <- first_after by lia. reflexivity.
Qed.

Lemma prev_month_day st y m d :
  calendar_day (Front.current st) = Some (y, m, d) -> 100 <= y < 275760 ->
  calendar_day (Front.current (Front.handle st Front.PrevMonth))
  = Some (month_before y m, 1).
Proof.
  intros Hc Hy. destruct (calendar_day_inv _ _ _ _ Hc) as (day & _ & _ & Hm & _).
  destruct (getters _ _ _ _ Hc) as (Hgy & Hgm & _).
  cbn. rewrite Hgy, Hgm. cbn. replace (m - 1 - 1) with (m - 2) by lia.
  rewrite first_of_month by lia. rewrite <- first_before by lia. reflexivity.
Qed.

Lemma In_days_to n k : In k (days_to n) <-> 1 <= k <= n.
Proof.
  unfold days_to. rewrite in_map_iff. split.
  - intros (i & <- & Hi). apply in_seq in Hi. lia.
  - intros Hk. exists (Z.to_nat k). split; [lia|]. apply in_seq. lia.
Qed.

Lemma two_digits_table :
  forallb (fun a => forallb (fun b => implb (String.eqb (two_digits (Z.of_nat a))
                                                        (two_digits (Z.of_nat b)))
                                            (Z.of_nat a =? Z.of_nat b))
                            (seq 1 31))
          (seq 1 31) = true.
Proof. vm_compute. reflexivity. Qed.

Lemma two_digits_inj a b :
  1 <= a <= 31 -> 1 <= b <= 31 -> two_digits a = two_digits b -> a = b.
Proof.
  intros Ha Hb Heq.
  pose proof (forallb_range
    (fun a0 => forallb (fun b0 => implb (String.eqb (two_digits a0)
                                                    (two_digits (Z.of_nat b0)))
                                        (a0 =? Z.of_nat b0)) (seq 1 31))
    1 31 two_digits_table a ltac:(simpl; lia)) as Hrow.
  pose proof (forallb_range
    (fun b0 => implb (String.eqb (two_digits a) (two_digits b0)) (a =? b0))
    1 31 Hrow b ltac:(simpl; lia)) as Hcell.
  cbv beta in Hcell. rewrite Heq, String.eqb_refl in Hcell. simpl in Hcell.
  apply Z.eqb_eq, Hcell.
Qed.

Lemma app_inv_head_string (p s t : string) : (p ++ s = p ++ t)%string -> s = t.
Proof. induction p as [|c p IH]; simpl; [auto|]. intros [= H]. auto. Qed.

Lemma day_string_eqb y m a b :
  1 <= a <= 31 -> 1 <= b <= 31 ->
  String.eqb (day_string y m a) (day_string y m b) = (a =? b).
Proof.
  intros Ha Hb. destruct (Z.eqb_spec a b) as [->|Hne].
  - apply String.eqb_refl.
  - apply String.eqb_neq. intros Heq. apply Hne. unfold day_string in Heq.
    repeat apply app_inv_head_string in Heq.
    apply two_digits_inj; assumption.
Qed.

End FrontCalendar.

Section FrontGrid.
Import JSDate.

#[local] Arguments civil : simpl never.
#[local] Arguments MakeDay : simpl never.
#[local] Arguments make : simpl never.

Lemma make_two_digit_year y m d : 0 <= y <= 99 -> make y m d = make (1900 + y) m d.
Proof.
  intros Hy. unfold make.
  destruct (Z.leb_spec 0 y); [|lia]. destruct (Z.leb_spec y 99); [|lia].
  destruct (Z.leb_spec 0 (1900 + y)); [|lia]. destruct (Z.leb_spec (1900 + y) 99); [lia|].
  reflexivity.
Qed.

Lemma month_before_after y m : 1 <= m <= 12 ->
  month_before (fst (month_after y m)) (snd (month_after y m)) = (y, m)
  /\ month_after (fst (month_before y m)) (snd (month_before y m)) = (y, m).
Proof.
  intros Hm. unfold month_after, month_before. split.
  - destruct (Z.eqb_spec m 12) as [->|H12]; simpl.
    + f_equal. lia.
    + destruct (Z.eqb_spec (m + 1) 1); [lia|]. f_equal. lia.
  - destruct (Z.eqb_spec m 1) as [->|H1]; simpl.
    + f_equal. lia.
    + destruct (Z.eqb_spec (m - 1) 12); [lia|]. f_equal. lia.
Qed.

Lemma month_after_bounds y m : 1 <= m <= 12 ->
  y <= fst (month_after y m) <= y + 1 /\ 1 <= snd (month_after y m) <= 12.
Proof.
  intros Hm. unfold month_after. destruct (Z.eqb_spec m 12); simpl; lia.
Qed.

Lemma month_before_bounds y m : 1 <= m <= 12 ->
  y - 1 <= fst (month_before y m) <= y /\ 1 <= snd (month_before y m) <= 12.
Proof.
  intros Hm. unfold month_before. destruct (Z.eqb_spec m 1); simpl; lia.
Qed.

(** The cells of the grid, for a month of the years 100 to 275759. *)
Lemma render_cells st now y m d :
  calendar_day (Front.current st) = Some (y, m, d) ->
  100 <= y < 275760 ->
  Front.cells (Front.renderCalendar st now)
  = map (fun k =>
           {| Front.cell_date := k;
              Front.cell_dateStr := day_string y m k;
              Front.cell_today :=
                String.eqb (day_string y m k) (Front.formatDate (Some now));
              Front.cell_selected :=
                String.eqb (day_string y m k) (Front.selectedDate st);
              Front.cell_count := tasks_on (day_string y m k) (Front.tasks st) |})
        (days_to (last_day_of_month y m)).
Proof.
  intros Hc Hy. destruct (calendar_day_inv _ _ _ _ Hc) as (day & _ & _ & Hm & _).
  destruct (getters _ _ _ _ Hc) as (Hgy & Hgm & _).
  unfold Front.renderCalendar. cbn [Front.cells]. rewrite Hgy, Hgm.
  cbn [fmap option_fmap option_map Front.newDate].
  replace (m - 1 + 1) with m by lia.
  rewrite (make_plain y m 0) by lia. rewrite <- MakeDay_carry.
  unfold getDate. cbn [fmap option_fmap option_map].
  rewrite getDate_day_zero by lia.
  change (Front.dates_to (Some (last_day_of_month y m)))
    with (days_to (last_day_of_month y m)).
  apply map_ext_in. intros k Hk. apply In_days_to in Hk.
  pose proof (last_day_bounds y m) as Hlast.
  assert (Hs : Front.formatDate (make y (m - 1) k) = day_string y m k).
  { apply formatDate_calendar_day.
    replace m with (m - 1 + 1) at 2 by lia.
    apply calendar_day_make; [lia|lia|replace (m - 1 + 1) with m by lia; lia|].
    rewrite make_plain by lia. discriminate. }
  rewrite Hs. reflexivity.
Qed.

Lemma render_blanks st now : (Front.blanks (Front.renderCalendar st now) < 7)%nat.
Proof.
  unfold Front.renderCalendar. cbn [Front.blanks].
  destruct (Front.getDay _) as [n|] eqn:Hn; [|lia].
  unfold Front.getDay in Hn.
  destruct (Front.newDate _ _ _) as [t|]; [|discriminate].
  cbn in Hn. injection Hn as <-.
  pose proof (Z.mod_pos_bound (t + 4) 7 ltac:(lia)). lia.
Qed.

End FrontGrid.

(** X15.  On a host whose time zone is UTC, a valid date object made from
    a year outside 0 to 99, a month and a day of that month is formatted as
    the year, the month and the day, the last two padded to two digits. *)
Theorem formatDate_of_new_date (y m d : Z) :
  y < 0 \/ 99 < y -> 0 <= m <= 11 -> 1 <= d <= last_day_of_month y (m + 1) ->
  JSDate.make y m d <> None ->
  Front.formatDate (JSDate.make y m d) = day_string y (m + 1) d.
Proof.
  intros Hy Hm Hd Hv. apply formatDate_calendar_day, calendar_day_make; assumption.
Qed.

Lemma formatDate_of_new_date_witness :
  Front.formatDate (JSDate.make 2024 1 29) = "2024-02-29".
Proof.
  apply (formatDate_of_new_date 2024 1 29).
  - right. lia.
  - lia.
  - change (1 <= 29 <= 29). lia.
  - vm_compute. discriminate.
Defined.

(** X16.  On a host whose time zone keeps one offset, as UTC does: for a
    current month of the years 100 to 275759 the grid has one cell for each
    day of the month, first to last; a cell carries its
    day's date string, the number of tasks held for that day, and whether
    the day is today and is the selected day.  At most six empty cells
    come before them. *)
Theorem calendar_shows_each_day_of_the_month
    (st : Front.State) (now y m d : Z) :
  calendar_day (Front.current st) = Some (y, m, d) ->
  100 <= y < 275760 ->
  Front.cells (Front.renderCalendar st now)
  = map (fun k =>
           {| Front.cell_date := k;
              Front.cell_dateStr := day_string y m k;
              Front.cell_today :=
                String.eqb (day_string y m k) (Front.formatDate (Some now));
              Front.cell_selected :=
                String.eqb (day_string y m k) (Front.selectedDate st);
              Front.cell_count := tasks_on (day_string y m k) (Front.tasks st) |})
        (days_to (last_day_of_month y m))
  /\ (Front.blanks (Front.renderCalendar st now) < 7)%nat.
Proof.
  intros Hc Hy. split; [apply (render_cells st now y m d Hc Hy)|apply render_blanks].
Qed.

Lemma calendar_shows_each_day_of_the_month_witness :
  map Front.cell_date
      (Front.cells (Front.renderCalendar (Front.init None 19782) 19782))
  = days_to 29.
Proof.
  destruct (calendar_shows_each_day_of_the_month (Front.init None 19782) 19782
              2024 2 29) as [Hcells _].
  - vm_compute. reflexivity.
  - lia.
  - rewrite Hcells, map_map. reflexivity.
Defined.

(** X17.  For a current month of the years 101 to 275758 the next-month
    button moves the calendar to the first day of the following month, the
    previous-month button to the first day of the preceding month, and
    either button undoes the other. *)
Theorem month_buttons_move_one_month (st : Front.State) (y m d : Z) :
  calendar_day (Front.current st) = Some (y, m, d) ->
  100 < y < 275759 ->
  calendar_day (Front.current (Front.handle st Front.NextMonth))
  = Some (month_after y m, 1)
  /\ calendar_day (Front.current (Front.handle st Front.PrevMonth))
     = Some (month_before y m, 1)
  /\ calendar_day (Front.current (Front.run st [Front.NextMonth; Front.PrevMonth]))
     = Some (y, m, 1)
  /\ calendar_day (Front.current (Front.run st [Front.PrevMonth; Front.NextMonth]))
     = Some (y, m, 1).
Proof.
  intros Hc Hy. destruct (calendar_day_inv _ _ _ _ Hc) as (day & _ & _ & Hm & _).
  pose proof (next_month_day st y m d Hc ltac:(lia)) as Hn.
  pose proof (prev_month_day st y m d Hc ltac:(lia)) as Hp.
  destruct (month_before_after y m Hm) as [Hba Hab].
  pose proof (month_after_bounds y m Hm) as Hbn.
  pose proof (month_before_bounds y m Hm) as Hbp.
  repeat split; [exact Hn|exact Hp| |].
  - unfold Front.run. cbn [fold_left].
    destruct (month_after y m) as [y' m']. simpl in Hba, Hbn.
    rewrite (prev_month_day _ y' m' 1 Hn) by lia. rewrite Hba. reflexivity.
  - unfold Front.run. cbn [fold_left].
    destruct (month_before y m) as [y' m']. simpl in Hab, Hbp.
    rewrite (next_month_day _ y' m' 1 Hp) by lia. rewrite Hab. reflexivity.
Qed.

Lemma month_buttons_move_one_month_witness :
  calendar_day (Front.current
                  (Front.run (Front.init None 19782)
                     [Front.NextMonth; Front.PrevMonth]))
  = Some (2024, 2, 1).
Proof.
  destruct (month_buttons_move_one_month (Front.init None 19782) 2024 2 29)
    as (_ & _ & Hround & _).
  - vm_compute. reflexivity.
  - lia.
  - exact Hround.
Defined.

(** X18.  From a current month of the years 0 to 99 the month buttons do
    not move to a neighbouring month: the [Date] constructor reads such a
    year as a year of the 1900s, and the calendar lands 1900 years
    later. *)
Theorem two_digit_years_jump_to_the_1900s (st : Front.State) (y m d : Z) :
  calendar_day (Front.current st) = Some (y, m, d) ->
  0 <= y <= 99 ->
  calendar_day (Front.current (Front.handle st Front.NextMonth))
  = Some (month_after (1900 + y) m, 1)
  /\ calendar_day (Front.current (Front.handle st Front.PrevMonth))
     = Some (month_before (1900 + y) m, 1).
Proof.
  intros Hc Hy. destruct (calendar_day_inv _ _ _ _ Hc) as (day & _ & _ & Hm & _).
  destruct (getters _ _ _ _ Hc) as (Hgy & Hgm & _).
  split; cbn [Front.handle Front.current]; rewrite Hgy, Hgm;
    cbn [fmap option_fmap option_map Front.newDate];
    rewrite make_two_digit_year by lia.
  - replace (m - 1 + 1) with m by lia.
    rewrite first_of_month by lia. rewrite <- first_after by lia. reflexivity.
  - replace (m - 1 - 1) with (m - 2) by lia.
    rewrite first_of_month by lia. rewrite <- first_before by lia. reflexivity.
Qed.

Lemma two_digit_years_jump_to_the_1900s_witness :
  calendar_day
    (Front.current
       (Front.handle {| Front.current := Some (JSDate.MakeDay 50 11 15);
                        Front.selectedDate := "";
                        Front.tasks := [];
                        Front.saved := None |}
                     Front.NextMonth))
  = Some (1951, 1, 1).
Proof.
  destruct (two_digit_years_jump_to_the_1900s
              {| Front.current := Some (JSDate.MakeDay 50 11 15);
                 Front.selectedDate := "";
                 Front.tasks := [];
                 Front.saved := None |} 50 12 15) as [Hnext _].
  - vm_compute. reflexivity.
  - lia.
  - exact Hnext.
Defined.

(** X19.  On a host whose time zone keeps one offset, as UTC does: after
    the today button, for a today of the years 100 to 275759, the calendar
    shows today's month, today is the selected day, and the
    grid marks as today and as selected the cell of today's day number and
    no other. *)
Theorem today_button_marks_today (st : Front.State) (now y m d : Z) :
  calendar_day (Some now) = Some (y, m, d) ->
  100 <= y < 275760 ->
  Front.selectedDate (Front.handle st (Front.Today now)) = day_string y m d
  /\ calendar_day (Front.current (Front.handle st (Front.Today now))) = Some (y, m, 1)
  /\ Forall (fun c => Front.cell_today c = (Front.cell_date c =? d)
                      /\ Front.cell_selected c = (Front.cell_date c =? d))
            (Front.cells (Front.renderCalendar (Front.handle st (Front.Today now)) now)).
Proof.
  intros Hc Hy. destruct (calendar_day_inv _ _ _ _ Hc) as (day & _ & _ & Hm & Hd).
  destruct (getters _ _ _ _ Hc) as (Hgy & Hgm & _).
  pose proof (formatDate_calendar_day _ _ _ _ Hc) as Hfmt.
  assert (Hcur : calendar_day (Front.current (Front.handle st (Front.Today now)))
                 = Some (y, m, 1)).
  { cbn [Front.handle Front.current]. rewrite Hgy, Hgm. cbn [Front.newDate].
    rewrite first_of_month by lia. do 3 f_equal; Z.div_mod_to_equations; lia. }
  split; [exact Hfmt|]. split; [exact Hcur|].
  rewrite (render_cells _ now y m 1 Hcur Hy).
  apply List.Forall_forall. intros c Hin. apply in_map_iff in Hin as (k & <- & Hk).
  apply In_days_to in Hk. pose proof (last_day_bounds y m) as Hlast.
  cbn [Front.cell_today Front.cell_selected Front.cell_date Front.handle
       Front.selectedDate].
  rewrite Hfmt. rewrite day_string_eqb by lia. split; reflexivity.
Qed.

Lemma today_button_marks_today_witness :
  Front.selectedDate (Front.handle (Front.init None 0) (Front.Today 19782))
  = "2024-02-29".
Proof.
  destruct (today_button_marks_today (Front.init None 0) 19782 2024 2 29)
    as (Hsel & _).
  - vm_compute. reflexivity.
  - lia.
  - exact Hsel.
Defined.

(** ** The front end's task list *)

Section FrontTasks.

Lemma filter_all_true {A} (f : A -> bool) (l : list A) :
  Forall (fun x => f x = true) l -> List.filter f l = l.
Proof.
  induction 1 as [|x l Hx _ IH]; simpl; [reflexivity|]. rewrite Hx, IH. reflexivity.
Qed.

Lemma tasks_on_map d (f : Front.Item -> Front.Item) (l : list Front.Item) :
  (forall t, Front.date (f t) = Front.date t) ->
  tasks_on d (map f l) = tasks_on d l.
Proof.
  intros Hf. unfold tasks_on. induction l as [|t l IH]; simpl; [reflexivity|].
  rewrite Hf. destruct (String.eqb (Front.date t) d); simpl; congruence.
Qed.

Lemma spread_date t u : Front.u_date u = None -> Front.date (Front.spread t u) = Front.date t.
Proof. intros Hu. unfold Front.spread. simpl. rewrite Hu. reflexivity. Qed.

Lemma render_same_counts st st' now :
  Front.current st' = Front.current st ->
  Front.selectedDate st' = Front.selectedDate st ->
  (forall d, tasks_on d (Front.tasks st') = tasks_on d (Front.tasks st)) ->
  Front.renderCalendar st' now = Front.renderCalendar st now.
Proof.
  intros Hc Hs Ht. unfold Front.renderCalendar. rewrite Hc, Hs. f_equal.
  apply map_ext. intros k. f_equal. apply Ht.
Qed.

Lemma updateTask_calendar st tid u now :
  Front.u_date u = None ->
  Front.renderCalendar (Front.updateTask tid u st) now = Front.renderCalendar st now.
Proof.
  intros Hu. apply render_same_counts; try reflexivity.
  intros d. simpl. apply tasks_on_map. intros t.
  destruct (String.eqb (Front.id t) tid); [apply spread_date, Hu|reflexivity].
Qed.

Lemma handle_saved st e :
  Front.loadTasks (Front.saved st) = Front.tasks st ->
  Front.loadTasks (Front.saved (Front.handle st e)) = Front.tasks (Front.handle st e).
Proof.
  intros H. destruct e as [s| | |n|v u n|tid v|tid [s|]|tid [|]]; simpl; try exact H;
    try reflexivity.
  - destruct (String.eqb (Str.trim v) ""); [exact H|reflexivity].
  - destruct (negb (String.eqb s "") && negb (String.eqb (Str.trim s) ""));
      [reflexivity|exact H].
Qed.

Lemma handle_titles st e :
  Forall (fun t => Front.title t <> "") (Front.tasks st) ->
  Forall (fun t => Front.title t <> "") (Front.tasks (Front.handle st e)).
Proof.
  intros H. destruct e as [s| | |n|v u n|tid v|tid [s|]|tid [|]]; simpl; try exact H.
  - destruct (String.eqb (Str.trim v) "") eqn:Hv; [exact H|].
    simpl. constructor; [|exact H]. simpl. apply String.eqb_neq, Hv.
  - apply List.Forall_forall. intros t Hin. apply in_map_iff in Hin as (t0 & <- & Hin).
    rewrite List.Forall_forall in H.
    destruct (String.eqb (Front.id t0) tid); simpl; apply H, Hin.
  - destruct (negb (String.eqb s "") && negb (String.eqb (Str.trim s) "")) eqn:Hs;
      [|exact H].
    apply andb_true_iff in Hs as [_ Hs]. apply negb_true_iff, String.eqb_neq in Hs.
    simpl. apply List.Forall_forall. intros t Hin.
    apply in_map_iff in Hin as (t0 & <- & Hin). rewrite List.Forall_forall in H.
    destruct (String.eqb (Front.id t0) tid); simpl; [exact Hs|apply H, Hin].
  - simpl. rewrite List.Forall_forall in *. intros t Hin.
    apply filter_In in Hin as [Hin _]. apply H, Hin.
Qed.

End FrontTasks.

(** X20.  Removing a task just added, whose id no other task has, gives
    back the task list, in the page and in the storage. *)
Theorem add_then_remove_restores_the_tasks
    (st : Front.State) (ttl uid now : string) :
  Forall (fun t => Front.id t <> uid) (Front.tasks st) ->
  Front.tasks (Front.removeTask uid (Front.addTask ttl uid now st)) = Front.tasks st
  /\ Front.saved (Front.removeTask uid (Front.addTask ttl uid now st))
     = Some (Front.tasks st).
Proof.
  intros Hfresh.
  assert (Hkeep : List.filter (fun t => negb (String.eqb (Front.id t) uid))
                              (Front.tasks st) = Front.tasks st).
  { apply filter_all_true. eapply List.Forall_impl; [|exact Hfresh].
    intros t Ht. apply negb_true_iff, String.eqb_neq, Ht. }
  simpl. rewrite String.eqb_refl. simpl. rewrite Hkeep. split; reflexivity.
Qed.

Lemma add_then_remove_restores_the_tasks_witness :
  Front.tasks
    (Front.removeTask "b"
       (Front.addTask "report" "b" "t1"
          (Front.addTask "notes" "a" "t0" (Front.init None 19782))))
  = [front_task "2024-02-29" "notes" "a" "t0"].
Proof.
  destruct (add_then_remove_restores_the_tasks
              (Front.addTask "notes" "a" "t0" (Front.init None 19782))
              "report" "b" "t1") as [Htasks _].
  - repeat constructor. simpl. discriminate.
  - exact Htasks.
Defined.

(** X21.  A move of a slider and an answer to the edit prompt leave the
    calendar grid as it was: they change no task's date, so every day
    keeps its count. *)
Theorem progress_and_title_edits_keep_the_calendar
    (st : Front.State) (tid : string) (value now : Z) (next : option string) :
  Front.renderCalendar (Front.handle st (Front.Slide tid value)) now
  = Front.renderCalendar st now
  /\ Front.renderCalendar (Front.handle st (Front.Edit tid next)) now
     = Front.renderCalendar st now.
Proof.
  split.
  - apply updateTask_calendar. reflexivity.
  - destruct next as [s|]; [|reflexivity]. cbn [Front.handle].
    destruct (negb (String.eqb s "") && negb (String.eqb (Str.trim s) ""));
      [|reflexivity].
    apply updateTask_calendar. reflexivity.
Qed.

(** X22.  If no task read from the storage has an empty title, no task of
    the page ever has one, whatever the user does: the form and the edit
    prompt drop titles that are empty once trimmed. *)
Theorem front_titles_never_blank
    (raw : option (list Front.Item)) (now : Z) (es : list Front.event) :
  Forall (fun t => Front.title t <> "") (Front.loadTasks raw) ->
  Forall (fun t => Front.title t <> "")
         (Front.tasks (Front.run (Front.init raw now) es)).
Proof.
  intros H0. unfold Front.run.
  assert (Hgen : forall st, Forall (fun t => Front.title t <> "") (Front.tasks st) ->
                 Forall (fun t => Front.title t <> "")
                        (Front.tasks (fold_left Front.handle es st))).
  { induction es as [|e es IH]; intros st Hst; [exact Hst|].
    simpl. apply IH, handle_titles, Hst. }
  apply Hgen. exact H0.
Qed.

Lemma front_titles_never_blank_witness :
  Forall (fun t => Front.title t <> "")
         (Front.tasks
            (Front.run (Front.init None 19782)
               [Front.Submit "  report " "a" "t0"; Front.Submit "   " "b" "t1";
                Front.Edit "a" (Some " ")])).
Proof.
  apply (front_titles_never_blank None 19782). constructor.
Defined.

(** X23.  Whatever the user does, the storage holds the page's task list:
    loading it again gives the tasks the page shows. *)
Theorem reload_restores_the_tasks
    (raw : option (list Front.Item)) (now : Z) (es : list Front.event) :
  Front.loadTasks (Front.saved (Front.run (Front.init raw now) es))
  = Front.tasks (Front.run (Front.init raw now) es).
Proof.
  unfold Front.run.
  assert (Hgen : forall st, Front.loadTasks (Front.saved st) = Front.tasks st ->
                 Front.loadTasks (Front.saved (fold_left Front.handle es st))
                 = Front.tasks (fold_left Front.handle es st)).
  { induction es as [|e es IH]; intros st Hst; [exact Hst|].
    simpl. apply IH, handle_saved, Hst. }
  apply Hgen. reflexivity.
Qed.

(** X24.  A submitted title that is empty once trimmed changes nothing;
    any other puts a task with the trimmed title, the selected day and no
    progress at the head of the list shown for the selected day. *)
Theorem submit_adds_to_the_selected_day
    (st : Front.State) (value uid now : string) :
  (if String.eqb (Str.trim value) ""
   then Front.handle st (Front.Submit value uid now) = st
   else Front.renderTasks (Front.handle st (Front.Submit value uid now))
        = front_task (Front.selectedDate st) (Str.trim value) uid now
          :: Front.renderTasks st).
Proof.
  cbn [Front.handle]. destruct (String.eqb (Str.trim value) ""); [reflexivity|].
  unfold Front.renderTasks. simpl. rewrite String.eqb_refl. reflexivity.
Qed.
